(** * Double-entry bookkeeping core of [utility_functions/utilities.py]

    A shallow embedding of the ledger posting helper, the balance
    calculators, the invoice and bill life cycle, the payment
    application, the void handlers and the trial balance report, with the
    properties of the specification stated and settled against them.

    Conventions of the embedding.
    - A [Decimal] is a rational ([Q]); Python's [==], [<], [<=] on
      decimals are [Qeq_bool] and [Qle_bool].  Every operation the code
      performs on the decimals it is called with ([+], [-], [*], division
      by [Decimal(100)]) is exact within the 28 significant digits of the
      default decimal context, which is the range the embedding
      describes.
    - What the code reads back from an aggregate ([SUM]) is not a
      decimal: SQLite returns an integer or a double, and the functions
      that use such a value are embedded with Python's numbers as they
      are, [int], [float] (a primitive double) and [Decimal], the
      [TypeError] of mixing the last two and the rounding of the decimal
      context included.
    - A column read back row by row is the decimal that was written:
      the connection converts a [DECIMAL] column from its text, which
      gives the written value back for amounts of up to 15 significant
      digits, the range the embedding describes.
    - References between tables are not enforced: a row may name an
      account, a customer or a vendor that does not exist.  The
      statements about rows of known accounts carry that as a
      hypothesis.
    - The SQLite connection is a committed database, the database as
      seen inside the open transaction (if any), and the day returned by
      [DATE('now')].  Statements read and write the visible database;
      [commit] publishes it, [rollback] drops it.
    - A Python function is a state-and-exception computation over the
      connection; an exception keeps the connection as it was when it was
      raised, exactly as in Python, and the [except] blocks of the source
      are written out. *)

From Stdlib Require Import List String Ascii ZArith QArith Bool Lia.
From Stdlib Require Import Permutation Sorted DecimalString.
From Stdlib Require Import Lqa.
From Stdlib Require DecimalPos.
From Corelib Require PrimFloat.
From Stdlib Require FloatOps Uint63.
Import ListNotations.

Local Open Scope string_scope.
Local Open Scope Z_scope.

(** ** Decimals *)

Abbreviation Decimal := Q (only parsing).

Definition dec_eqb (x y : Decimal) : bool := Qeq_bool x y.
Definition dec_leb (x y : Decimal) : bool := Qle_bool x y.
Definition dec_ltb (x y : Decimal) : bool := negb (Qle_bool y x).

(** [str(n)] and the [{n}] of an f-string, for an integer. *)
Definition str_int (n : Z) : string := NilZero.string_of_int (Z.to_int n).

(** [x or y] for an optional text: [None] and the empty string are falsy. *)
Definition str_or (x : option string) (y : string) : string :=
  match x with
  | Some s => if String.eqb s "" then y else s
  | None => y
  end.

(** ** Tables

    One module per table; the rows carry the columns the functions read
    or write. *)

Module Account.
Record t := mk {
  AccountID : Z;
  AccountNumber : string;
  AccountName : string;
  AccountType : string;
  BalanceType : string;
  IsActive : bool }.
End Account.

Module GL.
Record t := mk {
  LedgerEntryID : Z;
  EntryDate : string;
  Description : string;
  AccountID : Z;
  DebitAmount : Decimal;
  CreditAmount : Decimal;
  EntryType : option string;
  Reference : option string;
  CreatedBy : Z }.
End GL.

Module Invoice.
Record t := mk {
  InvoiceID : Z;
  InvoiceNumber : string;
  CustomerID : Z;
  InvoiceDate : string;
  DueDate : string;
  TotalAmount : Decimal;
  PaidAmount : Decimal;
  Balance : Decimal;
  Status : string;
  CreatedBy : Z }.

(** [SET PaidAmount = TotalAmount, Balance = 0.00, Status = 'Paid'] *)
Definition mark_paid (i : t) : t :=
  mk (InvoiceID i) (InvoiceNumber i) (CustomerID i) (InvoiceDate i) (DueDate i)
     (TotalAmount i) (TotalAmount i) 0%Q "Paid" (CreatedBy i).

(** [SET Status = 'Cancelled', Balance = 0.00] *)
Definition mark_cancelled (i : t) : t :=
  mk (InvoiceID i) (InvoiceNumber i) (CustomerID i) (InvoiceDate i) (DueDate i)
     (TotalAmount i) (PaidAmount i) 0%Q "Cancelled" (CreatedBy i).
End Invoice.

Module InvoiceItem.
Record t := mk {
  InvoiceID : Z;
  Description : string;
  Quantity : Decimal;
  UnitPrice : Decimal;
  TaxRate : Decimal;
  TaxAmount : Decimal;
  LineTotal : Decimal;
  AccountID : Z }.
End InvoiceItem.

Module Bill.
Record t := mk {
  BillID : Z;
  BillNumber : string;
  VendorID : Z;
  BillDate : string;
  DueDate : string;
  TotalAmount : Decimal;
  PaidAmount : Decimal;
  Status : string;
  CreatedBy : Z }.

(** Modelled from the spec: the schema of [Bills] is not among the
    sources.  The code inserts no [Balance] ("Balance is a GENERATED
    column") and relies on it following [PaidAmount]; the specification
    gives the formula, Balance = Total - Paid. *)
Definition Balance (b : t) : Decimal := (TotalAmount b - PaidAmount b)%Q.

(** [SET PaidAmount = TotalAmount, Status = 'Paid'] *)
Definition mark_paid (b : t) : t :=
  mk (BillID b) (BillNumber b) (VendorID b) (BillDate b) (DueDate b)
     (TotalAmount b) (TotalAmount b) "Paid" (CreatedBy b).

(** [SET Status = 'Cancelled'] *)
Definition mark_cancelled (b : t) : t :=
  mk (BillID b) (BillNumber b) (VendorID b) (BillDate b) (DueDate b)
     (TotalAmount b) (PaidAmount b) "Cancelled" (CreatedBy b).
End Bill.

Module BillItem.
Record t := mk {
  BillID : Z;
  Description : string;
  Quantity : Decimal;
  UnitPrice : Decimal;
  TaxRate : Decimal;
  AccountID : Z }.
End BillItem.

(** [CustomerPayments] and [VendorPayments] have the same columns; the
    party is the customer or the vendor. *)
Module Payment.
Record t := mk {
  PaymentID : Z;
  PartyID : Z;
  PaymentDate : string;
  Amount : Decimal;
  PaymentMethod : string;
  Reference : option string;
  BankAccountID : Z;
  CreatedBy : Z }.
End Payment.

Module BankAccount.
Record t := mk {
  BankAccountID : Z;
  CurrentBalance : Decimal }.
End BankAccount.

Module CashTransaction.
Record t := mk {
  TransactionID : Z;
  TransactionDate : string;
  BankAccountID : Z;
  TransactionType : string;
  Amount : Decimal;
  Description : string;
  Reference : string;
  RelatedAccountID : Z;
  CreatedBy : Z }.
End CashTransaction.

Record DB := mkDB {
  ChartOfAccounts : list Account.t;
  GeneralLedger : list GL.t;
  Invoices : list Invoice.t;
  InvoiceItems : list InvoiceItem.t;
  Bills : list Bill.t;
  BillItems : list BillItem.t;
  CustomerPayments : list Payment.t;
  VendorPayments : list Payment.t;
  BankAccounts : list BankAccount.t;
  CashTransactions : list CashTransaction.t }.

Definition with_GeneralLedger (v : list GL.t) (d : DB) : DB :=
  mkDB (ChartOfAccounts d) v (Invoices d) (InvoiceItems d) (Bills d)
       (BillItems d) (CustomerPayments d) (VendorPayments d)
       (BankAccounts d) (CashTransactions d).

Definition with_Invoices (v : list Invoice.t) (d : DB) : DB :=
  mkDB (ChartOfAccounts d) (GeneralLedger d) v (InvoiceItems d) (Bills d)
       (BillItems d) (CustomerPayments d) (VendorPayments d)
       (BankAccounts d) (CashTransactions d).

Definition with_InvoiceItems (v : list InvoiceItem.t) (d : DB) : DB :=
  mkDB (ChartOfAccounts d) (GeneralLedger d) (Invoices d) v (Bills d)
       (BillItems d) (CustomerPayments d) (VendorPayments d)
       (BankAccounts d) (CashTransactions d).

Definition with_Bills (v : list Bill.t) (d : DB) : DB :=
  mkDB (ChartOfAccounts d) (GeneralLedger d) (Invoices d) (InvoiceItems d) v
       (BillItems d) (CustomerPayments d) (VendorPayments d)
       (BankAccounts d) (CashTransactions d).

Definition with_BillItems (v : list BillItem.t) (d : DB) : DB :=
  mkDB (ChartOfAccounts d) (GeneralLedger d) (Invoices d) (InvoiceItems d)
       (Bills d) v (CustomerPayments d) (VendorPayments d)
       (BankAccounts d) (CashTransactions d).

Definition with_CustomerPayments (v : list Payment.t) (d : DB) : DB :=
  mkDB (ChartOfAccounts d) (GeneralLedger d) (Invoices d) (InvoiceItems d)
       (Bills d) (BillItems d) v (VendorPayments d)
       (BankAccounts d) (CashTransactions d).

Definition with_VendorPayments (v : list Payment.t) (d : DB) : DB :=
  mkDB (ChartOfAccounts d) (GeneralLedger d) (Invoices d) (InvoiceItems d)
       (Bills d) (BillItems d) (CustomerPayments d) v
       (BankAccounts d) (CashTransactions d).

Definition with_BankAccounts (v : list BankAccount.t) (d : DB) : DB :=
  mkDB (ChartOfAccounts d) (GeneralLedger d) (Invoices d) (InvoiceItems d)
       (Bills d) (BillItems d) (CustomerPayments d) (VendorPayments d)
       v (CashTransactions d).

Definition with_CashTransactions (v : list CashTransaction.t) (d : DB) : DB :=
  mkDB (ChartOfAccounts d) (GeneralLedger d) (Invoices d) (InvoiceItems d)
       (Bills d) (BillItems d) (CustomerPayments d) (VendorPayments d)
       (BankAccounts d) v.

(** [cursor.lastrowid] of an insert into a table whose integer keys are
    [ids]: one more than the largest key, 1 for an empty table. *)
Definition next_rowid (ids : list Z) : Z := fold_right Z.max 0 ids + 1.

(** ** The connection *)

Record Connection := mkConn {
  committed : DB;
  pending : option DB;
  today : string }.

(** The database the connection's statements see. *)
Definition visible (c : Connection) : DB :=
  match pending c with
  | Some d => d
  | None => committed c
  end.

(** No transaction is open. *)
Definition idle (c : Connection) : Prop := pending c = None.

(** ** Exceptions and the computation type *)

Inductive exn :=
| ValueError (msg : string)
| TypeError (msg : string)
| OperationalError (msg : string)
| IntegrityError (msg : string).

Inductive outcome (A : Type) :=
| Ok (a : A)
| Raise (e : exn).
Arguments Ok {A} a.
Arguments Raise {A} e.

Definition M (A : Type) : Type := Connection -> outcome A * Connection.

Definition ret {A} (a : A) : M A := fun c => (Ok a, c).

Definition bind {A B} (m : M A) (k : A -> M B) : M B :=
  fun c =>
    match m c with
    | (Ok a, c') => k a c'
    | (Raise e, c') => (Raise e, c')
    end.

Definition raise {A} (e : exn) : M A := fun c => (Raise e, c).

(** [try: body except Exception as e: handler e] *)
Definition try_except {A} (body : M A) (handler : exn -> M A) : M A :=
  fun c =>
    match body c with
    | (Ok a, c') => (Ok a, c')
    | (Raise e, c') => handler e c'
    end.

Declare Scope conn_scope.
Delimit Scope conn_scope with conn.
Notation "x <- m ;; k" := (bind m (fun x => k))
  (at level 100, m at next level, right associativity) : conn_scope.
Notation "m ;; k" := (bind m (fun _ => k))
  (at level 100, right associativity) : conn_scope.
Local Open Scope conn_scope.

(** [conn.execute("BEGIN")]: SQLite refuses a transaction within a
    transaction. *)
Definition BEGIN : M unit :=
  fun c =>
    match pending c with
    | Some _ =>
        (Raise (OperationalError
                  "cannot start a transaction within a transaction"), c)
    | None => (Ok tt, mkConn (committed c) (Some (committed c)) (today c))
    end.

(** [conn.commit()] *)
Definition commit : M unit :=
  fun c => (Ok tt, mkConn (visible c) None (today c)).

(** [conn.rollback()] *)
Definition rollback : M unit :=
  fun c => (Ok tt, mkConn (committed c) None (today c)).

(** A [SELECT]: reads the visible database. *)
Definition select {A} (q : DB -> A) : M A :=
  fun c => (Ok (q (visible c)), c).

(** An [INSERT] or [UPDATE]: the sqlite3 module opens a transaction
    before the statement when none is open. *)
Definition execute (f : DB -> DB) : M unit :=
  fun c => (Ok tt, mkConn (committed c) (Some (f (visible c))) (today c)).

(** [DATE('now')] *)
Definition date_now : M string := fun c => (Ok (today c), c).

(** ** Posting helper *)

(** One element of [entries]:
    [(account_id, debit_amount, credit_amount, description)]. *)
Definition gl_entry : Type := Z * Decimal * Decimal * string.

Definition insert_gl (desc : string) (account_id : Z) (debit credit : Decimal)
    (entry_type reference : option string) (created_by : Z) : M Z :=
  d <- date_now ;;
  id <- select (fun db => next_rowid (map GL.LedgerEntryID (GeneralLedger db))) ;;
  execute (fun db =>
    with_GeneralLedger
      (GeneralLedger db ++
       [GL.mk id d desc account_id debit credit entry_type reference created_by])
      db) ;;
  ret id.

(** The [for] loop of [_generate_gl_entries]: every line is inserted as
    it is met, and the running totals are carried along. *)
Fixpoint gl_loop (entries : list gl_entry) (created_by : Z)
    (entry_type reference : option string)
    (total_debit total_credit : Decimal) : M (Decimal * Decimal) :=
  match entries with
  | [] => ret (total_debit, total_credit)
  | (account_id, debit, credit, desc) :: rest =>
      let total_debit := (total_debit + debit)%Q in
      let total_credit := (total_credit + credit)%Q in
      insert_gl desc account_id debit credit entry_type reference created_by ;;
      gl_loop rest created_by entry_type reference total_debit total_credit
  end.

Definition unbalanced_msg : string := "GL entries are unbalanced.".

Definition _generate_gl_entries (entries : list gl_entry) (created_by_employee_id : Z)
    (entry_type reference : option string) : M unit :=
  totals <- gl_loop entries created_by_employee_id entry_type reference 0%Q 0%Q ;;
  let '(total_debit, total_credit) := totals in
  if negb (dec_eqb total_debit total_credit)
  then raise (ValueError unbalanced_msg)
  else ret tt.

(** ** Query helpers *)

(** [fetchone] of a [SELECT ... WHERE key = ?]: the first matching row. *)
Definition fetchone {A} (p : A -> bool) (rows : list A) : option A := find p rows.

(** [UPDATE ... SET ... WHERE ...] on one table. *)
Definition update_where {A} (p : A -> bool) (f : A -> A) (rows : list A) : list A :=
  map (fun r => if p r then f r else r) rows.

(** [cursor.rowcount] of that [UPDATE]. *)
Definition rowcount {A} (p : A -> bool) (rows : list A) : Z :=
  Z.of_nat (List.length (filter p rows)).

(** ** Numbers in the database and in Python

    The money columns are declared [DECIMAL]: the connections the module
    is used with register an adapter that writes a [Decimal] as its text
    and a converter that reads a [DECIMAL] column back into a [Decimal]
    ([sqlite3.register_adapter(Decimal, str)],
    [sqlite3.register_converter("DECIMAL", ...)] in every test module).
    Such a column has SQLite's NUMERIC affinity: the text written is kept
    as an INTEGER when it denotes a whole number and as a REAL, the
    nearest double, otherwise.  A column that is read goes through the
    converter and gives the decimal back.  An aggregate such as [SUM] has
    no declared type, so Python receives its value as SQLite computed it,
    an [int] or a [float]. *)

Inductive sqlnum :=
| SqlInteger (z : Z)
| SqlReal (f : PrimFloat.float).

(** The double of an integer (exact below 2^53, rounded to nearest above). *)
Definition float_of_Z (z : Z) : PrimFloat.float :=
  if z <? 0 then PrimFloat.opp (PrimFloat.of_uint63 (Uint63.of_Z (- z)))
  else PrimFloat.of_uint63 (Uint63.of_Z z).

(** The double nearest to a decimal: numerator by denominator in lowest
    terms, which the division rounds correctly when both are below 2^53,
    as they are for amounts of up to 15 significant digits. *)
Definition to_double (x : Decimal) : PrimFloat.float :=
  let r := Qred x in
  PrimFloat.div (float_of_Z (Qnum r)) (float_of_Z (Zpos (Qden r))).

Definition is_whole (x : Decimal) : bool := Qnum x mod Zpos (Qden x) =? 0.

(** What a [DECIMAL] column holds after [x] has been written to it. *)
Definition stored (x : Decimal) : sqlnum :=
  let z := Qnum x / Zpos (Qden x) in
  if (is_whole x && (- 2 ^ 63 <=? z) && (z <? 2 ^ 63))%bool
  then SqlInteger z
  else SqlReal (to_double x).

Definition is_integer (v : sqlnum) : bool :=
  match v with SqlInteger _ => true | SqlReal _ => false end.

Definition integer_of (v : sqlnum) : Z :=
  match v with SqlInteger z => z | SqlReal _ => 0 end.

Definition real_of (v : sqlnum) : PrimFloat.float :=
  match v with SqlInteger z => float_of_Z z | SqlReal f => f end.

(** SQL [SUM]: [NULL] over no row, an INTEGER when every value is one
    (within 64 bits), and otherwise a REAL, the values added in double
    precision row by row. *)
Definition sqlite_sum (xs : list sqlnum) : option sqlnum :=
  match xs with
  | [] => None
  | _ =>
      if forallb is_integer xs
      then Some (SqlInteger (fold_left (fun s v => s + integer_of v) xs 0))
      else Some (SqlReal (fold_left (fun s v => PrimFloat.add s (real_of v)) xs
                            PrimFloat.zero))
  end.

(** Python's numbers. *)
Inductive pynum :=
| PyInt (z : Z)
| PyFloat (f : PrimFloat.float)
| PyDecimal (d : Decimal).

(** The Python value of a number SQLite returns undeclared. *)
Definition py_of_sql (v : sqlnum) : pynum :=
  match v with SqlInteger z => PyInt z | SqlReal f => PyFloat f end.

(** Truth value of a number: zero is falsy. *)
Definition truthy (x : pynum) : bool :=
  match x with
  | PyInt z => negb (z =? 0)
  | PyFloat f => negb (PrimFloat.eqb f PrimFloat.zero)
  | PyDecimal d => negb (dec_eqb d 0%Q)
  end.

(** [x if x else Decimal('0.00')] for the value of a [SUM]: [None] and
    zero are falsy. *)
Definition sum_or_zero (x : option sqlnum) : pynum :=
  match x with
  | Some v => if truthy (py_of_sql v) then py_of_sql v else PyDecimal 0%Q
  | None => PyDecimal 0%Q
  end.

(** *** The decimal context

    The result of an operation on decimals is rounded to the 28
    significant digits of the default context, ties to even. *)

Definition context_prec : Z := 28.

(** The number of decimal digits of a positive integer. *)
Definition digits (z : Z) : Z := Z.of_nat (String.length (str_int z)).

(** [n / d] rounded to the nearest integer, ties to even. *)
Definition round_half_even (n d : Z) : Z :=
  let q := n / d in
  let r := 2 * (n mod d) in
  if r <? d then q
  else if d <? r then q + 1
  else if Z.even q then q else q + 1.

(** The [p] with [10^(p-1) <= n/d < 10^p], for positive [n] and [d]. *)
Definition magnitude (n d : Z) : Z :=
  if d <=? n then digits (n / d)
  else 1 - digits ((d + n - 1) / n - 1).

Definition context_round (x : Decimal) : Decimal :=
  let n := Z.abs (Qnum x) in
  let d := Zpos (Qden x) in
  if n =? 0 then 0%Q
  else
    let s := context_prec - magnitude n d in
    let v :=
      if 0 <=? s
      then Qmake (round_half_even (n * 10 ^ s) d) (Z.to_pos (10 ^ s))
      else inject_Z (round_half_even n (d * 10 ^ (- s)) * 10 ^ (- s)) in
    if Qnum x <? 0 then Qopp v else v.

(** [Decimal(f)] for a double: its exact value (the sums of stored
    amounts are finite; a value that is not counts as zero here). *)
Definition decimal_of_float (f : PrimFloat.float) : Decimal :=
  match FloatOps.Prim2SF f with
  | SpecFloat.S754_finite s m e =>
      let v :=
        if 0 <=? e then inject_Z (Zpos m * 2 ^ e)
        else Qmake (Zpos m) (Z.to_pos (2 ^ (- e))) in
      if s then Qopp v else v
  | _ => 0%Q
  end.

(** [Decimal(x)] for the value of a [SUM]. *)
Definition Decimal_of (v : sqlnum) : Decimal :=
  match v with
  | SqlInteger z => inject_Z z
  | SqlReal f => decimal_of_float f
  end.

(** *** Arithmetic on Python's numbers

    [int] with [float] gives a [float], [int] with [Decimal] a
    [Decimal]; [float] with [Decimal] raises [TypeError]. *)

Definition py_arith (op_int : Z -> Z -> Z)
    (op_float : PrimFloat.float -> PrimFloat.float -> PrimFloat.float)
    (op_decimal : Decimal -> Decimal -> Decimal) (sign : string)
    (x y : pynum) : M pynum :=
  match x, y with
  | PyInt a, PyInt b => ret (PyInt (op_int a b))
  | PyInt a, PyFloat b => ret (PyFloat (op_float (float_of_Z a) b))
  | PyFloat a, PyInt b => ret (PyFloat (op_float a (float_of_Z b)))
  | PyFloat a, PyFloat b => ret (PyFloat (op_float a b))
  | PyInt a, PyDecimal b => ret (PyDecimal (context_round (op_decimal (inject_Z a) b)))
  | PyDecimal a, PyInt b => ret (PyDecimal (context_round (op_decimal a (inject_Z b))))
  | PyDecimal a, PyDecimal b => ret (PyDecimal (context_round (op_decimal a b)))
  | PyFloat _, PyDecimal _ =>
      raise (TypeError ("unsupported operand type(s) for " ++ sign
                          ++ ": 'float' and 'decimal.Decimal'"))
  | PyDecimal _, PyFloat _ =>
      raise (TypeError ("unsupported operand type(s) for " ++ sign
                          ++ ": 'decimal.Decimal' and 'float'"))
  end.

Definition py_add : pynum -> pynum -> M pynum :=
  py_arith Z.add PrimFloat.add Qplus "+".

Definition py_sub : pynum -> pynum -> M pynum :=
  py_arith Z.sub PrimFloat.sub Qminus "-".

(** [-x] *)
Definition py_neg (x : pynum) : pynum :=
  match x with
  | PyInt z => PyInt (- z)
  | PyFloat f => PyFloat (PrimFloat.opp f)
  | PyDecimal d => PyDecimal (context_round (- d)%Q)
  end.

(** [x > 0] and [x < 0] *)
Definition py_positive (x : pynum) : bool :=
  match x with
  | PyInt z => 0 <? z
  | PyFloat f => PrimFloat.ltb PrimFloat.zero f
  | PyDecimal d => dec_ltb 0%Q d
  end.

Definition py_negative (x : pynum) : bool :=
  match x with
  | PyInt z => z <? 0
  | PyFloat f => PrimFloat.ltb f PrimFloat.zero
  | PyDecimal d => dec_ltb d 0%Q
  end.

(** [for x in l: s = body(s, x)] *)
Fixpoint for_each {A S} (body : S -> A -> M S) (l : list A) (s : S) : M S :=
  match l with
  | [] => ret s
  | x :: r => s' <- body s x ;; for_each body r s'
  end.

(** [ORDER BY key ASC] on a text column (binary collation), as a stable
    insertion sort. *)
Fixpoint insert_by {A} (key : A -> string) (x : A) (l : list A) : list A :=
  match l with
  | [] => [x]
  | y :: l' =>
      if String.leb (key x) (key y) then x :: y :: l'
      else y :: insert_by key x l'
  end.

Fixpoint order_by {A} (key : A -> string) (l : list A) : list A :=
  match l with
  | [] => []
  | x :: l' => insert_by key x (order_by key l')
  end.

(** ** Bookkeeping and recording functions *)

Definition insert_cash_transaction (transaction_date : string) (bank_account_id : Z)
    (transaction_type : string) (amount : Decimal) (description reference : string)
    (related_account_id created_by : Z) : M Z :=
  id <- select (fun db =>
          next_rowid (map CashTransaction.TransactionID (CashTransactions db))) ;;
  execute (fun db =>
    with_CashTransactions
      (CashTransactions db ++
       [CashTransaction.mk id transaction_date bank_account_id transaction_type
          amount description reference related_account_id created_by])
      db) ;;
  ret id.

(** [UPDATE BankAccounts SET CurrentBalance = CurrentBalance + ?
     WHERE BankAccountID = ?] *)
Definition add_to_bank_balance (bank_account_id : Z) (delta : Decimal) (db : DB) : DB :=
  with_BankAccounts
    (update_where
       (fun b => BankAccount.BankAccountID b =? bank_account_id)
       (fun b => BankAccount.mk (BankAccount.BankAccountID b)
                   (BankAccount.CurrentBalance b + delta)%Q)
       (BankAccounts db))
    db.

Definition record_simple_cash_receipt (transaction_date : string) (amount : Decimal)
    (description : string)
    (bank_account_id cash_account_id income_account_id created_by_employee_id : Z)
    (reference : option string) : M (option Z) :=
  if dec_leb amount 0%Q
  then raise (ValueError "Amount must be positive for a cash receipt.")
  else
    let reference := str_or reference ("Cash Receipt " ++ transaction_date) in
    try_except
      (BEGIN ;;
       cash_transaction_id <-
         insert_cash_transaction transaction_date bank_account_id "Deposit" amount
           description reference income_account_id created_by_employee_id ;;
       execute (add_to_bank_balance bank_account_id amount) ;;
       _generate_gl_entries
         [ (cash_account_id, amount, 0%Q, "Cash Receipt: " ++ description);
           (income_account_id, 0%Q, amount, "Cash Receipt: " ++ description) ]
         created_by_employee_id (Some "CashReceipt")
         (Some ("CashTransID:" ++ str_int cash_transaction_id)) ;;
       commit ;;
       ret (Some cash_transaction_id))
      (fun _ => rollback ;; ret None).

Definition record_simple_cash_disbursement (transaction_date : string) (amount : Decimal)
    (description : string)
    (bank_account_id cash_account_id expense_account_id created_by_employee_id : Z)
    (reference : option string) : M (option Z) :=
  if dec_leb amount 0%Q
  then raise (ValueError "Amount must be positive for a cash disbursement.")
  else
    let reference := str_or reference ("Cash Disbursement " ++ transaction_date) in
    try_except
      (BEGIN ;;
       cash_transaction_id <-
         insert_cash_transaction transaction_date bank_account_id "Withdrawal" amount
           description reference expense_account_id created_by_employee_id ;;
       execute (add_to_bank_balance bank_account_id (- amount)%Q) ;;
       _generate_gl_entries
         [ (expense_account_id, amount, 0%Q, "Cash Disbursement: " ++ description);
           (cash_account_id, 0%Q, amount, "Cash Disbursement: " ++ description) ]
         created_by_employee_id (Some "CashDisbursement")
         (Some ("CashTransID:" ++ str_int cash_transaction_id)) ;;
       commit ;;
       ret (Some cash_transaction_id))
      (fun _ => rollback ;; ret None).

Definition post_simple_manual_journal_entry (entry_date description : string)
    (debit_account_id credit_account_id : Z) (amount : Decimal)
    (created_by_employee_id : Z) (reference : option string) : M bool :=
  if dec_leb amount 0%Q
  then raise (ValueError "Amount must be positive for a journal entry.")
  else if debit_account_id =? credit_account_id
  then raise (ValueError "Debit and Credit accounts cannot be the same.")
  else
    let reference := str_or reference ("Manual Journal Entry " ++ entry_date) in
    try_except
      (BEGIN ;;
       _generate_gl_entries
         [ (debit_account_id, amount, 0%Q, description);
           (credit_account_id, 0%Q, amount, description) ]
         created_by_employee_id (Some "ManualJournal") (Some reference) ;;
       commit ;;
       ret true)
      (fun _ => rollback ;; ret false).

Definition view_bank_account_balance (bank_account_id : Z) : M Decimal :=
  result <- select (fun db =>
              fetchone (fun b => BankAccount.BankAccountID b =? bank_account_id)
                (BankAccounts db)) ;;
  match result with
  | Some b => ret (BankAccount.CurrentBalance b)
  | None => ret 0%Q
  end.

(** [SELECT SUM(DebitAmount), SUM(CreditAmount) FROM GeneralLedger
     WHERE AccountID = ?], with the optional [AND EntryDate <= ?]. *)
Definition gl_rows_of (account_id : Z) (report_date : option string) (db : DB)
    : list GL.t :=
  filter
    (fun l =>
       (GL.AccountID l =? account_id) &&
       match report_date with
       | Some d => String.leb (GL.EntryDate l) d
       | None => true
       end)
    (GeneralLedger db).

Definition gl_sums (account_id : Z) (report_date : option string) (db : DB)
    : option sqlnum * option sqlnum :=
  let rows := gl_rows_of account_id report_date db in
  (sqlite_sum (map (fun l => stored (GL.DebitAmount l)) rows),
   sqlite_sum (map (fun l => stored (GL.CreditAmount l)) rows)).

(** [Decimal(x) if x is not None else Decimal('0.00')]: the raw value of
    the [SUM], a double included, converted exactly. *)
Definition or_zero (x : option sqlnum) : Decimal :=
  match x with Some v => Decimal_of v | None => 0%Q end.

Definition view_gl_account_balance (account_id : Z) : M Decimal :=
  coa_info <- select (fun db =>
                fetchone (fun a => Account.AccountID a =? account_id)
                  (ChartOfAccounts db)) ;;
  match coa_info with
  | None => ret 0%Q
  | Some a =>
      let balance_type := Account.BalanceType a in
      result <- select (gl_sums account_id None) ;;
      let total_debit := or_zero (fst result) in
      let total_credit := or_zero (snd result) in
      if String.eqb balance_type "Debit"
      then ret (context_round (total_debit - total_credit))
      else if String.eqb balance_type "Credit"
      then ret (context_round (total_credit - total_debit))
      else ret (context_round (total_debit - total_credit))
  end.

Definition record_bank_transfer (transaction_date : string) (amount : Decimal)
    (source_bank_account_id source_cash_account_id
     target_bank_account_id target_cash_account_id : Z)
    (description : string) (created_by_employee_id : Z)
    (reference : option string) : M (option (Z * Z)) :=
  if dec_leb amount 0%Q
  then raise (ValueError "Amount must be positive for a transfer.")
  else if source_bank_account_id =? target_bank_account_id
  then raise (ValueError "Source and Target bank accounts cannot be the same.")
  else if source_cash_account_id =? target_cash_account_id
  then raise (ValueError "Source and Target cash GL accounts cannot be the same.")
  else
    let reference := str_or reference ("Bank Transfer " ++ transaction_date) in
    try_except
      (BEGIN ;;
       source_cash_transaction_id <-
         insert_cash_transaction transaction_date source_bank_account_id "Transfer"
           amount
           ("Transfer Out to Bank " ++ str_int target_bank_account_id ++ ": "
              ++ description)
           reference target_cash_account_id created_by_employee_id ;;
       execute (add_to_bank_balance source_bank_account_id (- amount)%Q) ;;
       target_cash_transaction_id <-
         insert_cash_transaction transaction_date target_bank_account_id "Transfer"
           amount
           ("Transfer In from Bank " ++ str_int source_bank_account_id ++ ": "
              ++ description)
           reference source_cash_account_id created_by_employee_id ;;
       execute (add_to_bank_balance target_bank_account_id amount) ;;
       let gl_ref :=
         "Transfer IDs:" ++ str_int source_cash_transaction_id ++ ","
           ++ str_int target_cash_transaction_id in
       _generate_gl_entries
         [ (target_cash_account_id, amount, 0%Q, "Bank Transfer: " ++ description);
           (source_cash_account_id, 0%Q, amount, "Bank Transfer: " ++ description) ]
         created_by_employee_id (Some "BankTransfer") (Some gl_ref) ;;
       commit ;;
       ret (Some (source_cash_transaction_id, target_cash_transaction_id)))
      (fun _ => rollback ;; ret None).

(** ** Accounts receivable *)

(** *** Sequential invoice numbers

    [SELECT MAX(CAST(SUBSTR(InvoiceNumber, 5) AS INTEGER)) FROM Invoices
     WHERE InvoiceNumber LIKE 'INV-%'] and [f"INV-{next_num:04d}"]. *)

Definition upper (a : ascii) : ascii :=
  let n := nat_of_ascii a in
  if (Nat.leb 97 n && Nat.leb n 122)%bool then ascii_of_nat (n - 32) else a.

(** [LIKE 'INV-%']: SQLite's [LIKE] ignores the case of ASCII letters. *)
Definition like_INV (s : string) : bool :=
  match s with
  | String a (String b (String c (String d _))) =>
      (Ascii.eqb (upper a) "I" && Ascii.eqb (upper b) "N" &&
       Ascii.eqb (upper c) "V" && Ascii.eqb d "-")%bool
  | _ => false
  end.

(** [SUBSTR(s, 5)] *)
Definition substr5 (s : string) : string :=
  match s with
  | String _ (String _ (String _ (String _ r))) => r
  | _ => ""
  end.

Definition is_space (a : ascii) : bool :=
  let n := nat_of_ascii a in
  (Nat.eqb n 32 || (Nat.leb 9 n && Nat.leb n 13))%bool.

Definition is_digit (a : ascii) : bool :=
  let n := nat_of_ascii a in (Nat.leb 48 n && Nat.leb n 57)%bool.

Fixpoint skip_spaces (s : string) : string :=
  match s with
  | String a r => if is_space a then skip_spaces r else s
  | EmptyString => s
  end.

Fixpoint leading_digits (s : string) (acc : Z) : Z :=
  match s with
  | String a r =>
      if is_digit a
      then leading_digits r (10 * acc + Z.of_nat (nat_of_ascii a - 48))
      else acc
  | EmptyString => acc
  end.

(** [CAST(text AS INTEGER)]: the longest numeric prefix, 0 when there is
    none, held in a signed 64-bit integer. *)
Definition cast_integer (s : string) : Z :=
  let v :=
    match skip_spaces s with
    | String "-" r => - leading_digits r 0
    | String "+" r => leading_digits r 0
    | t => leading_digits t 0
    end in
  Z.max (- 2 ^ 63) (Z.min v (2 ^ 63 - 1)).

(** SQL [MAX]: [NULL] over no row. *)
Definition sql_max (xs : list Z) : option Z :=
  match xs with
  | [] => None
  | x :: r => Some (fold_right Z.max x r)
  end.

Fixpoint zeros (n : nat) : string :=
  match n with
  | O => ""
  | S k => String "0" (zeros k)
  end.

(** [f"{n:04d}"]: zero padding to four characters, sign included. *)
Definition format_04d (n : Z) : string :=
  if n <? 0
  then
    let ds := str_int (- n) in
    String "-" (zeros (3 - String.length ds) ++ ds)
  else
    let ds := str_int n in
    zeros (4 - String.length ds) ++ ds.

Definition next_invoice_number (db : DB) : string :=
  let max_num :=
    sql_max (map (fun i => cast_integer (substr5 (Invoice.InvoiceNumber i)))
               (filter (fun i => like_INV (Invoice.InvoiceNumber i)) (Invoices db))) in
  let next_num := match max_num with Some m => m | None => 0 end + 1 in
  "INV-" ++ format_04d next_num.

(** Modelled from the spec: the schema of [Invoices] is not among the
    sources.  The document number is unique, and the storage layer
    rejects a second header with a number already in use
    ([sqlite3.IntegrityError]). *)
Definition insert_invoice (invoice_number : string) (customer_id : Z)
    (invoice_date due_date : string) (total_amount initial_balance : Decimal)
    (created_by : Z) : M Z :=
  taken <- select (fun db =>
             existsb (fun i => String.eqb (Invoice.InvoiceNumber i) invoice_number)
               (Invoices db)) ;;
  if (taken : bool)
  then raise (IntegrityError "UNIQUE constraint failed: Invoices.InvoiceNumber")
  else
    id <- select (fun db => next_rowid (map Invoice.InvoiceID (Invoices db))) ;;
    execute (fun db =>
      with_Invoices
        (Invoices db ++
         [Invoice.mk id invoice_number customer_id invoice_date due_date
            total_amount 0%Q initial_balance "Issued" created_by])
        db) ;;
    ret id.

Definition create_simple_sales_invoice (customer_id : Z)
    (invoice_date due_date item_description : string)
    (quantity unit_price : Decimal)
    (revenue_account_id ar_account_id created_by_employee_id : Z)
    (invoice_number : option string) (tax_rate : Decimal) : M (option Z) :=
  if (dec_leb quantity 0%Q || dec_ltb unit_price 0%Q || dec_ltb tax_rate 0%Q)%bool
  then raise (ValueError
    "Quantity must be positive, unit price and tax rate cannot be negative.")
  else
    let line_subtotal := (quantity * unit_price)%Q in
    let tax_amount := (line_subtotal * (tax_rate / 100))%Q in
    let line_total := (line_subtotal + tax_amount)%Q in
    let total_amount := line_total in
    invoice_number <-
      match invoice_number with
      | Some n => ret n
      | None => select next_invoice_number
      end ;;
    try_except
      (BEGIN ;;
       let initial_balance := total_amount in
       invoice_id <-
         insert_invoice invoice_number customer_id invoice_date due_date
           total_amount initial_balance created_by_employee_id ;;
       execute (fun db =>
         with_InvoiceItems
           (InvoiceItems db ++
            [InvoiceItem.mk invoice_id item_description quantity unit_price
               tax_rate tax_amount line_total revenue_account_id])
           db) ;;
       _generate_gl_entries
         [ (ar_account_id, total_amount, 0%Q, "Invoice " ++ invoice_number);
           (revenue_account_id, 0%Q, total_amount,
            "Invoice " ++ invoice_number ++ " - " ++ item_description) ]
         created_by_employee_id (Some "SalesInvoice")
         (Some ("InvoiceID:" ++ str_int invoice_id)) ;;
       commit ;;
       ret (Some invoice_id))
      (fun _ => rollback ;; ret None).

Definition insert_payment (customer : bool) (party_id : Z) (payment_date : string)
    (amount : Decimal) (payment_method : string) (reference : option string)
    (bank_account_id created_by : Z) : M Z :=
  let table := fun db => if customer then CustomerPayments db else VendorPayments db in
  id <- select (fun db => next_rowid (map Payment.PaymentID (table db))) ;;
  execute (fun db =>
    let rows :=
      (table db ++
       [Payment.mk id party_id payment_date amount payment_method reference
          bank_account_id created_by])%list in
    if customer then with_CustomerPayments rows db else with_VendorPayments rows db) ;;
  ret id.

Definition record_simple_customer_payment (customer_id : Z) (payment_date : string)
    (amount : Decimal) (payment_method : string)
    (bank_account_id cash_account_id ar_account_id created_by_employee_id : Z)
    (reference : option string) : M (option Z) :=
  if dec_leb amount 0%Q
  then raise (ValueError "Payment amount must be positive.")
  else
    try_except
      (BEGIN ;;
       payment_id <-
         insert_payment true customer_id payment_date amount payment_method
           reference bank_account_id created_by_employee_id ;;
       execute (add_to_bank_balance bank_account_id amount) ;;
       let memo := "Customer Payment " ++ str_or reference (str_int payment_id) in
       _generate_gl_entries
         [ (cash_account_id, amount, 0%Q, memo);
           (ar_account_id, 0%Q, amount, memo) ]
         created_by_employee_id (Some "CustomerPayment")
         (Some ("CustPmtID:" ++ str_int payment_id)) ;;
       commit ;;
       ret (Some payment_id))
      (fun _ => rollback ;; ret None).

(** [WHERE Status IN ('Issued', 'Overdue') AND Balance > 0.00] *)
Definition invoice_is_open (customer_id : Z) (i : Invoice.t) : bool :=
  ((Invoice.CustomerID i =? customer_id) &&
   (String.eqb (Invoice.Status i) "Issued" || String.eqb (Invoice.Status i) "Overdue") &&
   dec_ltb 0%Q (Invoice.Balance i))%bool.

Definition list_open_customer_invoices (customer_id : Z) : M (list Invoice.t) :=
  select (fun db =>
    order_by Invoice.DueDate (filter (invoice_is_open customer_id) (Invoices db))).

Definition apply_full_payment_to_invoice (payment_id invoice_id : Z) : M bool :=
  try_except
    (BEGIN ;;
     payment_info <- select (fun db =>
                       fetchone (fun p => Payment.PaymentID p =? payment_id)
                         (CustomerPayments db)) ;;
     match payment_info with
     | None => rollback ;; ret false
     | Some p =>
         let payment_amount := Payment.Amount p in
         invoice_info <- select (fun db =>
                           fetchone (fun i => Invoice.InvoiceID i =? invoice_id)
                             (Invoices db)) ;;
         match invoice_info with
         | None => rollback ;; ret false
         | Some i =>
             let invoice_balance := Invoice.Balance i in
             let invoice_status := Invoice.Status i in
             if (String.eqb invoice_status "Paid" || dec_leb invoice_balance 0%Q)%bool
             then rollback ;; ret false
             else if dec_ltb payment_amount invoice_balance
             then rollback ;; ret false
             else
               updated_rows <- select (fun db =>
                                 rowcount (fun i => Invoice.InvoiceID i =? invoice_id)
                                   (Invoices db)) ;;
               execute (fun db =>
                 with_Invoices
                   (update_where (fun i => Invoice.InvoiceID i =? invoice_id)
                      Invoice.mark_paid
                      (Invoices db))
                   db) ;;
               commit ;;
               ret (0 <? updated_rows)
         end
     end)
    (fun _ => rollback ;; ret false).

Definition void_invoice (invoice_id ar_account_id revenue_account_id
    void_by_employee_id : Z) : M bool :=
  try_except
    (BEGIN ;;
     invoice_info <- select (fun db =>
                       fetchone (fun i => Invoice.InvoiceID i =? invoice_id)
                         (Invoices db)) ;;
     match invoice_info with
     | None => rollback ;; ret false
     | Some i =>
         let paid_amount := Invoice.PaidAmount i in
         let status := Invoice.Status i in
         let total_amount := Invoice.TotalAmount i in
         if dec_ltb 0%Q paid_amount
         then rollback ;; ret false
         else if (String.eqb status "Paid" || String.eqb status "Cancelled")%bool
         then rollback ;; ret false
         else
           updated_rows <- select (fun db =>
                             rowcount (fun i => Invoice.InvoiceID i =? invoice_id)
                               (Invoices db)) ;;
           execute (fun db =>
             with_Invoices
               (update_where (fun i => Invoice.InvoiceID i =? invoice_id)
                  Invoice.mark_cancelled
                  (Invoices db))
               db) ;;
           if updated_rows =? 0
           then rollback ;; ret false
           else
             (if dec_ltb 0%Q total_amount
              then
                _generate_gl_entries
                  [ (ar_account_id, 0%Q, total_amount,
                     "Void InvoiceID " ++ str_int invoice_id);
                    (revenue_account_id, total_amount, 0%Q,
                     "Void InvoiceID " ++ str_int invoice_id) ]
                  void_by_employee_id (Some "InvoiceVoid")
                  (Some ("VoidInvoiceID:" ++ str_int invoice_id))
              else ret tt) ;;
             commit ;;
             ret true
     end)
    (fun _ => rollback ;; ret false).

(** ** Accounts payable *)

(** Modelled from the spec: the schema of [Bills] is not among the
    sources.  The document number is unique, as for invoices. *)
Definition insert_bill (bill_number : string) (vendor_id : Z)
    (bill_date due_date : string) (total_amount : Decimal) (created_by : Z) : M Z :=
  taken <- select (fun db =>
             existsb (fun b => String.eqb (Bill.BillNumber b) bill_number) (Bills db)) ;;
  if (taken : bool)
  then raise (IntegrityError "UNIQUE constraint failed: Bills.BillNumber")
  else
    id <- select (fun db => next_rowid (map Bill.BillID (Bills db))) ;;
    execute (fun db =>
      with_Bills
        (Bills db ++
         [Bill.mk id bill_number vendor_id bill_date due_date total_amount 0%Q
            "Received" created_by])
        db) ;;
    ret id.

Definition enter_simple_vendor_bill (vendor_id : Z)
    (bill_number bill_date due_date item_description : string)
    (quantity unit_price : Decimal)
    (expense_account_id ap_account_id created_by_employee_id : Z)
    (tax_rate : Decimal) : M (option Z) :=
  if (dec_leb quantity 0%Q || dec_ltb unit_price 0%Q || dec_ltb tax_rate 0%Q)%bool
  then raise (ValueError
    "Quantity must be positive, unit price and tax rate cannot be negative.")
  else
    let line_subtotal := (quantity * unit_price)%Q in
    let tax_amount := (line_subtotal * (tax_rate / 100))%Q in
    let total_amount := (line_subtotal + tax_amount)%Q in
    try_except
      (BEGIN ;;
       bill_id <-
         insert_bill bill_number vendor_id bill_date due_date total_amount
           created_by_employee_id ;;
       execute (fun db =>
         with_BillItems
           (BillItems db ++
            [BillItem.mk bill_id item_description quantity unit_price tax_rate
               expense_account_id])
           db) ;;
       _generate_gl_entries
         [ (expense_account_id, total_amount, 0%Q, "Vendor Bill " ++ bill_number);
           (ap_account_id, 0%Q, total_amount, "Vendor Bill " ++ bill_number) ]
         created_by_employee_id (Some "VendorBill")
         (Some ("BillID:" ++ str_int bill_id)) ;;
       commit ;;
       ret (Some bill_id))
      (fun _ => rollback ;; ret None).

Definition record_simple_vendor_payment (vendor_id : Z) (payment_date : string)
    (amount : Decimal) (payment_method : string)
    (bank_account_id cash_account_id ap_account_id created_by_employee_id : Z)
    (reference : option string) : M (option Z) :=
  if dec_leb amount 0%Q
  then raise (ValueError "Payment amount must be positive.")
  else
    try_except
      (BEGIN ;;
       payment_id <-
         insert_payment false vendor_id payment_date amount payment_method
           reference bank_account_id created_by_employee_id ;;
       execute (add_to_bank_balance bank_account_id (- amount)%Q) ;;
       let memo := "Vendor Payment " ++ str_or reference (str_int payment_id) in
       _generate_gl_entries
         [ (ap_account_id, amount, 0%Q, memo);
           (cash_account_id, 0%Q, amount, memo) ]
         created_by_employee_id (Some "VendorPayment")
         (Some ("VendPmtID:" ++ str_int payment_id)) ;;
       commit ;;
       ret (Some payment_id))
      (fun _ => rollback ;; ret None).

(** [WHERE Status NOT IN ('Paid', 'Cancelled', 'Draft') AND Balance > 0.00] *)
Definition bill_is_open (vendor_id : Z) (b : Bill.t) : bool :=
  ((Bill.VendorID b =? vendor_id) &&
   negb (String.eqb (Bill.Status b) "Paid" || String.eqb (Bill.Status b) "Cancelled"
         || String.eqb (Bill.Status b) "Draft") &&
   dec_ltb 0%Q (Bill.Balance b))%bool.

Definition list_open_vendor_bills (vendor_id : Z) : M (list Bill.t) :=
  select (fun db =>
    order_by Bill.DueDate (filter (bill_is_open vendor_id) (Bills db))).

Definition apply_full_payment_to_bill (payment_id bill_id : Z) : M bool :=
  try_except
    (BEGIN ;;
     payment_info <- select (fun db =>
                       fetchone (fun p => Payment.PaymentID p =? payment_id)
                         (VendorPayments db)) ;;
     match payment_info with
     | None => rollback ;; ret false
     | Some p =>
         let payment_amount := Payment.Amount p in
         bill_info <- select (fun db =>
                        fetchone (fun b => Bill.BillID b =? bill_id) (Bills db)) ;;
         match bill_info with
         | None => rollback ;; ret false
         | Some b =>
             let bill_balance := Bill.Balance b in
             let bill_status := Bill.Status b in
             if (String.eqb bill_status "Paid" || dec_leb bill_balance 0%Q)%bool
             then rollback ;; ret false
             else if dec_ltb payment_amount bill_balance
             then rollback ;; ret false
             else
               updated_rows <- select (fun db =>
                                 rowcount (fun b => Bill.BillID b =? bill_id)
                                   (Bills db)) ;;
               execute (fun db =>
                 with_Bills
                   (update_where (fun b => Bill.BillID b =? bill_id)
                      Bill.mark_paid
                      (Bills db))
                   db) ;;
               commit ;;
               ret (0 <? updated_rows)
         end
     end)
    (fun _ => rollback ;; ret false).

Definition void_bill (bill_id ap_account_id expense_account_id
    void_by_employee_id : Z) : M bool :=
  try_except
    (BEGIN ;;
     bill_info <- select (fun db =>
                    fetchone (fun b => Bill.BillID b =? bill_id) (Bills db)) ;;
     match bill_info with
     | None => rollback ;; ret false
     | Some b =>
         let paid_amount := Bill.PaidAmount b in
         let status := Bill.Status b in
         let total_amount := Bill.TotalAmount b in
         if dec_ltb 0%Q paid_amount
         then rollback ;; ret false
         else if (String.eqb status "Paid" || String.eqb status "Cancelled")%bool
         then rollback ;; ret false
         else
           updated_rows <- select (fun db =>
                             rowcount (fun b => Bill.BillID b =? bill_id) (Bills db)) ;;
           execute (fun db =>
             with_Bills
               (update_where (fun b => Bill.BillID b =? bill_id)
                  Bill.mark_cancelled
                  (Bills db))
               db) ;;
           if updated_rows =? 0
           then rollback ;; ret false
           else
             (if dec_ltb 0%Q total_amount
              then
                _generate_gl_entries
                  [ (ap_account_id, total_amount, 0%Q,
                     "Void BillID " ++ str_int bill_id);
                    (expense_account_id, 0%Q, total_amount,
                     "Void BillID " ++ str_int bill_id) ]
                  void_by_employee_id (Some "BillVoid")
                  (Some ("VoidBillID:" ++ str_int bill_id))
              else ret tt) ;;
             commit ;;
             ret true
     end)
    (fun _ => rollback ;; ret false).

(** ** Trial balance *)

Record tb_account := mk_tb_account {
  tb_AccountID : Z;
  tb_AccountNumber : string;
  tb_AccountName : string;
  tb_Debit : pynum;
  tb_Credit : pynum }.

Record tb_totals := mk_tb_totals {
  debit : pynum;
  credit : pynum }.

Record trial_balance := mk_trial_balance {
  accounts : list tb_account;
  totals : tb_totals }.

(** [if report_date:] keeps the cutoff only when it is a non-empty text. *)
Definition cutoff (report_date : option string) : option string :=
  match report_date with
  | Some d => if String.eqb d "" then None else Some d
  | None => None
  end.

(** The state of the [for account in active_accounts] loop. *)
Definition tb_state : Type := list tb_account * pynum * pynum.

(** One iteration of the loop.  The two sums are used as SQLite returned
    them, so the subtraction and the two [+=] are Python's, on [int],
    [float] or [Decimal]. *)
Definition tb_step (report_date : option string) (st : tb_state)
    (account : Account.t) : M tb_state :=
  let '(trial_balance_accounts, total_debits, total_credits) := st in
  let account_id := Account.AccountID account in
  let balance_type := Account.BalanceType account in
  balance_result <- select (gl_sums account_id (cutoff report_date)) ;;
  let debit_sum := sum_or_zero (fst balance_result) in
  let credit_sum := sum_or_zero (snd balance_result) in
  balance <-
    (if String.eqb balance_type "Debit" then py_sub debit_sum credit_sum
     else if String.eqb balance_type "Credit" then py_sub credit_sum debit_sum
     else py_sub debit_sum credit_sum) ;;
  columns <-
    (if py_positive balance then
       if String.eqb balance_type "Debit"
       then total_debits <- py_add total_debits balance ;;
            ret (balance, PyDecimal 0%Q, total_debits, total_credits)
       else total_credits <- py_add total_credits balance ;;
            ret (PyDecimal 0%Q, balance, total_debits, total_credits)
     else if py_negative balance then
       if String.eqb balance_type "Debit"
       then total_credits <- py_add total_credits (py_neg balance) ;;
            ret (PyDecimal 0%Q, py_neg balance, total_debits, total_credits)
       else total_debits <- py_add total_debits (py_neg balance) ;;
            ret (py_neg balance, PyDecimal 0%Q, total_debits, total_credits)
     else ret (PyDecimal 0%Q, PyDecimal 0%Q, total_debits, total_credits)) ;;
  let '(debit_balance, credit_balance, total_debits, total_credits) := columns in
  ret ((trial_balance_accounts ++
        [mk_tb_account account_id (Account.AccountNumber account)
           (Account.AccountName account) debit_balance credit_balance])%list,
       total_debits, total_credits).

Definition generate_trial_balance (report_date : option string)
    : M (option trial_balance) :=
  active_accounts <- select (fun db =>
                       order_by Account.AccountNumber
                         (filter Account.IsActive (ChartOfAccounts db))) ;;
  match active_accounts with
  | [] => ret (Some (mk_trial_balance [] (mk_tb_totals (PyDecimal 0%Q) (PyDecimal 0%Q))))
  | _ =>
      try_except
        (st <- for_each (tb_step report_date) active_accounts
                 ([], PyDecimal 0%Q, PyDecimal 0%Q) ;;
         let '(trial_balance_accounts, total_debits, total_credits) := st in
         ret (Some (mk_trial_balance trial_balance_accounts
                      (mk_tb_totals total_debits total_credits))))
        (fun _ => ret None)
  end.

(** ** Vocabulary of the statements *)

(** The connection a successful [apply_full_payment_to_invoice] leaves:
    the update is committed and nothing else has moved. *)
Definition invoice_paid_conn (invoice_id : Z) (c : Connection) : Connection :=
  mkConn
    (with_Invoices
       (update_where (fun i => Invoice.InvoiceID i =? invoice_id) Invoice.mark_paid
          (Invoices (visible c)))
       (visible c))
    None (today c).

(** The same for [apply_full_payment_to_bill]. *)
Definition bill_paid_conn (bill_id : Z) (c : Connection) : Connection :=
  mkConn
    (with_Bills
       (update_where (fun b => Bill.BillID b =? bill_id) Bill.mark_paid
          (Bills (visible c)))
       (visible c))
    None (today c).

(** The running totals of the posting loop, started at [td] and [tc]. *)
Definition total_debit_from (td : Decimal) (entries : list gl_entry) : Decimal :=
  fold_left (fun s e => let '(_, debit, _, _) := e in (s + debit)%Q) entries td.

Definition total_credit_from (tc : Decimal) (entries : list gl_entry) : Decimal :=
  fold_left (fun s e => let '(_, _, credit, _) := e in (s + credit)%Q) entries tc.

(** The ledger after the posting loop has inserted [entries] on day [day]. *)
Fixpoint stamp_entries (gl : list GL.t) (day : string) (entries : list gl_entry)
    (created_by : Z) (entry_type reference : option string) : list GL.t :=
  match entries with
  | [] => gl
  | (account_id, debit, credit, desc) :: rest =>
      stamp_entries
        (gl ++ [GL.mk (next_rowid (map GL.LedgerEntryID gl)) day desc account_id
                  debit credit entry_type reference created_by])
        day rest created_by entry_type reference
  end.

(** The connection while a transaction holds [db]. *)
Definition in_transaction (c : Connection) (db : DB) : Connection :=
  mkConn (committed c) (Some db) (today c).

(** The invoice number a creation request ends up with. *)
Definition number_used (invoice_number : option string) (db : DB) : string :=
  match invoice_number with
  | Some n => n
  | None => next_invoice_number db
  end.

(** The specification's notion of an open document, in its own words:
    status not in {Paid, Cancelled, Draft} and balance > 0. *)
Definition spec_open (status : string) (balance : Decimal) : bool :=
  (negb (String.eqb status "Paid" || String.eqb status "Cancelled"
         || String.eqb status "Draft") &&
   dec_ltb 0%Q balance)%bool.

Definition spec_open_invoice (party : Z) (i : Invoice.t) : bool :=
  ((Invoice.CustomerID i =? party) &&
   spec_open (Invoice.Status i) (Invoice.Balance i))%bool.

Definition spec_open_bill (party : Z) (b : Bill.t) : bool :=
  ((Bill.VendorID b =? party) && spec_open (Bill.Status b) (Bill.Balance b))%bool.

(** The amended notion for invoices, in the words of the amended claim:
    status Issued or Overdue and balance > 0. *)
Definition amended_open_invoice (party : Z) (i : Invoice.t) : bool :=
  ((Invoice.CustomerID i =? party) &&
   ((String.eqb (Invoice.Status i) "Issued" || String.eqb (Invoice.Status i) "Overdue") &&
    dec_ltb 0%Q (Invoice.Balance i)))%bool.

(** The statuses the code reads or writes on an invoice. *)
Definition invoice_statuses : list string :=
  ["Draft"; "Issued"; "Overdue"; "Paid"; "Cancelled"].

(** Ascending order of a text column over a result list. *)
Definition ascending {A} (key : A -> string) (l : list A) : Prop :=
  Sorted (fun x y => String.leb (key x) (key y) = true) l.

(** The value of a figure of a report, as a decimal. *)
Definition py_value (x : pynum) : Decimal :=
  match x with
  | PyInt z => inject_Z z
  | PyFloat f => decimal_of_float f
  | PyDecimal d => d
  end.

(** *** Bank balance against ledger balance *)

(** [bankBalance(b)] and [accountBalance(a)] as the two view functions
    return them on the connection (neither raises). *)
Definition bankBalance (b : Z) (c : Connection) : Decimal :=
  match fst (view_bank_account_balance b c) with
  | Ok x => x
  | Raise _ => 0%Q
  end.

Definition accountBalance (a : Z) (c : Connection) : Decimal :=
  match fst (view_gl_account_balance a c) with
  | Ok x => x
  | Raise _ => 0%Q
  end.

Definition reconciled (b a : Z) (c : Connection) : Prop :=
  (bankBalance b c == accountBalance a c)%Q.

(** The five cash-affecting operations, with their arguments. *)
Inductive cash_op :=
| CashReceipt (transaction_date : string) (amount : Decimal) (description : string)
    (bank_account_id cash_account_id income_account_id created_by : Z)
    (reference : option string)
| CashDisbursement (transaction_date : string) (amount : Decimal)
    (description : string)
    (bank_account_id cash_account_id expense_account_id created_by : Z)
    (reference : option string)
| BankTransfer (transaction_date : string) (amount : Decimal)
    (source_bank_account_id source_cash_account_id
     target_bank_account_id target_cash_account_id : Z)
    (description : string) (created_by : Z) (reference : option string)
| CustomerPayment (customer_id : Z) (payment_date : string) (amount : Decimal)
    (payment_method : string)
    (bank_account_id cash_account_id ar_account_id created_by : Z)
    (reference : option string)
| VendorPayment (vendor_id : Z) (payment_date : string) (amount : Decimal)
    (payment_method : string)
    (bank_account_id cash_account_id ap_account_id created_by : Z)
    (reference : option string).

(** The connection after the operation has completed, with a result or
    with an exception. *)
Definition run_cash_op (op : cash_op) (c : Connection) : Connection :=
  match op with
  | CashReceipt d amt desc bank cash income emp ref =>
      snd (record_simple_cash_receipt d amt desc bank cash income emp ref c)
  | CashDisbursement d amt desc bank cash expense emp ref =>
      snd (record_simple_cash_disbursement d amt desc bank cash expense emp ref c)
  | BankTransfer d amt sb sc tb tc desc emp ref =>
      snd (record_bank_transfer d amt sb sc tb tc desc emp ref c)
  | CustomerPayment cust d amt meth bank cash ar emp ref =>
      snd (record_simple_customer_payment cust d amt meth bank cash ar emp ref c)
  | VendorPayment vend d amt meth bank cash ap emp ref =>
      snd (record_simple_vendor_payment vend d amt meth bank cash ap emp ref c)
  end.

(** The (bank account, cash account) pairs an operation is called with,
    and the account on the other side of its batch. *)
Definition cash_legs (op : cash_op) : list (Z * Z) :=
  match op with
  | CashReceipt _ _ _ bank cash _ _ _ => [(bank, cash)]
  | CashDisbursement _ _ _ bank cash _ _ _ => [(bank, cash)]
  | BankTransfer _ _ sb sc tb tc _ _ _ => [(sb, sc); (tb, tc)]
  | CustomerPayment _ _ _ _ bank cash _ _ _ => [(bank, cash)]
  | VendorPayment _ _ _ _ bank cash _ _ _ => [(bank, cash)]
  end.

Definition counter_accounts (op : cash_op) : list Z :=
  match op with
  | CashReceipt _ _ _ _ _ income _ _ => [income]
  | CashDisbursement _ _ _ _ _ expense _ _ => [expense]
  | BankTransfer _ _ _ _ _ _ _ _ _ => []
  | CustomerPayment _ _ _ _ _ _ ar _ _ => [ar]
  | VendorPayment _ _ _ _ _ _ ap _ _ => [ap]
  end.

(** The caller keeps to the link between bank account [b] and cash
    account [a]: the operation names [b] exactly where it names [a], and
    the other side of its batch is another account. *)
Definition respects_link (b a : Z) (op : cash_op) : Prop :=
  (forall b' a', In (b', a') (cash_legs op) -> (b' = b <-> a' = a)) /\
  ~ In a (counter_accounts op).

(** *** Reachable ledgers *)

(** The connections reached from an empty general ledger by successful
    postings (begin, post a batch, commit), with the calendar and the
    other tables free to change in between. *)
Inductive posted : Connection -> Prop :=
| posted_empty c :
    idle c -> GeneralLedger (committed c) = [] -> posted c
| posted_batch c entries created_by entry_type reference c' :
    posted c ->
    (BEGIN ;;
     _generate_gl_entries entries created_by entry_type reference ;;
     commit) c = (Ok tt, c') ->
    posted c'
| posted_other c db day :
    posted c ->
    GeneralLedger db = GeneralLedger (committed c) ->
    posted (mkConn db None day).

(** Every account that carries posted lines is an active account of the
    chart, the identifiers of the active accounts are distinct, and their
    polarity is Debit or Credit. *)
Definition chart_covers_ledger (db : DB) : Prop :=
  NoDup (map Account.AccountID (filter Account.IsActive (ChartOfAccounts db))) /\
  (forall l, In l (GeneralLedger db) ->
     In (GL.AccountID l)
        (map Account.AccountID (filter Account.IsActive (ChartOfAccounts db)))) /\
  (forall a, In a (ChartOfAccounts db) -> Account.IsActive a = true ->
     Account.BalanceType a = "Debit" \/ Account.BalanceType a = "Credit").

(** *** Sums over ledger lines and batches *)

Definition qsum (xs : list Decimal) : Decimal := fold_right Qplus 0%Q xs.

Definition entry_account (e : gl_entry) : Z := let '(a, _, _, _) := e in a.
Definition entry_debit (e : gl_entry) : Decimal := let '(_, d, _, _) := e in d.
Definition entry_credit (e : gl_entry) : Decimal := let '(_, _, c, _) := e in c.

(** The sum of [val debit credit] over the ledger lines whose account and
    entry date satisfy [sel]. *)
Definition ledger_sum (sel : Z -> string -> bool) (val : Decimal -> Decimal -> Decimal)
    (gl : list GL.t) : Decimal :=
  qsum (map (fun l => val (GL.DebitAmount l) (GL.CreditAmount l))
          (filter (fun l => sel (GL.AccountID l) (GL.EntryDate l)) gl)).

(** The same sum over the lines of a batch posted on [day]. *)
Definition batch_sum (sel : Z -> string -> bool) (val : Decimal -> Decimal -> Decimal)
    (day : string) (entries : list gl_entry) : Decimal :=
  qsum (map (fun e => val (entry_debit e) (entry_credit e))
          (filter (fun e => sel (entry_account e) day) entries)).

(** The selection of [gl_rows_of]. *)
Definition sel_account (account_id : Z) (report_date : option string)
    : Z -> string -> bool :=
  fun a d =>
    ((a =? account_id) &&
     match report_date with
     | Some r => String.leb d r
     | None => true
     end)%bool.

(** The selection by date alone. *)
Definition sel_date (report_date : option string) : Z -> string -> bool :=
  fun _ d =>
    match report_date with
    | Some r => String.leb d r
    | None => true
    end.

Definition net (d c : Decimal) : Decimal := (d - c)%Q.

(** The cached balance of a bank account, as [view_bank_account_balance]
    reads it from a database. *)
Definition bank_balance_of (b : Z) (db : DB) : Decimal :=
  match fetchone (fun r => BankAccount.BankAccountID r =? b) (BankAccounts db) with
  | Some r => BankAccount.CurrentBalance r
  | None => 0%Q
  end.

(** The net debit of an account: the debits less the credits of its
    lines, in the amounts that were written. *)
Definition netDebit (a : Z) (c : Connection) : Decimal :=
  ledger_sum (sel_account a None) net (GeneralLedger (visible c)).

(** The ledger nets to zero up to any cutoff date. *)
Definition nets_to_zero (gl : list GL.t) : Prop :=
  forall report_date, (ledger_sum (sel_date report_date) net gl == 0)%Q.

(** ** Sample data

    A small chart of accounts and a few documents, with the amounts of
    the specification's examples, on which the statements are run. *)

Module Sample.

Definition chart : list Account.t :=
  [ Account.mk 4 "1010" "Cash in Bank" "Asset" "Debit" true;
    Account.mk 5 "1020" "Cash on Hand" "Asset" "Debit" true;
    Account.mk 7 "1200" "Accounts Receivable" "Asset" "Debit" true;
    Account.mk 23 "2010" "Accounts Payable" "Liability" "Credit" true;
    Account.mk 41 "4010" "Sales Revenue" "Revenue" "Credit" true;
    Account.mk 43 "4030" "Interest Revenue" "Revenue" "Credit" true;
    Account.mk 53 "5030" "Office Supplies Expense" "Expense" "Debit" true;
    Account.mk 60 "1990" "Suspense" "Asset" "Debit" false ].

Definition banks : list BankAccount.t :=
  [ BankAccount.mk 1 0%Q; BankAccount.mk 2 0%Q ].

Definition invoices : list Invoice.t :=
  [ Invoice.mk 1 "INV-0001" 10 "2025-01-10" "2025-02-09"
      127.50%Q 0%Q 127.50%Q "Issued" 9;
    Invoice.mk 2 "INV-0002" 10 "2025-01-12" "2025-01-31"
      78.90%Q 0%Q 78.90%Q "Issued" 9;
    Invoice.mk 3 "INV-0003" 10 "2025-01-05" "2025-01-20"
      50%Q 50%Q 0%Q "Paid" 9;
    Invoice.mk 4 "INV-0004" 11 "2025-01-06" "2025-01-25"
      300%Q 0%Q 300%Q "Overdue" 9 ].

Definition bills : list Bill.t :=
  [ Bill.mk 1 "B-100" 10 "2025-01-10" "2025-02-09" 127.50%Q 0%Q "Received" 9;
    Bill.mk 2 "B-101" 10 "2025-01-12" "2025-01-31" 78.90%Q 0%Q "Received" 9;
    Bill.mk 3 "B-102" 10 "2025-01-05" "2025-01-20" 50%Q 50%Q "Paid" 9 ].

Definition customer_payments : list Payment.t :=
  [ Payment.mk 1 10 "2025-01-20" 127.50%Q "Check" (Some "CHK-1") 1 9;
    Payment.mk 2 10 "2025-01-21" 100%Q "EFT" None 1 9 ].

Definition vendor_payments : list Payment.t :=
  [ Payment.mk 1 10 "2025-01-20" 127.50%Q "Check" (Some "CHK-7") 1 9;
    Payment.mk 2 10 "2025-01-21" 100%Q "EFT" None 1 9 ].

(** Accounts and banks only. *)
Definition empty_db : DB :=
  mkDB chart [] [] [] [] [] [] [] banks [].

(** The documents and payments above, before any posting. *)
Definition db : DB :=
  mkDB chart [] invoices [] bills [] customer_payments vendor_payments banks [].

Definition conn0 : Connection := mkConn empty_db None "2025-01-15".
Definition conn : Connection := mkConn db None "2025-01-22".

End Sample.

(** ** Further operations of the module *)

Definition record_fixed_asset_purchase (asset_name purchase_date : string)
    (purchase_cost : Decimal) (useful_life_years : Z) (depreciation_method : string)
    (asset_account_id cash_or_ap_account_id created_by_employee_id : Z) : M bool :=
  if dec_leb purchase_cost 0%Q
  then raise (ValueError "Purchase cost must be positive.")
  else
    try_except
      (BEGIN ;;
       _generate_gl_entries
         [ (asset_account_id, purchase_cost, 0%Q, "Purchase Asset: " ++ asset_name);
           (cash_or_ap_account_id, 0%Q, purchase_cost,
            "Purchase Asset: " ++ asset_name) ]
         created_by_employee_id (Some "AssetPurchase") (Some ("Asset:" ++ asset_name)) ;;
       commit ;;
       ret true)
      (fun _ => rollback ;; ret false).





(** *** The mutating operations, with their arguments *)

Inductive ledger_op :=
| OpCash (op : cash_op)
| OpManualJournal (entry_date description : string)
    (debit_account_id credit_account_id : Z) (amount : Decimal) (created_by : Z)
    (reference : option string)
| OpCreateInvoice (customer_id : Z) (invoice_date due_date item_description : string)
    (quantity unit_price : Decimal) (revenue_account_id ar_account_id created_by : Z)
    (invoice_number : option string) (tax_rate : Decimal)
| OpEnterBill (vendor_id : Z) (bill_number bill_date due_date item_description : string)
    (quantity unit_price : Decimal) (expense_account_id ap_account_id created_by : Z)
    (tax_rate : Decimal)
| OpApplyToInvoice (payment_id invoice_id : Z)
| OpApplyToBill (payment_id bill_id : Z)
| OpVoidInvoice (invoice_id ar_account_id revenue_account_id void_by : Z)
| OpVoidBill (bill_id ap_account_id expense_account_id void_by : Z)
| OpAssetPurchase (asset_name purchase_date : string) (purchase_cost : Decimal)
    (useful_life_years : Z) (depreciation_method : string)
    (asset_account_id cash_or_ap_account_id created_by : Z).

(** The connection after the operation has completed, with a result or
    with an exception. *)
Definition run_ledger_op (op : ledger_op) (c : Connection) : Connection :=
  match op with
  | OpCash o => run_cash_op o c
  | OpManualJournal d desc da ca amt emp ref =>
      snd (post_simple_manual_journal_entry d desc da ca amt emp ref c)
  | OpCreateInvoice cust d due item q p rev ar emp num rate =>
      snd (create_simple_sales_invoice cust d due item q p rev ar emp num rate c)
  | OpEnterBill vend num d due item q p ex ap emp rate =>
      snd (enter_simple_vendor_bill vend num d due item q p ex ap emp rate c)
  | OpApplyToInvoice p i => snd (apply_full_payment_to_invoice p i c)
  | OpApplyToBill p b => snd (apply_full_payment_to_bill p b c)
  | OpVoidInvoice i ar rev emp => snd (void_invoice i ar rev emp c)
  | OpVoidBill b ap ex emp => snd (void_bill b ap ex emp c)
  | OpAssetPurchase n d cost life meth asset cash emp =>
      snd (record_fixed_asset_purchase n d cost life meth asset cash emp c)
  end.

(** *** The double-entry invariant of a connection *)

(** The committed ledger nets to zero up to any cutoff. *)
Definition books_committed (c : Connection) : Prop :=
  nets_to_zero (GeneralLedger (committed c)).

(** So does the ledger the connection sees. *)
Definition books_balance (c : Connection) : Prop :=
  books_committed c /\ nets_to_zero (GeneralLedger (visible c)).

(** A computation keeps the books: started on balanced books it ends on
    balanced books when it returns, and in [E] when it raises. *)
Definition keeps {A} (E : Connection -> Prop) (m : M A) : Prop :=
  forall c, books_balance c ->
    match m c with
    | (Ok _, c') => books_balance c'
    | (Raise _, c') => E c'
    end.

(** An exception handler restores the books from a committed ledger that
    balances, and does not raise. *)
Definition recovers {A} (m : M A) : Prop :=
  forall c, books_committed c ->
    match m c with
    | (Ok _, c') => books_balance c'
    | (Raise _, _) => False
    end.

(** *** Arguments and outcomes of the operations *)

(** The argument checks an operation makes before its [try] block. *)
Definition ledger_op_args_ok (op : ledger_op) : bool :=
  match op with
  | OpCash (CashReceipt _ amt _ _ _ _ _ _) => negb (dec_leb amt 0%Q)
  | OpCash (CashDisbursement _ amt _ _ _ _ _ _) => negb (dec_leb amt 0%Q)
  | OpCash (BankTransfer _ amt sb sc tb tc _ _ _) =>
      (negb (dec_leb amt 0%Q) && negb (sb =? tb) && negb (sc =? tc))%bool
  | OpCash (CustomerPayment _ _ amt _ _ _ _ _ _) => negb (dec_leb amt 0%Q)
  | OpCash (VendorPayment _ _ amt _ _ _ _ _ _) => negb (dec_leb amt 0%Q)
  | OpManualJournal _ _ da ca amt _ _ => (negb (dec_leb amt 0%Q) && negb (da =? ca))%bool
  | OpCreateInvoice _ _ _ _ q p _ _ _ _ rate =>
      negb (dec_leb q 0%Q || dec_ltb p 0%Q || dec_ltb rate 0%Q)
  | OpEnterBill _ _ _ _ _ q p _ _ _ rate =>
      negb (dec_leb q 0%Q || dec_ltb p 0%Q || dec_ltb rate 0%Q)
  | OpApplyToInvoice _ _ => true
  | OpApplyToBill _ _ => true
  | OpVoidInvoice _ _ _ _ => true
  | OpVoidBill _ _ _ _ => true
  | OpAssetPurchase _ _ cost _ _ _ _ _ => negb (dec_leb cost 0%Q)
  end.

Definition is_some {A} (x : option A) : bool :=
  match x with Some _ => true | None => false end.

(** An outcome reduced to success ([True], an identifier) or failure
    ([False], [None]); an exception stays an exception. *)
Definition succeeded {A} (ok : A -> bool) (r : outcome A * Connection) : outcome bool :=
  match fst r with
  | Ok a => Ok (ok a)
  | Raise e => Raise e
  end.

Definition ledger_op_outcome (op : ledger_op) (c : Connection) : outcome bool :=
  match op with
  | OpCash (CashReceipt d amt desc bank cash income emp ref) =>
      succeeded is_some (record_simple_cash_receipt d amt desc bank cash income emp ref c)
  | OpCash (CashDisbursement d amt desc bank cash expense emp ref) =>
      succeeded is_some
        (record_simple_cash_disbursement d amt desc bank cash expense emp ref c)
  | OpCash (BankTransfer d amt sb sc tb tc desc emp ref) =>
      succeeded is_some (record_bank_transfer d amt sb sc tb tc desc emp ref c)
  | OpCash (CustomerPayment cust d amt meth bank cash ar emp ref) =>
      succeeded is_some
        (record_simple_customer_payment cust d amt meth bank cash ar emp ref c)
  | OpCash (VendorPayment vend d amt meth bank cash ap emp ref) =>
      succeeded is_some
        (record_simple_vendor_payment vend d amt meth bank cash ap emp ref c)
  | OpManualJournal d desc da ca amt emp ref =>
      succeeded (fun b => b) (post_simple_manual_journal_entry d desc da ca amt emp ref c)
  | OpCreateInvoice cust d due item q p rev ar emp num rate =>
      succeeded is_some
        (create_simple_sales_invoice cust d due item q p rev ar emp num rate c)
  | OpEnterBill vend num d due item q p ex ap emp rate =>
      succeeded is_some
        (enter_simple_vendor_bill vend num d due item q p ex ap emp rate c)
  | OpApplyToInvoice p i => succeeded (fun b => b) (apply_full_payment_to_invoice p i c)
  | OpApplyToBill p b => succeeded (fun b => b) (apply_full_payment_to_bill p b c)
  | OpVoidInvoice i ar rev emp => succeeded (fun b => b) (void_invoice i ar rev emp c)
  | OpVoidBill b ap ex emp => succeeded (fun b => b) (void_bill b ap ex emp c)
  | OpAssetPurchase n d cost life meth asset cash emp =>
      succeeded (fun b => b)
        (record_fixed_asset_purchase n d cost life meth asset cash emp c)
  end.

(** * Properties *)

(** ** Decimal comparisons *)

Lemma dec_ltb_iff x y : dec_ltb x y = true <-> (x < y)%Q.
Proof.
  unfold dec_ltb. rewrite negb_true_iff. split.
  - intros H. apply Qnot_le_lt. intros Hle.
    apply Qle_bool_iff in Hle. congruence.
  - intros H. destruct (Qle_bool y x) eqn:E; [|reflexivity].
    apply Qle_bool_iff in E. exfalso. exact (Qlt_not_le _ _ H E).
Qed.

Lemma dec_ltb_false_iff x y : dec_ltb x y = false <-> (y <= x)%Q.
Proof.
  unfold dec_ltb. rewrite negb_false_iff. apply Qle_bool_iff.
Qed.

Lemma dec_leb_iff x y : dec_leb x y = true <-> (x <= y)%Q.
Proof. apply Qle_bool_iff. Qed.

Lemma dec_leb_false_iff x y : dec_leb x y = false <-> (y < x)%Q.
Proof.
  unfold dec_leb. split.
  - intros H. apply Qnot_le_lt. intros Hle.
    apply Qle_bool_iff in Hle. congruence.
  - intros H. destruct (Qle_bool x y) eqn:E; [|reflexivity].
    apply Qle_bool_iff in E. exfalso. exact (Qlt_not_le _ _ H E).
Qed.

Lemma dec_eqb_iff x y : dec_eqb x y = true <-> (x == y)%Q.
Proof. apply Qeq_bool_iff. Qed.

Lemma eqb_neq_false s t : s <> t -> String.eqb s t = false.
Proof. intros H. now apply String.eqb_neq. Qed.

(** ** Connections and queries *)

Lemma idle_conn c : idle c -> c = mkConn (committed c) None (today c).
Proof. destruct c as [db p d]. unfold idle. cbn. now intros ->. Qed.

(** Replace an idle connection by its two components. *)
Ltac idle_start c H :=
  rewrite (idle_conn c H);
  generalize (committed c), (today c); clear c H; intros db day;
  cbn [visible pending committed today].

Lemma fetchone_rowcount {A} (p : A -> bool) rows r :
  fetchone p rows = Some r -> (0 <? rowcount p rows) = true.
Proof.
  unfold fetchone, rowcount. induction rows as [|x rows IH]; cbn; [discriminate|].
  destruct (p x); cbn [List.length]; intros H.
  - apply Z.ltb_lt. lia.
  - auto.
Qed.

Lemma fetchone_update_where {A} (p : A -> bool) (f : A -> A) rows r :
  (forall x, p (f x) = p x) ->
  fetchone p rows = Some r ->
  fetchone p (update_where p f rows) = Some (f r).
Proof.
  intros Hpf. unfold fetchone, update_where.
  induction rows as [|x rows IH]; cbn; [discriminate|].
  destruct (p x) eqn:E.
  - intros [= ->]. now rewrite Hpf, E.
  - rewrite E. exact IH.
Qed.

Lemma fetchone_update_other {A} (p q : A -> bool) (f : A -> A) rows :
  (forall x, q x = true -> p x = false) ->
  (forall x, q x = true -> p (f x) = false) ->
  fetchone p (update_where q f rows) = fetchone p rows.
Proof.
  intros H1 H2. unfold fetchone, update_where.
  induction rows as [|x rows IH]; cbn; [reflexivity|].
  destruct (q x) eqn:E.
  - rewrite (H2 _ E), (H1 _ E). exact IH.
  - now rewrite IH.
Qed.

Lemma other_key (k1 k2 x : Z) : k1 <> k2 -> (x =? k1) = true -> (x =? k2) = false.
Proof. intros Hne H. apply Z.eqb_eq in H. apply Z.eqb_neq. congruence. Qed.

(** ** Void of a settled document *)

Lemma void_invoice_rejected c invoice_id ar rev emp i :
  idle c ->
  fetchone (fun i => Invoice.InvoiceID i =? invoice_id) (Invoices (visible c)) = Some i ->
  (0 < Invoice.PaidAmount i)%Q \/
  Invoice.Status i = "Paid" \/ Invoice.Status i = "Cancelled" ->
  void_invoice invoice_id ar rev emp c = (Ok false, c).
Proof.
  intros Hidle. idle_start c Hidle. intros Hf Hs.
  unfold void_invoice, try_except, bind, BEGIN, select. cbn.
  rewrite Hf.
  destruct (dec_ltb 0%Q (Invoice.PaidAmount i)) eqn:Hp; [reflexivity|].
  destruct Hs as [Hs|[Hs|Hs]].
  - apply dec_ltb_iff in Hs. congruence.
  - rewrite Hs. reflexivity.
  - rewrite Hs. reflexivity.
Qed.

Lemma void_bill_rejected c bill_id ap ex emp b :
  idle c ->
  fetchone (fun b => Bill.BillID b =? bill_id) (Bills (visible c)) = Some b ->
  (0 < Bill.PaidAmount b)%Q \/ Bill.Status b = "Paid" \/ Bill.Status b = "Cancelled" ->
  void_bill bill_id ap ex emp c = (Ok false, c).
Proof.
  intros Hidle. idle_start c Hidle. intros Hf Hs.
  unfold void_bill, try_except, bind, BEGIN, select. cbn.
  rewrite Hf.
  destruct (dec_ltb 0%Q (Bill.PaidAmount b)) eqn:Hp; [reflexivity|].
  destruct Hs as [Hs|[Hs|Hs]].
  - apply dec_ltb_iff in Hs. congruence.
  - rewrite Hs. reflexivity.
  - rewrite Hs. reflexivity.
Qed.

(** C4.  On a connection with no open transaction, voiding an invoice or
    a bill whose paid amount is positive, or whose status is Paid or
    Cancelled, returns the failure ([False]) and leaves the connection,
    hence every field of every document and the whole general ledger,
    exactly as it was. *)
Theorem void_settled_document_rejected :
  forall c doc_id control_account counter_account actor,
    idle c ->
    (forall i,
        fetchone (fun i => Invoice.InvoiceID i =? doc_id) (Invoices (visible c))
        = Some i ->
        (0 < Invoice.PaidAmount i)%Q \/
        Invoice.Status i = "Paid" \/ Invoice.Status i = "Cancelled" ->
        void_invoice doc_id control_account counter_account actor c = (Ok false, c))
    /\
    (forall b,
        fetchone (fun b => Bill.BillID b =? doc_id) (Bills (visible c)) = Some b ->
        (0 < Bill.PaidAmount b)%Q \/
        Bill.Status b = "Paid" \/ Bill.Status b = "Cancelled" ->
        void_bill doc_id control_account counter_account actor c = (Ok false, c)).
Proof.
  intros c doc_id a1 a2 actor Hidle. split.
  - intros i. now apply void_invoice_rejected.
  - intros b. now apply void_bill_rejected.
Qed.

Lemma void_settled_document_rejected_witness :
  void_invoice 3 7 41 9 Sample.conn = (Ok false, Sample.conn) /\
  void_bill 3 23 53 9 Sample.conn = (Ok false, Sample.conn).
Proof.
  destruct (void_settled_document_rejected Sample.conn 3 7 41 9 eq_refl) as [Hi _].
  destruct (void_settled_document_rejected Sample.conn 3 23 53 9 eq_refl) as [_ Hb].
  split.
  - apply (Hi (Invoice.mk 3 "INV-0003" 10 "2025-01-05" "2025-01-20"
                 50%Q 50%Q 0%Q "Paid" 9)).
    + reflexivity.
    + left. reflexivity.
  - apply (Hb (Bill.mk 3 "B-102" 10 "2025-01-05" "2025-01-20" 50%Q 50%Q "Paid" 9)).
    + reflexivity.
    + left. reflexivity.
Defined.

(** ** Applying a payment *)

Lemma apply_invoice_insufficient c payment_id invoice_id p i :
  idle c ->
  fetchone (fun p => Payment.PaymentID p =? payment_id) (CustomerPayments (visible c))
  = Some p ->
  fetchone (fun i => Invoice.InvoiceID i =? invoice_id) (Invoices (visible c)) = Some i ->
  Invoice.Status i <> "Paid" ->
  (0 < Invoice.Balance i)%Q ->
  (Payment.Amount p < Invoice.Balance i)%Q ->
  apply_full_payment_to_invoice payment_id invoice_id c = (Ok false, c).
Proof.
  intros Hidle. idle_start c Hidle. intros Hp Hi Hs Hb Hlt.
  unfold apply_full_payment_to_invoice, try_except, bind, BEGIN, select. cbn.
  rewrite Hp. cbn. rewrite Hi. cbn.
  rewrite (eqb_neq_false _ _ Hs). cbn.
  destruct (dec_leb (Invoice.Balance i) 0%Q); [reflexivity|].
  apply dec_ltb_iff in Hlt. rewrite Hlt. reflexivity.
Qed.

Lemma apply_bill_insufficient c payment_id bill_id p b :
  idle c ->
  fetchone (fun p => Payment.PaymentID p =? payment_id) (VendorPayments (visible c))
  = Some p ->
  fetchone (fun b => Bill.BillID b =? bill_id) (Bills (visible c)) = Some b ->
  Bill.Status b <> "Paid" ->
  (0 < Bill.Balance b)%Q ->
  (Payment.Amount p < Bill.Balance b)%Q ->
  apply_full_payment_to_bill payment_id bill_id c = (Ok false, c).
Proof.
  intros Hidle. idle_start c Hidle. intros Hp Hi Hs Hb Hlt.
  unfold apply_full_payment_to_bill, try_except, bind, BEGIN, select. cbn.
  rewrite Hp. cbn. rewrite Hi. cbn.
  rewrite (eqb_neq_false _ _ Hs). cbn.
  destruct (dec_leb (Bill.Balance b) 0%Q); [reflexivity|].
  apply dec_ltb_iff in Hlt. rewrite Hlt. reflexivity.
Qed.

(** C5.  On a connection with no open transaction, applying a payment
    whose amount is below the positive balance of a document that is not
    Paid returns the failure ([False]) and leaves the connection exactly
    as it was: balance, paid amount, status and every other stored row. *)
Theorem apply_insufficient_payment_rejected :
  forall c payment_id doc_id,
    idle c ->
    (forall p i,
        fetchone (fun p => Payment.PaymentID p =? payment_id)
          (CustomerPayments (visible c)) = Some p ->
        fetchone (fun i => Invoice.InvoiceID i =? doc_id) (Invoices (visible c))
        = Some i ->
        Invoice.Status i <> "Paid" ->
        (0 < Invoice.Balance i)%Q ->
        (Payment.Amount p < Invoice.Balance i)%Q ->
        apply_full_payment_to_invoice payment_id doc_id c = (Ok false, c))
    /\
    (forall p b,
        fetchone (fun p => Payment.PaymentID p =? payment_id)
          (VendorPayments (visible c)) = Some p ->
        fetchone (fun b => Bill.BillID b =? doc_id) (Bills (visible c)) = Some b ->
        Bill.Status b <> "Paid" ->
        (0 < Bill.Balance b)%Q ->
        (Payment.Amount p < Bill.Balance b)%Q ->
        apply_full_payment_to_bill payment_id doc_id c = (Ok false, c)).
Proof.
  intros c payment_id doc_id Hidle. split.
  - intros p i. now apply apply_invoice_insufficient.
  - intros p b. now apply apply_bill_insufficient.
Qed.

Lemma apply_insufficient_payment_rejected_witness :
  apply_full_payment_to_invoice 2 1 Sample.conn = (Ok false, Sample.conn) /\
  apply_full_payment_to_bill 2 1 Sample.conn = (Ok false, Sample.conn).
Proof.
  destruct (apply_insufficient_payment_rejected Sample.conn 2 1 eq_refl) as [Hi Hb].
  split.
  - apply (Hi (Payment.mk 2 10 "2025-01-21" 100%Q "EFT" None 1 9)
              (Invoice.mk 1 "INV-0001" 10 "2025-01-10" "2025-02-09"
                 127.50%Q 0%Q 127.50%Q "Issued" 9)).
    + reflexivity.
    + reflexivity.
    + cbn. discriminate.
    + reflexivity.
    + reflexivity.
  - apply (Hb (Payment.mk 2 10 "2025-01-21" 100%Q "EFT" None 1 9)
              (Bill.mk 1 "B-100" 10 "2025-01-10" "2025-02-09"
                 127.50%Q 0%Q "Received" 9)).
    + reflexivity.
    + reflexivity.
    + cbn. discriminate.
    + reflexivity.
    + reflexivity.
Defined.

Lemma apply_invoice_run c payment_id invoice_id p i :
  idle c ->
  fetchone (fun p => Payment.PaymentID p =? payment_id) (CustomerPayments (visible c))
  = Some p ->
  fetchone (fun i => Invoice.InvoiceID i =? invoice_id) (Invoices (visible c)) = Some i ->
  Invoice.Status i <> "Paid" ->
  (0 < Invoice.Balance i)%Q ->
  (Invoice.Balance i <= Payment.Amount p)%Q ->
  apply_full_payment_to_invoice payment_id invoice_id c
  = (Ok true, invoice_paid_conn invoice_id c).
Proof.
  intros Hidle. unfold invoice_paid_conn. idle_start c Hidle.
  intros Hp Hi Hs Hb Hle.
  unfold apply_full_payment_to_invoice, try_except, bind, BEGIN, select. cbn.
  rewrite Hp. cbn. rewrite Hi. cbn.
  rewrite (eqb_neq_false _ _ Hs). cbn.
  apply dec_leb_false_iff in Hb. rewrite Hb.
  apply dec_ltb_false_iff in Hle. rewrite Hle.
  cbn. rewrite (fetchone_rowcount _ _ _ Hi). reflexivity.
Qed.

Lemma apply_bill_run c payment_id bill_id p b :
  idle c ->
  fetchone (fun p => Payment.PaymentID p =? payment_id) (VendorPayments (visible c))
  = Some p ->
  fetchone (fun b => Bill.BillID b =? bill_id) (Bills (visible c)) = Some b ->
  Bill.Status b <> "Paid" ->
  (0 < Bill.Balance b)%Q ->
  (Bill.Balance b <= Payment.Amount p)%Q ->
  apply_full_payment_to_bill payment_id bill_id c
  = (Ok true, bill_paid_conn bill_id c).
Proof.
  intros Hidle. unfold bill_paid_conn. idle_start c Hidle.
  intros Hp Hi Hs Hb Hle.
  unfold apply_full_payment_to_bill, try_except, bind, BEGIN, select. cbn.
  rewrite Hp. cbn. rewrite Hi. cbn.
  rewrite (eqb_neq_false _ _ Hs). cbn.
  apply dec_leb_false_iff in Hb. rewrite Hb.
  apply dec_ltb_false_iff in Hle. rewrite Hle.
  cbn. rewrite (fetchone_rowcount _ _ _ Hi). reflexivity.
Qed.

Lemma invoice_paid_conn_fetch c invoice_id i :
  fetchone (fun i => Invoice.InvoiceID i =? invoice_id) (Invoices (visible c)) = Some i ->
  fetchone (fun i => Invoice.InvoiceID i =? invoice_id)
    (Invoices (visible (invoice_paid_conn invoice_id c)))
  = Some (Invoice.mark_paid i).
Proof.
  intros H. cbn. now apply fetchone_update_where.
Qed.

Lemma bill_paid_conn_fetch c bill_id b :
  fetchone (fun b => Bill.BillID b =? bill_id) (Bills (visible c)) = Some b ->
  fetchone (fun b => Bill.BillID b =? bill_id)
    (Bills (visible (bill_paid_conn bill_id c)))
  = Some (Bill.mark_paid b).
Proof.
  intros H. cbn. now apply fetchone_update_where.
Qed.

Lemma invoice_paid_conn_fetch_other c k1 k2 :
  k1 <> k2 ->
  fetchone (fun i => Invoice.InvoiceID i =? k2)
    (Invoices (visible (invoice_paid_conn k1 c)))
  = fetchone (fun i => Invoice.InvoiceID i =? k2) (Invoices (visible c)).
Proof.
  intros Hne. cbn. apply fetchone_update_other; intros x Hx.
  - exact (other_key _ _ _ Hne Hx).
  - cbn. exact (other_key _ _ _ Hne Hx).
Qed.

Lemma bill_paid_conn_fetch_other c k1 k2 :
  k1 <> k2 ->
  fetchone (fun b => Bill.BillID b =? k2) (Bills (visible (bill_paid_conn k1 c)))
  = fetchone (fun b => Bill.BillID b =? k2) (Bills (visible c)).
Proof.
  intros Hne. cbn. apply fetchone_update_other; intros x Hx.
  - exact (other_key _ _ _ Hne Hx).
  - cbn. exact (other_key _ _ _ Hne Hx).
Qed.

(** C6.  On a connection with no open transaction, applying a payment
    that covers the positive balance of a document that is not Paid
    succeeds ([True]); afterwards the document has paid = total,
    balance = 0 and status Paid, the update is committed, and the general
    ledger, the bank accounts, both payment tables and every other table
    are the ones from before: no ledger line is posted. *)
Theorem apply_payment_settles_document :
  forall c payment_id doc_id,
    idle c ->
    (forall p i,
        fetchone (fun p => Payment.PaymentID p =? payment_id)
          (CustomerPayments (visible c)) = Some p ->
        fetchone (fun i => Invoice.InvoiceID i =? doc_id) (Invoices (visible c))
        = Some i ->
        Invoice.Status i <> "Paid" ->
        (0 < Invoice.Balance i)%Q ->
        (Invoice.Balance i <= Payment.Amount p)%Q ->
        exists c' i',
          apply_full_payment_to_invoice payment_id doc_id c = (Ok true, c') /\
          idle c' /\
          fetchone (fun i => Invoice.InvoiceID i =? doc_id) (Invoices (visible c'))
          = Some i' /\
          Invoice.TotalAmount i' = Invoice.TotalAmount i /\
          Invoice.PaidAmount i' = Invoice.TotalAmount i /\
          Invoice.Balance i' = 0%Q /\
          Invoice.Status i' = "Paid" /\
          visible c' =
            with_Invoices
              (update_where (fun i => Invoice.InvoiceID i =? doc_id)
                 Invoice.mark_paid (Invoices (visible c)))
              (visible c) /\
          GeneralLedger (visible c') = GeneralLedger (visible c) /\
          BankAccounts (visible c') = BankAccounts (visible c) /\
          CustomerPayments (visible c') = CustomerPayments (visible c) /\
          CashTransactions (visible c') = CashTransactions (visible c))
    /\
    (forall p b,
        fetchone (fun p => Payment.PaymentID p =? payment_id)
          (VendorPayments (visible c)) = Some p ->
        fetchone (fun b => Bill.BillID b =? doc_id) (Bills (visible c)) = Some b ->
        Bill.Status b <> "Paid" ->
        (0 < Bill.Balance b)%Q ->
        (Bill.Balance b <= Payment.Amount p)%Q ->
        exists c' b',
          apply_full_payment_to_bill payment_id doc_id c = (Ok true, c') /\
          idle c' /\
          fetchone (fun b => Bill.BillID b =? doc_id) (Bills (visible c')) = Some b' /\
          Bill.TotalAmount b' = Bill.TotalAmount b /\
          Bill.PaidAmount b' = Bill.TotalAmount b /\
          (Bill.Balance b' == 0)%Q /\
          Bill.Status b' = "Paid" /\
          visible c' =
            with_Bills
              (update_where (fun b => Bill.BillID b =? doc_id)
                 Bill.mark_paid (Bills (visible c)))
              (visible c) /\
          GeneralLedger (visible c') = GeneralLedger (visible c) /\
          BankAccounts (visible c') = BankAccounts (visible c) /\
          VendorPayments (visible c') = VendorPayments (visible c) /\
          CashTransactions (visible c') = CashTransactions (visible c)).
Proof.
  intros c payment_id doc_id Hidle. split.
  - intros p i Hp Hi Hs Hb Hle.
    exists (invoice_paid_conn doc_id c), (Invoice.mark_paid i).
    split; [now apply (apply_invoice_run c payment_id doc_id p i)|].
    split; [reflexivity|].
    split; [now apply invoice_paid_conn_fetch|].
    repeat split; reflexivity.
  - intros p b Hp Hi Hs Hb Hle.
    exists (bill_paid_conn doc_id c), (Bill.mark_paid b).
    split; [now apply (apply_bill_run c payment_id doc_id p b)|].
    split; [reflexivity|].
    split; [now apply bill_paid_conn_fetch|].
    split; [reflexivity|]. split; [reflexivity|].
    split; [unfold Bill.Balance; cbn; ring|].
    repeat split; reflexivity.
Qed.

Lemma apply_payment_settles_document_witness :
  (exists c' i',
      apply_full_payment_to_invoice 1 1 Sample.conn = (Ok true, c') /\
      fetchone (fun i => Invoice.InvoiceID i =? 1) (Invoices (visible c')) = Some i' /\
      Invoice.PaidAmount i' = 127.50%Q /\
      Invoice.Balance i' = 0%Q /\
      Invoice.Status i' = "Paid" /\
      GeneralLedger (visible c') = [] /\
      BankAccounts (visible c') = Sample.banks) /\
  (exists c' b',
      apply_full_payment_to_bill 1 1 Sample.conn = (Ok true, c') /\
      fetchone (fun b => Bill.BillID b =? 1) (Bills (visible c')) = Some b' /\
      Bill.PaidAmount b' = 127.50%Q /\
      (Bill.Balance b' == 0)%Q /\
      Bill.Status b' = "Paid" /\
      GeneralLedger (visible c') = [] /\
      BankAccounts (visible c') = Sample.banks).
Proof.
  destruct (apply_payment_settles_document Sample.conn 1 1 eq_refl) as [Hi Hb].
  split.
  - destruct (Hi (Payment.mk 1 10 "2025-01-20" 127.50%Q "Check" (Some "CHK-1") 1 9)
                 (Invoice.mk 1 "INV-0001" 10 "2025-01-10" "2025-02-09"
                    127.50%Q 0%Q 127.50%Q "Issued" 9))
      as (c' & i' & Hrun & _ & Hf & _ & Hpaid & Hbal & Hst & _ & Hgl & Hbank & _).
    + reflexivity.
    + reflexivity.
    + cbn. discriminate.
    + reflexivity.
    + cbn. discriminate.
    + exists c', i'. repeat split; assumption.
  - destruct (Hb (Payment.mk 1 10 "2025-01-20" 127.50%Q "Check" (Some "CHK-7") 1 9)
                 (Bill.mk 1 "B-100" 10 "2025-01-10" "2025-02-09"
                    127.50%Q 0%Q "Received" 9))
      as (c' & b' & Hrun & _ & Hf & _ & Hpaid & Hbal & Hst & _ & Hgl & Hbank & _).
    + reflexivity.
    + reflexivity.
    + cbn. discriminate.
    + reflexivity.
    + cbn. discriminate.
    + exists c', b'. repeat split; assumption.
Defined.

(** C10.  Applying a payment stores no allocation and leaves the payment
    row as it is, so one payment settles two documents in turn: for two
    distinct documents that are not Paid and whose positive balances do
    not exceed the payment's amount, the application to the first and
    then to the second both succeed, and both documents end up Paid. *)
Theorem apply_same_payment_twice :
  forall c payment_id d1 d2,
    idle c ->
    d1 <> d2 ->
    (forall p i1 i2,
        fetchone (fun p => Payment.PaymentID p =? payment_id)
          (CustomerPayments (visible c)) = Some p ->
        fetchone (fun i => Invoice.InvoiceID i =? d1) (Invoices (visible c)) = Some i1 ->
        fetchone (fun i => Invoice.InvoiceID i =? d2) (Invoices (visible c)) = Some i2 ->
        Invoice.Status i1 <> "Paid" -> Invoice.Status i2 <> "Paid" ->
        (0 < Invoice.Balance i1)%Q -> (Invoice.Balance i1 <= Payment.Amount p)%Q ->
        (0 < Invoice.Balance i2)%Q -> (Invoice.Balance i2 <= Payment.Amount p)%Q ->
        exists c1 c2 j1 j2,
          apply_full_payment_to_invoice payment_id d1 c = (Ok true, c1) /\
          apply_full_payment_to_invoice payment_id d2 c1 = (Ok true, c2) /\
          fetchone (fun i => Invoice.InvoiceID i =? d1) (Invoices (visible c2))
          = Some j1 /\
          fetchone (fun i => Invoice.InvoiceID i =? d2) (Invoices (visible c2))
          = Some j2 /\
          Invoice.Status j1 = "Paid" /\ Invoice.Status j2 = "Paid" /\
          CustomerPayments (visible c2) = CustomerPayments (visible c))
    /\
    (forall p b1 b2,
        fetchone (fun p => Payment.PaymentID p =? payment_id)
          (VendorPayments (visible c)) = Some p ->
        fetchone (fun b => Bill.BillID b =? d1) (Bills (visible c)) = Some b1 ->
        fetchone (fun b => Bill.BillID b =? d2) (Bills (visible c)) = Some b2 ->
        Bill.Status b1 <> "Paid" -> Bill.Status b2 <> "Paid" ->
        (0 < Bill.Balance b1)%Q -> (Bill.Balance b1 <= Payment.Amount p)%Q ->
        (0 < Bill.Balance b2)%Q -> (Bill.Balance b2 <= Payment.Amount p)%Q ->
        exists c1 c2 j1 j2,
          apply_full_payment_to_bill payment_id d1 c = (Ok true, c1) /\
          apply_full_payment_to_bill payment_id d2 c1 = (Ok true, c2) /\
          fetchone (fun b => Bill.BillID b =? d1) (Bills (visible c2)) = Some j1 /\
          fetchone (fun b => Bill.BillID b =? d2) (Bills (visible c2)) = Some j2 /\
          Bill.Status j1 = "Paid" /\ Bill.Status j2 = "Paid" /\
          VendorPayments (visible c2) = VendorPayments (visible c)).
Proof.
  intros c payment_id d1 d2 Hidle Hne. split.
  - intros p i1 i2 Hp H1 H2 Hs1 Hs2 Hb1 Hle1 Hb2 Hle2.
    exists (invoice_paid_conn d1 c), (invoice_paid_conn d2 (invoice_paid_conn d1 c)),
      (Invoice.mark_paid i1), (Invoice.mark_paid i2).
    split; [now apply (apply_invoice_run c payment_id d1 p i1)|].
    split.
    { apply (apply_invoice_run _ payment_id d2 p i2);
        [reflexivity|exact Hp| |assumption..].
      rewrite invoice_paid_conn_fetch_other by exact Hne. exact H2. }
    split.
    { rewrite invoice_paid_conn_fetch_other by (intros E; apply Hne; now symmetry).
      now apply invoice_paid_conn_fetch. }
    split.
    { apply invoice_paid_conn_fetch.
      rewrite invoice_paid_conn_fetch_other by exact Hne. exact H2. }
    repeat split; reflexivity.
  - intros p b1 b2 Hp H1 H2 Hs1 Hs2 Hb1 Hle1 Hb2 Hle2.
    exists (bill_paid_conn d1 c), (bill_paid_conn d2 (bill_paid_conn d1 c)),
      (Bill.mark_paid b1), (Bill.mark_paid b2).
    split; [now apply (apply_bill_run c payment_id d1 p b1)|].
    split.
    { apply (apply_bill_run _ payment_id d2 p b2);
        [reflexivity|exact Hp| |assumption..].
      rewrite bill_paid_conn_fetch_other by exact Hne. exact H2. }
    split.
    { rewrite bill_paid_conn_fetch_other by (intros E; apply Hne; now symmetry).
      now apply bill_paid_conn_fetch. }
    split.
    { apply bill_paid_conn_fetch.
      rewrite bill_paid_conn_fetch_other by exact Hne. exact H2. }
    repeat split; reflexivity.
Qed.

Lemma apply_same_payment_twice_witness :
  (exists c1 c2 j1 j2,
      apply_full_payment_to_invoice 1 1 Sample.conn = (Ok true, c1) /\
      apply_full_payment_to_invoice 1 2 c1 = (Ok true, c2) /\
      fetchone (fun i => Invoice.InvoiceID i =? 1) (Invoices (visible c2)) = Some j1 /\
      fetchone (fun i => Invoice.InvoiceID i =? 2) (Invoices (visible c2)) = Some j2 /\
      Invoice.Status j1 = "Paid" /\ Invoice.Status j2 = "Paid") /\
  (exists c1 c2 j1 j2,
      apply_full_payment_to_bill 1 1 Sample.conn = (Ok true, c1) /\
      apply_full_payment_to_bill 1 2 c1 = (Ok true, c2) /\
      fetchone (fun b => Bill.BillID b =? 1) (Bills (visible c2)) = Some j1 /\
      fetchone (fun b => Bill.BillID b =? 2) (Bills (visible c2)) = Some j2 /\
      Bill.Status j1 = "Paid" /\ Bill.Status j2 = "Paid").
Proof.
  assert (Hne : 1 <> 2) by discriminate.
  destruct (apply_same_payment_twice Sample.conn 1 1 2 eq_refl Hne) as [Hi Hb].
  split.
  - destruct (Hi (Payment.mk 1 10 "2025-01-20" 127.50%Q "Check" (Some "CHK-1") 1 9)
                 (Invoice.mk 1 "INV-0001" 10 "2025-01-10" "2025-02-09"
                    127.50%Q 0%Q 127.50%Q "Issued" 9)
                 (Invoice.mk 2 "INV-0002" 10 "2025-01-12" "2025-01-31"
                    78.90%Q 0%Q 78.90%Q "Issued" 9))
      as (c1 & c2 & j1 & j2 & R1 & R2 & F1 & F2 & S1 & S2 & _).
    + reflexivity.
    + reflexivity.
    + reflexivity.
    + cbn. discriminate.
    + cbn. discriminate.
    + reflexivity.
    + cbn. discriminate.
    + reflexivity.
    + cbn. discriminate.
    + exists c1, c2, j1, j2. repeat split; assumption.
  - destruct (Hb (Payment.mk 1 10 "2025-01-20" 127.50%Q "Check" (Some "CHK-7") 1 9)
                 (Bill.mk 1 "B-100" 10 "2025-01-10" "2025-02-09"
                    127.50%Q 0%Q "Received" 9)
                 (Bill.mk 2 "B-101" 10 "2025-01-12" "2025-01-31"
                    78.90%Q 0%Q "Received" 9))
      as (c1 & c2 & j1 & j2 & R1 & R2 & F1 & F2 & S1 & S2 & _).
    + reflexivity.
    + reflexivity.
    + reflexivity.
    + cbn. discriminate.
    + cbn. discriminate.
    + reflexivity.
    + cbn. discriminate.
    + reflexivity.
    + cbn. discriminate.
    + exists c1, c2, j1, j2. repeat split; assumption.
Defined.

(** ** The posting helper *)

Lemma with_GeneralLedger_same db : with_GeneralLedger (GeneralLedger db) db = db.
Proof. now destruct db. Qed.

Lemma gl_loop_run entries created_by entry_type reference :
  forall td tc cm db day,
    gl_loop entries created_by entry_type reference td tc (mkConn cm (Some db) day)
    = (Ok (total_debit_from td entries, total_credit_from tc entries),
       mkConn cm
         (Some (with_GeneralLedger
                  (stamp_entries (GeneralLedger db) day entries created_by
                     entry_type reference) db))
         day).
Proof.
  induction entries as [|[[[a d] cr] desc] rest IH]; intros td tc cm db day.
  - cbn. now rewrite with_GeneralLedger_same.
  - cbn [gl_loop]. unfold bind at 1. unfold insert_gl, bind, date_now, select, execute, ret.
    cbn [visible pending committed today]. rewrite IH. reflexivity.
Qed.

(** The helper on a connection that sees [db], when at least one line is
    posted: the lines are in the open transaction whatever the verdict
    of the balance check. *)
Lemma generate_gl_entries_run e rest created_by entry_type reference c :
  let entries := e :: rest in
  let c' :=
    in_transaction c
      (with_GeneralLedger
         (stamp_entries (GeneralLedger (visible c)) (today c) entries created_by
            entry_type reference) (visible c)) in
  _generate_gl_entries entries created_by entry_type reference c
  = (if dec_eqb (total_debit_from 0%Q entries) (total_credit_from 0%Q entries)
     then Ok tt else Raise (ValueError unbalanced_msg), c').
Proof.
  intros entries c'. subst c'. unfold in_transaction.
  assert (Hstep :
    gl_loop entries created_by entry_type reference 0%Q 0%Q c
    = (Ok (total_debit_from 0%Q entries, total_credit_from 0%Q entries),
       mkConn (committed c)
         (Some (with_GeneralLedger
                  (stamp_entries (GeneralLedger (visible c)) (today c) entries
                     created_by entry_type reference) (visible c)))
         (today c))).
  { subst entries. destruct e as [[[a d] cr] desc].
    cbn [gl_loop]. unfold bind at 1.
    unfold insert_gl, bind, date_now, select, execute, ret.
    cbn [visible pending committed today]. rewrite gl_loop_run.
    cbn. reflexivity. }
  unfold _generate_gl_entries, bind. rewrite Hstep.
  destruct (dec_eqb _ _); reflexivity.
Qed.

Lemma two_sided_batch_balanced (a1 a2 : Z) (x : Decimal) (m1 m2 : string) :
  dec_eqb (total_debit_from 0%Q [(a1, x, 0%Q, m1); (a2, 0%Q, x, m2)])
          (total_credit_from 0%Q [(a1, x, 0%Q, m1); (a2, 0%Q, x, m2)]) = true.
Proof. apply dec_eqb_iff. cbn. ring. Qed.

Lemma two_sided_batch_balanced' (a1 a2 : Z) (x : Decimal) (m1 m2 : string) :
  dec_eqb (total_debit_from 0%Q [(a1, 0%Q, x, m1); (a2, x, 0%Q, m2)])
          (total_credit_from 0%Q [(a1, 0%Q, x, m1); (a2, x, 0%Q, m2)]) = true.
Proof. apply dec_eqb_iff. cbn. ring. Qed.

(** ** Void of an open document *)

Lemma void_invoice_run c invoice_id ar rev emp i :
  idle c ->
  fetchone (fun i => Invoice.InvoiceID i =? invoice_id) (Invoices (visible c)) = Some i ->
  (Invoice.PaidAmount i <= 0)%Q ->
  Invoice.Status i <> "Paid" ->
  Invoice.Status i <> "Cancelled" ->
  let db1 :=
    with_Invoices
      (update_where (fun i => Invoice.InvoiceID i =? invoice_id) Invoice.mark_cancelled
         (Invoices (visible c)))
      (visible c) in
  let db2 :=
    if dec_ltb 0%Q (Invoice.TotalAmount i)
    then
      with_GeneralLedger
        (stamp_entries (GeneralLedger (visible c)) (today c)
           [ (ar, 0%Q, Invoice.TotalAmount i, "Void InvoiceID " ++ str_int invoice_id);
             (rev, Invoice.TotalAmount i, 0%Q, "Void InvoiceID " ++ str_int invoice_id) ]
           emp (Some "InvoiceVoid") (Some ("VoidInvoiceID:" ++ str_int invoice_id)))
        db1
    else db1 in
  void_invoice invoice_id ar rev emp c = (Ok true, mkConn db2 None (today c)).
Proof.
  intros Hidle. idle_start c Hidle. intros Hf Hp Hs1 Hs2.
  unfold void_invoice, try_except, bind at 1, BEGIN. cbn [pending committed today].
  unfold bind at 1, select at 1. cbn [visible pending]. rewrite Hf.
  apply dec_ltb_false_iff in Hp. rewrite Hp.
  rewrite (eqb_neq_false _ _ Hs1), (eqb_neq_false _ _ Hs2). cbn [orb].
  unfold bind at 1, select at 1. cbn [visible pending].
  unfold bind at 1, execute at 1. cbn [visible pending committed today].
  pose proof (fetchone_rowcount _ _ _ Hf) as Hrc. apply Z.ltb_lt in Hrc.
  destruct (Z.eqb_spec (rowcount (fun i0 => Invoice.InvoiceID i0 =? invoice_id)
                          (Invoices db)) 0) as [E|_]; [lia|].
  destruct (dec_ltb 0%Q (Invoice.TotalAmount i)).
  - unfold bind at 1. rewrite generate_gl_entries_run.
    rewrite two_sided_batch_balanced'. reflexivity.
  - reflexivity.
Qed.

Lemma void_bill_run c bill_id ap ex emp b :
  idle c ->
  fetchone (fun b => Bill.BillID b =? bill_id) (Bills (visible c)) = Some b ->
  (Bill.PaidAmount b <= 0)%Q ->
  Bill.Status b <> "Paid" ->
  Bill.Status b <> "Cancelled" ->
  let db1 :=
    with_Bills
      (update_where (fun b => Bill.BillID b =? bill_id) Bill.mark_cancelled
         (Bills (visible c)))
      (visible c) in
  let db2 :=
    if dec_ltb 0%Q (Bill.TotalAmount b)
    then
      with_GeneralLedger
        (stamp_entries (GeneralLedger (visible c)) (today c)
           [ (ap, Bill.TotalAmount b, 0%Q, "Void BillID " ++ str_int bill_id);
             (ex, 0%Q, Bill.TotalAmount b, "Void BillID " ++ str_int bill_id) ]
           emp (Some "BillVoid") (Some ("VoidBillID:" ++ str_int bill_id)))
        db1
    else db1 in
  void_bill bill_id ap ex emp c = (Ok true, mkConn db2 None (today c)).
Proof.
  intros Hidle. idle_start c Hidle. intros Hf Hp Hs1 Hs2.
  unfold void_bill, try_except, bind at 1, BEGIN. cbn [pending committed today].
  unfold bind at 1, select at 1. cbn [visible pending]. rewrite Hf.
  apply dec_ltb_false_iff in Hp. rewrite Hp.
  rewrite (eqb_neq_false _ _ Hs1), (eqb_neq_false _ _ Hs2). cbn [orb].
  unfold bind at 1, select at 1. cbn [visible pending].
  unfold bind at 1, execute at 1. cbn [visible pending committed today].
  pose proof (fetchone_rowcount _ _ _ Hf) as Hrc. apply Z.ltb_lt in Hrc.
  destruct (Z.eqb_spec (rowcount (fun b0 => Bill.BillID b0 =? bill_id)
                          (Bills db)) 0) as [E|_]; [lia|].
  destruct (dec_ltb 0%Q (Bill.TotalAmount b)).
  - unfold bind at 1. rewrite generate_gl_entries_run.
    rewrite two_sided_batch_balanced. reflexivity.
  - reflexivity.
Qed.

(** The invoice half of the void: the header is Cancelled with balance 0
    and the paid amount it had. *)
Lemma void_invoice_header i :
  Invoice.Status (Invoice.mark_cancelled i) = "Cancelled" /\
  Invoice.Balance (Invoice.mark_cancelled i) = 0%Q /\
  Invoice.PaidAmount (Invoice.mark_cancelled i) = Invoice.PaidAmount i /\
  Invoice.TotalAmount (Invoice.mark_cancelled i) = Invoice.TotalAmount i.
Proof. repeat split. Qed.

(** The bill half: the status changes, the derived balance does not. *)
Lemma void_bill_header b :
  Bill.Status (Bill.mark_cancelled b) = "Cancelled" /\
  Bill.Balance (Bill.mark_cancelled b) = Bill.Balance b /\
  Bill.PaidAmount (Bill.mark_cancelled b) = Bill.PaidAmount b.
Proof. repeat split. Qed.

(** C3, at the failing input.  Voiding the unpaid bill of 78.90 succeeds,
    cancels it, keeps the paid amount 0 and posts one reversing batch
    (debit payable, credit expense, reference "VoidBillID:2"), but the
    balance of the bill is still 78.90, not 0. *)
Theorem void_bill_balance_not_zero :
  exists c' b',
    void_bill 2 23 53 9 Sample.conn = (Ok true, c') /\
    fetchone (fun b => Bill.BillID b =? 2) (Bills (visible c')) = Some b' /\
    Bill.Status b' = "Cancelled" /\
    Bill.PaidAmount b' = 0%Q /\
    (Bill.Balance b' == 78.90)%Q /\
    ~ (Bill.Balance b' == 0)%Q /\
    GeneralLedger (visible c') =
      [ GL.mk 1 "2025-01-22" "Void BillID 2" 23 78.90%Q 0%Q
          (Some "BillVoid") (Some "VoidBillID:2") 9;
        GL.mk 2 "2025-01-22" "Void BillID 2" 53 0%Q 78.90%Q
          (Some "BillVoid") (Some "VoidBillID:2") 9 ].
Proof.
  eexists. eexists.
  split; [vm_compute; reflexivity|].
  split; [vm_compute; reflexivity|].
  split; [reflexivity|]. split; [reflexivity|].
  split; [vm_compute; reflexivity|].
  split; [vm_compute; discriminate|].
  reflexivity.
Qed.

(** ** An unbalanced batch *)

Lemma unbalanced_nonempty entries :
  ~ (total_debit_from 0%Q entries == total_credit_from 0%Q entries)%Q ->
  exists e rest, entries = e :: rest.
Proof.
  destruct entries as [|e rest]; intros H.
  - exfalso. apply H. reflexivity.
  - now exists e, rest.
Qed.

(** C2, as the code has it.  For a batch whose total debit differs from
    its total credit the posting helper raises the unbalanced error, but
    only after it has inserted the lines: nothing is committed, the lines
    are pending in the open transaction, and the rollback that every
    calling operation runs in its handler drops them.  Hence a calling
    operation (begin, post, commit, roll back on any exception) run on a
    connection with no open transaction fails and leaves the connection,
    and the general ledger in it, as it was. *)
Theorem unbalanced_batch_rejected :
  forall entries created_by entry_type reference c,
    ~ (total_debit_from 0%Q entries == total_credit_from 0%Q entries)%Q ->
    exists c',
      _generate_gl_entries entries created_by entry_type reference c
      = (Raise (ValueError unbalanced_msg), c') /\
      committed c' = committed c /\
      GeneralLedger (visible c') =
        stamp_entries (GeneralLedger (visible c)) (today c) entries created_by
          entry_type reference /\
      rollback c' = (Ok tt, mkConn (committed c) None (today c)) /\
      (idle c ->
       try_except
         (BEGIN ;;
          _generate_gl_entries entries created_by entry_type reference ;;
          commit ;;
          ret true)
         (fun _ => rollback ;; ret false) c
       = (Ok false, c)).
Proof.
  intros entries created_by entry_type reference c Hne.
  destruct (unbalanced_nonempty entries Hne) as (e & rest & ->).
  assert (Hb : dec_eqb (total_debit_from 0%Q (e :: rest))
                 (total_credit_from 0%Q (e :: rest)) = false).
  { destruct (dec_eqb _ _) eqn:E; [|reflexivity].
    apply dec_eqb_iff in E. contradiction. }
  eexists. split.
  { rewrite generate_gl_entries_run. rewrite Hb. reflexivity. }
  split; [reflexivity|]. split; [reflexivity|]. split; [reflexivity|].
  intros Hidle. idle_start c Hidle.
  unfold try_except, bind at 1, BEGIN. cbn [pending committed today].
  unfold bind at 1. rewrite generate_gl_entries_run. rewrite Hb. reflexivity.
Qed.

Lemma unbalanced_batch_rejected_witness :
  exists c',
    _generate_gl_entries [(4, 10%Q, 0%Q, "dr"); (41, 0%Q, 5%Q, "cr")] 9 None None
      Sample.conn0
    = (Raise (ValueError unbalanced_msg), c') /\
    committed c' = committed Sample.conn0 /\
    rollback c' = (Ok tt, Sample.conn0).
Proof.
  destruct (unbalanced_batch_rejected
              [(4, 10%Q, 0%Q, "dr"); (41, 0%Q, 5%Q, "cr")] 9 None None Sample.conn0)
    as (c' & Hrun & Hcm & _ & Hrb & _).
  - vm_compute. discriminate.
  - exists c'. repeat split; assumption.
Defined.

(** C2, as stated, fails for the helper: after the failed call the two
    lines of the batch are in the ledger the connection sees. *)
Lemma unbalanced_batch_lines_pending :
  exists c',
    _generate_gl_entries [(4, 10%Q, 0%Q, "dr"); (41, 0%Q, 5%Q, "cr")] 9 None None
      Sample.conn0
    = (Raise (ValueError unbalanced_msg), c') /\
    GeneralLedger (visible Sample.conn0) = [] /\
    GeneralLedger (visible c') =
      [ GL.mk 1 "2025-01-15" "dr" 4 10%Q 0%Q None None 9;
        GL.mk 2 "2025-01-15" "cr" 41 0%Q 5%Q None None 9 ] /\
    GeneralLedger (visible c') <> GeneralLedger (visible Sample.conn0).
Proof.
  eexists. split; [vm_compute; reflexivity|].
  split; [reflexivity|]. split; [reflexivity|].
  cbn. discriminate.
Qed.

(** ** Creating an invoice *)

(** C7.  On a connection with no open transaction, a creation request
    with quantity > 0, unit price >= 0 and tax rate >= 0, whose invoice
    number (supplied, or generated by the sequential scan) is not in use,
    succeeds and stores the header with total = quantity * unit price +
    tax, tax = subtotal * rate / 100, paid = 0, balance = total and
    status Issued, the line item, and the balanced creation batch; for
    quantity 5, unit price 25.50 and rate 0 the total is 127.50. *)
Theorem create_invoice_totals :
  forall c customer_id invoice_date due_date item_description quantity unit_price
         revenue_account_id ar_account_id actor invoice_number tax_rate,
    idle c ->
    (0 < quantity)%Q -> (0 <= unit_price)%Q -> (0 <= tax_rate)%Q ->
    existsb
      (fun i => String.eqb (Invoice.InvoiceNumber i)
                  (number_used invoice_number (visible c)))
      (Invoices (visible c)) = false ->
    let number := number_used invoice_number (visible c) in
    let subtotal := (quantity * unit_price)%Q in
    let tax := (subtotal * (tax_rate / 100))%Q in
    let total := (subtotal + tax)%Q in
    exists c' invoice_id,
      create_simple_sales_invoice customer_id invoice_date due_date item_description
        quantity unit_price revenue_account_id ar_account_id actor invoice_number
        tax_rate c
      = (Ok (Some invoice_id), c') /\
      idle c' /\
      Invoices (visible c') =
        (Invoices (visible c) ++
         [Invoice.mk invoice_id number customer_id invoice_date due_date
            total 0%Q total "Issued" actor])%list /\
      InvoiceItems (visible c') =
        (InvoiceItems (visible c) ++
         [InvoiceItem.mk invoice_id item_description quantity unit_price tax_rate
            tax total revenue_account_id])%list /\
      GeneralLedger (visible c') =
        stamp_entries (GeneralLedger (visible c)) (today c)
          [ (ar_account_id, total, 0%Q, "Invoice " ++ number);
            (revenue_account_id, 0%Q, total,
             "Invoice " ++ number ++ " - " ++ item_description) ]
          actor (Some "SalesInvoice") (Some ("InvoiceID:" ++ str_int invoice_id)) /\
      ((quantity == 5)%Q -> (unit_price == 25.50)%Q -> (tax_rate == 0)%Q ->
       (total == 127.50)%Q).
Proof.
  intros c customer_id invoice_date due_date item_description quantity unit_price
    revenue_account_id ar_account_id actor invoice_number tax_rate Hidle Hq Hp Ht.
  idle_start c Hidle. intros Hfresh.
  exists (mkConn
            (with_GeneralLedger
               (stamp_entries (GeneralLedger db) day
                  [ (ar_account_id,
                     (quantity * unit_price
                      + quantity * unit_price * (tax_rate / 100))%Q, 0%Q,
                     "Invoice " ++ number_used invoice_number db);
                    (revenue_account_id, 0%Q,
                     (quantity * unit_price
                      + quantity * unit_price * (tax_rate / 100))%Q,
                     "Invoice " ++ number_used invoice_number db ++ " - "
                       ++ item_description) ]
                  actor (Some "SalesInvoice")
                  (Some ("InvoiceID:"
                           ++ str_int (next_rowid (map Invoice.InvoiceID (Invoices db))))))
               (with_InvoiceItems
                  (InvoiceItems db ++
                   [InvoiceItem.mk (next_rowid (map Invoice.InvoiceID (Invoices db)))
                      item_description quantity unit_price tax_rate
                      (quantity * unit_price * (tax_rate / 100))%Q
                      (quantity * unit_price
                       + quantity * unit_price * (tax_rate / 100))%Q
                      revenue_account_id])
                  (with_Invoices
                     (Invoices db ++
                      [Invoice.mk (next_rowid (map Invoice.InvoiceID (Invoices db)))
                         (number_used invoice_number db) customer_id invoice_date
                         due_date
                         (quantity * unit_price
                          + quantity * unit_price * (tax_rate / 100))%Q 0%Q
                         (quantity * unit_price
                          + quantity * unit_price * (tax_rate / 100))%Q
                         "Issued" actor])
                     db)))
            None day),
         (next_rowid (map Invoice.InvoiceID (Invoices db))).
  split.
  { unfold create_simple_sales_invoice.
    apply dec_leb_false_iff in Hq. rewrite Hq.
    apply dec_ltb_false_iff in Hp. rewrite Hp.
    apply dec_ltb_false_iff in Ht. rewrite Ht. cbn [orb].
    assert (Hnum :
      (match invoice_number with
       | Some n => ret n
       | None => select next_invoice_number
       end) (mkConn db None day)
      = (Ok (number_used invoice_number db), mkConn db None day)).
    { destruct invoice_number; reflexivity. }
    unfold bind at 1. rewrite Hnum.
    unfold try_except, bind at 1, BEGIN. cbn [pending committed today].
    unfold bind at 1, insert_invoice, bind at 1, select at 1.
    cbn [visible pending]. rewrite Hfresh.
    unfold bind at 1, select at 1. cbn [visible pending].
    unfold bind at 1, execute at 1. cbn [visible pending committed today].
    unfold ret at 1.
    unfold bind at 1, execute at 1. cbn [visible pending committed today].
    unfold bind at 1. rewrite generate_gl_entries_run.
    rewrite two_sided_batch_balanced. reflexivity. }
  split; [reflexivity|]. split; [reflexivity|]. split; [reflexivity|].
  split; [reflexivity|].
  intros H1 H2 H3. rewrite H1, H2, H3. reflexivity.
Qed.

Lemma create_invoice_totals_witness :
  exists c' invoice_id i,
    create_simple_sales_invoice 10 "2025-01-15" "2025-02-14" "Widgets"
      5%Q 25.50%Q 41 7 9 None 0%Q Sample.conn0
    = (Ok (Some invoice_id), c') /\
    fetchone (fun i => Invoice.InvoiceID i =? invoice_id) (Invoices (visible c'))
    = Some i /\
    Invoice.InvoiceNumber i = "INV-0001" /\
    (Invoice.TotalAmount i == 127.50)%Q /\
    (Invoice.Balance i == 127.50)%Q /\
    Invoice.PaidAmount i = 0%Q /\
    Invoice.Status i = "Issued".
Proof.
  destruct (create_invoice_totals Sample.conn0 10 "2025-01-15" "2025-02-14" "Widgets"
              5%Q 25.50%Q 41 7 9 None 0%Q)
    as (c' & invoice_id & Hrun & _ & Hinv & _ & _ & Htot).
  - reflexivity.
  - reflexivity.
  - cbn. discriminate.
  - cbn. discriminate.
  - reflexivity.
  - exists c', invoice_id.
    exists (Invoice.mk invoice_id "INV-0001" 10 "2025-01-15" "2025-02-14"
              (5 * 25.50 + 5 * 25.50 * (0 / 100))%Q 0%Q
              (5 * 25.50 + 5 * 25.50 * (0 / 100))%Q "Issued" 9).
    split; [exact Hrun|].
    split.
    { rewrite Hinv. cbn. rewrite Z.eqb_refl. reflexivity. }
    repeat split; reflexivity.
Defined.

(** ** Listing open documents *)

Section OrderBy.
Context {A : Type} (key : A -> string).

Lemma insert_by_perm x l : Permutation (x :: l) (insert_by key x l).
Proof.
  induction l as [|y l IH]; cbn; [reflexivity|].
  destruct (String.leb (key x) (key y)); [reflexivity|].
  rewrite perm_swap. now constructor.
Qed.

Lemma order_by_perm l : Permutation l (order_by key l).
Proof.
  induction l as [|x l IH]; cbn; [constructor|].
  rewrite <- insert_by_perm. now constructor.
Qed.

Lemma leb_false_flip s t : String.leb s t = false -> String.leb t s = true.
Proof.
  intros H. destruct (String.leb_total s t) as [E|E]; [congruence|exact E].
Qed.

Lemma insert_by_sorted x l : ascending key l -> ascending key (insert_by key x l).
Proof.
  unfold ascending. induction l as [|y l IH]; cbn; intros Hs.
  - repeat constructor.
  - destruct (String.leb (key x) (key y)) eqn:E.
    + constructor; [exact Hs|]. constructor. exact E.
    + apply Sorted_inv in Hs. destruct Hs as [Hs Hhd].
      constructor; [now apply IH|].
      destruct l as [|z l]; cbn.
      * constructor. now apply leb_false_flip.
      * destruct (String.leb (key x) (key z)).
        -- constructor. now apply leb_false_flip.
        -- constructor. now apply HdRel_inv in Hhd.
Qed.

Lemma order_by_sorted l : ascending key (order_by key l).
Proof.
  induction l as [|x l IH]; cbn.
  - constructor.
  - now apply insert_by_sorted.
Qed.
End OrderBy.

Lemma filter_ext_in_list {A} (f g : A -> bool) l :
  (forall x, In x l -> f x = g x) -> filter f l = filter g l.
Proof.
  induction l as [|x l IH]; cbn; intros H; [reflexivity|].
  rewrite (H x (or_introl eq_refl)), IH; [reflexivity|].
  intros y Hy. apply H. now right.
Qed.

(** On the statuses of an invoice, the code's list [('Issued', 'Overdue')]
    is the complement of the specification's [{Paid, Cancelled, Draft}]. *)
Lemma invoice_is_open_spec party i :
  In (Invoice.Status i) invoice_statuses ->
  invoice_is_open party i = spec_open_invoice party i.
Proof.
  unfold invoice_is_open, spec_open_invoice, spec_open, invoice_statuses.
  intros [H|[H|[H|[H|[H|[]]]]]]; rewrite <- H;
    destruct (Invoice.CustomerID i =? party), (dec_ltb 0%Q (Invoice.Balance i));
    reflexivity.
Qed.

Lemma bill_is_open_spec party b : bill_is_open party b = spec_open_bill party b.
Proof.
  unfold bill_is_open, spec_open_bill, spec_open. now rewrite andb_assoc.
Qed.

Lemma invoice_is_open_amended party i :
  invoice_is_open party i = amended_open_invoice party i.
Proof.
  unfold invoice_is_open, amended_open_invoice. now rewrite andb_assoc.
Qed.

Lemma amended_open_invoice_iff party i :
  amended_open_invoice party i = true <->
  Invoice.CustomerID i = party /\
  (Invoice.Status i = "Issued" \/ Invoice.Status i = "Overdue") /\
  (0 < Invoice.Balance i)%Q.
Proof.
  unfold amended_open_invoice.
  rewrite !andb_true_iff, orb_true_iff, Z.eqb_eq, !String.eqb_eq, dec_ltb_iff.
  reflexivity.
Qed.

(** C8, as the code has it.  For bills the list-open operation returns
    the bills of the vendor that are open in the specification's sense
    (status not in {Paid, Cancelled, Draft} and balance > 0).  For
    invoices it selects by the list ('Issued', 'Overdue'): it returns the
    invoices of the customer whose status is Issued or Overdue and whose
    balance is > 0, each as often as it is stored and no other.  Every
    invoice it returns is open in the specification's sense, and on a
    store whose invoice statuses are among Draft, Issued, Overdue, Paid
    and Cancelled the two notions select the same invoices.  Both lists
    are in ascending order of due date, and the connection is left as it
    was. *)
Theorem list_open_documents_spec :
  forall c party,
    exists invs bs,
      list_open_customer_invoices party c = (Ok invs, c) /\
      Permutation (filter (amended_open_invoice party) (Invoices (visible c))) invs /\
      (forall i, In i invs <->
                 In i (Invoices (visible c)) /\
                 Invoice.CustomerID i = party /\
                 (Invoice.Status i = "Issued" \/ Invoice.Status i = "Overdue") /\
                 (0 < Invoice.Balance i)%Q) /\
      (forall i, In i invs -> spec_open_invoice party i = true) /\
      ((forall i, In i (Invoices (visible c)) ->
                  In (Invoice.Status i) invoice_statuses) ->
       Permutation (filter (spec_open_invoice party) (Invoices (visible c))) invs) /\
      ascending Invoice.DueDate invs /\
      list_open_vendor_bills party c = (Ok bs, c) /\
      Permutation (filter (spec_open_bill party) (Bills (visible c))) bs /\
      ascending Bill.DueDate bs.
Proof.
  intros c party.
  exists (order_by Invoice.DueDate
            (filter (invoice_is_open party) (Invoices (visible c)))),
         (order_by Bill.DueDate (filter (bill_is_open party) (Bills (visible c)))).
  assert (Hperm :
    Permutation (filter (amended_open_invoice party) (Invoices (visible c)))
      (order_by Invoice.DueDate
         (filter (invoice_is_open party) (Invoices (visible c))))).
  { rewrite <- order_by_perm.
    rewrite (filter_ext_in_list (invoice_is_open party) (amended_open_invoice party));
      [reflexivity|].
    intros i _. apply invoice_is_open_amended. }
  assert (Hin : forall i,
    In i (order_by Invoice.DueDate
            (filter (invoice_is_open party) (Invoices (visible c)))) <->
    In i (Invoices (visible c)) /\
    Invoice.CustomerID i = party /\
    (Invoice.Status i = "Issued" \/ Invoice.Status i = "Overdue") /\
    (0 < Invoice.Balance i)%Q).
  { intros i. rewrite <- amended_open_invoice_iff, <- filter_In.
    split; intros H.
    - exact (Permutation_in _ (Permutation_sym Hperm) H).
    - exact (Permutation_in _ Hperm H). }
  split; [reflexivity|]. split; [exact Hperm|]. split; [exact Hin|].
  split.
  { intros i Hi. apply Hin in Hi. destruct Hi as (_ & Hp & Hs & Hb).
    unfold spec_open_invoice, spec_open.
    apply Z.eqb_eq in Hp. apply dec_ltb_iff in Hb. rewrite Hp, Hb.
    destruct Hs as [-> | ->]; reflexivity. }
  split.
  { intros Hst. rewrite <- order_by_perm.
    rewrite (filter_ext_in_list (invoice_is_open party) (spec_open_invoice party));
      [reflexivity|].
    intros i Hi. apply invoice_is_open_spec. now apply Hst. }
  split; [apply order_by_sorted|]. split; [reflexivity|]. split.
  { rewrite <- order_by_perm.
    rewrite (filter_ext_in_list (bill_is_open party) (spec_open_bill party)).
    - reflexivity.
    - intros b _. apply bill_is_open_spec. }
  apply order_by_sorted.
Qed.

Lemma list_open_documents_spec_witness :
  exists invs bs,
    list_open_customer_invoices 10 Sample.conn = (Ok invs, Sample.conn) /\
    map Invoice.InvoiceID invs = [2; 1] /\
    list_open_vendor_bills 10 Sample.conn = (Ok bs, Sample.conn) /\
    map Bill.BillID bs = [2; 1].
Proof.
  destruct (list_open_documents_spec Sample.conn 10)
    as (invs & bs & Hi & _ & _ & _ & _ & _ & Hb & _).
  exists invs, bs.
  split; [exact Hi|].
  split; [injection Hi as <-; reflexivity|].
  split; [exact Hb|].
  injection Hb as <-. reflexivity.
Defined.

(** C8, as stated, fails for invoices.  An invoice of customer 10 with
    the status Sent and a balance of 100 is open in the specification's
    sense, its status being none of Paid, Cancelled and Draft; the list
    of the customer's open invoices is empty. *)
Lemma list_open_invoices_skips_other_status :
  let sent := Invoice.mk 7 "INV-0007" 10 "2025-01-10" "2025-02-09"
                100%Q 0%Q 100%Q "Sent" 9 in
  let c := mkConn (with_Invoices [sent] Sample.empty_db) None "2025-01-22" in
  In sent (filter (spec_open_invoice 10) (Invoices (visible c))) /\
  list_open_customer_invoices 10 c = (Ok [], c).
Proof.
  split; [left; reflexivity|reflexivity].
Qed.

(** ** Sums over the ledger *)

Lemma qsum_app xs ys : (qsum (xs ++ ys) == qsum xs + qsum ys)%Q.
Proof.
  unfold qsum. induction xs as [|x xs IH]; cbn.
  - ring.
  - rewrite IH. ring.
Qed.

Lemma ledger_sum_app sel val gl1 gl2 :
  (ledger_sum sel val (gl1 ++ gl2) == ledger_sum sel val gl1 + ledger_sum sel val gl2)%Q.
Proof.
  unfold ledger_sum. rewrite filter_app, map_app. apply qsum_app.
Qed.

(** Posting a batch adds the batch's own sum to every ledger sum. *)
Lemma stamp_entries_sum sel val day created_by entry_type reference entries :
  forall gl,
    (ledger_sum sel val
       (stamp_entries gl day entries created_by entry_type reference)
     == ledger_sum sel val gl + batch_sum sel val day entries)%Q.
Proof.
  induction entries as [|[[[a d] c] desc] rest IH]; intros gl.
  - cbn [stamp_entries]. unfold batch_sum. cbn [filter map qsum fold_right]. ring.
  - cbn [stamp_entries]. rewrite IH. rewrite ledger_sum_app.
    unfold batch_sum at 2. cbn [filter entry_account].
    unfold ledger_sum at 2. cbn [filter GL.AccountID GL.EntryDate].
    destruct (sel a day).
    + cbn [map qsum fold_right GL.DebitAmount GL.CreditAmount entry_debit entry_credit].
      unfold batch_sum. fold (qsum (map (fun e => val (entry_debit e) (entry_credit e))
         (filter (fun e => sel (entry_account e) day) rest))). ring.
    + cbn [map qsum fold_right]. unfold batch_sum. ring.
Qed.

(** ** The two balances *)

Lemma bankBalance_visible b c : bankBalance b c = bank_balance_of b (visible c).
Proof.
  unfold bankBalance, bank_balance_of, view_bank_account_balance, bind, select.
  cbn. now destruct (fetchone _ _).
Qed.



(** ** Cash-affecting operations *)






Ltac split_keys :=
  repeat match goal with
         | |- context [Z.eqb ?x ?y] => destruct (Z.eqb_spec x y)
         end.




(** C9, at the failing input.  Bank account 1 and its Debit-polarity cash
    account 4 start reconciled at 0.  A customer payment of 78.90 on that
    pair succeeds and raises the cached balance to 78.90; the ledger
    balance is read from a [SUM] that SQLite returns as the double nearest
    to 78.9, which [Decimal] converts digit by digit, so
    [view_gl_account_balance] returns 78.90000000000000568434188608 and
    the two balances differ. *)
Theorem customer_payment_breaks_reconciled :
  respects_link 1 4 (CustomerPayment 10 "2025-01-15" 78.90%Q "Check" 1 4 7 9 None) /\
  reconciled 1 4 Sample.conn0 /\
  exists id c',
    record_simple_customer_payment 10 "2025-01-15" 78.90%Q "Check" 1 4 7 9 None
      Sample.conn0 = (Ok (Some id), c') /\
    (bankBalance 1 c' == 78.90)%Q /\
    (accountBalance 4 c' == 78.90000000000000568434188608)%Q /\
    ~ reconciled 1 4 c'.
Proof.
  split.
  { split.
    - cbn. intros b' a' [E|[]]. injection E as <- <-. tauto.
    - cbn. intros [E|[]]. discriminate. }
  split; [vm_compute; reflexivity|].
  eexists. eexists. split; [vm_compute; reflexivity|].
  split; [vm_compute; reflexivity|].
  split; [vm_compute; reflexivity|].
  vm_compute. discriminate.
Qed.

(** The same pair is also driven apart without any fraction: a cash
    receipt may name the cash account as its own income account (only the
    bank transfer and the manual journal entry refuse equal accounts).
    The receipt of 100 raises the cached balance of bank account 1 to 100
    and posts a debit and a credit of 100 to account 4, whose ledger
    balance stays 0. *)
Lemma receipt_on_cash_account_breaks_reconciled :
  reconciled 1 4 Sample.conn0 /\
  exists id c',
    record_simple_cash_receipt "2025-01-15" 100%Q "Received Bank Interest" 1 4 4 9 None
      Sample.conn0 = (Ok (Some id), c') /\
    (bankBalance 1 c' == 100)%Q /\
    (accountBalance 4 c' == 0)%Q.
Proof.
  split; [vm_compute; reflexivity|].
  eexists. eexists. split; [vm_compute; reflexivity|].
  split; vm_compute; reflexivity.
Qed.

(** ** Trial balance *)

Lemma total_debit_from_sum entries :
  forall td, (total_debit_from td entries == td + qsum (map entry_debit entries))%Q.
Proof.
  unfold total_debit_from, qsum.
  induction entries as [|[[[a d] c] m] rest IH]; intros td; cbn [fold_left map fold_right].
  - ring.
  - rewrite IH. cbn [entry_debit]. ring.
Qed.

Lemma total_credit_from_sum entries :
  forall tc, (total_credit_from tc entries == tc + qsum (map entry_credit entries))%Q.
Proof.
  unfold total_credit_from, qsum.
  induction entries as [|[[[a d] c] m] rest IH]; intros tc; cbn [fold_left map fold_right].
  - ring.
  - rewrite IH. cbn [entry_credit]. ring.
Qed.

Lemma batch_sum_all_net day entries :
  (batch_sum (fun _ _ => true) net day entries
   == qsum (map entry_debit entries) - qsum (map entry_credit entries))%Q.
Proof.
  unfold batch_sum, qsum, net.
  induction entries as [|e rest IH]; cbn [filter map fold_right].
  - ring.
  - rewrite IH. ring.
Qed.

Lemma batch_sum_none val day entries :
  (batch_sum (fun _ _ => false) val day entries == 0)%Q.
Proof.
  unfold batch_sum. induction entries as [|e rest IH]; cbn [filter]; [reflexivity|exact IH].
Qed.

(** A balanced batch adds nothing to the net of the ledger up to any
    cutoff: its lines carry one entry date. *)
Lemma balanced_batch_net report_date day entries :
  (total_debit_from 0%Q entries == total_credit_from 0%Q entries)%Q ->
  (batch_sum (sel_date report_date) net day entries == 0)%Q.
Proof.
  intros Hb. rewrite total_debit_from_sum, total_credit_from_sum in Hb.
  assert (Hall : (batch_sum (fun _ _ => true) net day entries == 0)%Q).
  { rewrite batch_sum_all_net.
    setoid_replace (qsum (map entry_debit entries) - qsum (map entry_credit entries))%Q
      with ((0 + qsum (map entry_debit entries))
            - (0 + qsum (map entry_credit entries)))%Q by ring.
    rewrite Hb. ring. }
  unfold sel_date. destruct report_date as [r|]; [|exact Hall].
  unfold batch_sum. cbn beta. destruct (String.leb day r).
  - exact Hall.
  - exact (batch_sum_none net day entries).
Qed.


Lemma posted_nets_to_zero c :
  posted c -> idle c /\ nets_to_zero (GeneralLedger (committed c)).
Proof.
  induction 1 as [c Hidle Hgl|c entries emp ty ref c' Hp [Hidle IH] Hrun|c db day Hp [Hidle IH] Hgl].
  - split; [exact Hidle|]. intros rd. rewrite Hgl. reflexivity.
  - clear Hp. revert Hrun IH. idle_start c Hidle. intros Hrun IH.
    unfold bind at 1, BEGIN in Hrun. cbn [pending committed today] in Hrun.
    destruct entries as [|e rest].
    + cbn in Hrun. injection Hrun as <-. split; [reflexivity|].
      cbn [committed GeneralLedger]. exact IH.
    + unfold bind at 1 in Hrun. rewrite generate_gl_entries_run in Hrun.
      destruct (dec_eqb _ _) eqn:E; [|discriminate].
      cbv beta iota delta [commit in_transaction visible pending committed today]
        in Hrun.
      injection Hrun as <-. split; [reflexivity|].
      intros rd.
      change (ledger_sum (sel_date rd) net
                (stamp_entries (GeneralLedger db) day (e :: rest) emp ty ref) == 0)%Q.
      unfold nets_to_zero in IH. rewrite stamp_entries_sum, (IH rd).
      apply dec_eqb_iff in E. rewrite (balanced_batch_net rd day _ E). ring.
  - split; [reflexivity|]. cbn [committed]. now rewrite Hgl.
Qed.

Lemma ledger_sum_net sel gl :
  (ledger_sum sel net gl
   == ledger_sum sel (fun d _ => d) gl - ledger_sum sel (fun _ c => c) gl)%Q.
Proof.
  unfold ledger_sum, qsum, net.
  induction gl as [|l gl IH]; cbn [filter map fold_right]; [ring|].
  destruct (sel _ _); cbn [filter map fold_right]; rewrite IH; ring.
Qed.

(** C1, at the failing input.  From the empty ledger of the sample, one
    manual journal entry of 150.75 between the active accounts 4 (Debit)
    and 41 (Credit) is posted.  The ledger is reachable and nets to zero,
    and every line is on an active account; but for account 4 SQLite
    returns the debit [SUM] as the double 150.75 and the credit [SUM] as
    the integer 0, which the report replaces by [Decimal('0.00')], and
    [float - Decimal] raises [TypeError] inside the report's [try]: the
    report is [None], for the open cutoff and for a cutoff after the
    entry. *)
Theorem trial_balance_fails_on_fraction :
  exists c1,
    post_simple_manual_journal_entry "2025-01-15" "Owner funding" 4 41 150.75%Q 9
      None Sample.conn0 = (Ok true, c1) /\
    posted c1 /\
    chart_covers_ledger (visible c1) /\
    nets_to_zero (GeneralLedger (visible c1)) /\
    gl_sums 4 None (visible c1)
    = (Some (SqlReal (to_double 150.75%Q)), Some (SqlInteger 0)) /\
    (exists msg,
        py_sub (PyFloat (to_double 150.75%Q)) (PyDecimal 0%Q) c1
        = (Raise (TypeError msg), c1)) /\
    generate_trial_balance None c1 = (Ok None, c1) /\
    generate_trial_balance (Some "2025-01-31") c1 = (Ok None, c1).
Proof.
  eexists.
  split; [vm_compute; reflexivity|].
  assert (Hposted :
    posted
      (snd (post_simple_manual_journal_entry "2025-01-15" "Owner funding" 4 41
              150.75%Q 9 None Sample.conn0))).
  { apply (posted_batch Sample.conn0
             [(4, 150.75%Q, 0%Q, "Owner funding");
              (41, 0%Q, 150.75%Q, "Owner funding")]
             9 (Some "ManualJournal") (Some "Manual Journal Entry 2025-01-15")).
    - apply posted_empty; reflexivity.
    - vm_compute. reflexivity. }
  split; [exact Hposted|].
  split.
  { split; [|split].
    - repeat constructor; cbn; intuition discriminate.
    - intros l [<-|[<-|[]]]; cbn; tauto.
    - intros a Ha Hact. cbn in Ha.
      repeat (destruct Ha as [<-|Ha]; [cbn; tauto|]). destruct Ha. }
  split; [exact (proj2 (posted_nets_to_zero _ Hposted))|].
  split; [vm_compute; reflexivity|].
  split; [eexists; vm_compute; reflexivity|].
  split; vm_compute; reflexivity.
Qed.

(** With whole amounts the report is produced, over the active accounts
    only: a journal entry of 100 from account 4 to the inactive account
    60 gives the totals 100 and 0. *)
Lemma trial_balance_skips_inactive :
  exists c1 tb,
    post_simple_manual_journal_entry "2025-01-15" "Reclass to suspense" 4 60 100%Q 9
      None Sample.conn0 = (Ok true, c1) /\
    posted c1 /\
    generate_trial_balance None c1 = (Ok (Some tb), c1) /\
    (py_value (debit (totals tb)) == 100)%Q /\
    (py_value (credit (totals tb)) == 0)%Q.
Proof.
  eexists. eexists.
  split; [vm_compute; reflexivity|].
  split.
  { apply (posted_batch Sample.conn0
             [(4, 100%Q, 0%Q, "Reclass to suspense");
              (60, 0%Q, 100%Q, "Reclass to suspense")]
             9 (Some "ManualJournal") (Some "Manual Journal Entry 2025-01-15")).
    - apply posted_empty; reflexivity.
    - vm_compute. reflexivity. }
  split; [vm_compute; reflexivity|].
  split; vm_compute; reflexivity.
Qed.

(** * Further properties *)

(** ** The books stay balanced *)

Section Keeps.
Context (E : Connection -> Prop).
Hypothesis E_weak : forall c, books_balance c -> E c.

Lemma keeps_ret {A} (a : A) : keeps E (ret a).
Proof. intros c H. exact H. Qed.

Lemma keeps_raise {A} e : keeps E (@raise A e).
Proof. intros c H. cbn. now apply E_weak. Qed.

Lemma keeps_bind {A B} (m : M A) (k : A -> M B) :
  keeps E m -> (forall a, keeps E (k a)) -> keeps E (bind m k).
Proof.
  intros Hm Hk c H. unfold bind. specialize (Hm c H).
  destruct (m c) as [[a|e] c']; [|exact Hm].
  exact (Hk a c' Hm).
Qed.

Lemma keeps_select {A} (q : DB -> A) : keeps E (select q).
Proof. intros c H. exact H. Qed.

Lemma keeps_date_now : keeps E date_now.
Proof. intros c H. exact H. Qed.

Lemma keeps_BEGIN : keeps E BEGIN.
Proof.
  intros c [Hc Hv]. unfold BEGIN. destruct (pending c) eqn:P.
  - apply E_weak. now split.
  - split; exact Hc.
Qed.

Lemma keeps_commit : keeps E commit.
Proof. intros c [Hc Hv]. split; exact Hv. Qed.

Lemma keeps_rollback : keeps E rollback.
Proof. intros c [Hc Hv]. split; exact Hc. Qed.

(** A write that leaves the general ledger alone. *)
Lemma keeps_execute (f : DB -> DB) :
  (forall db, GeneralLedger (f db) = GeneralLedger db) -> keeps E (execute f).
Proof.
  intros Hf c [Hc Hv]. split; [exact Hc|].
  cbn [visible pending]. now rewrite Hf.
Qed.

Lemma keeps_try {A} (body : M A) (handler : exn -> M A) :
  keeps books_committed body ->
  (forall e, recovers (handler e)) ->
  keeps E (try_except body handler).
Proof.
  intros Hb Hh c H. unfold try_except. specialize (Hb c H).
  destruct (body c) as [[a|e] c']; [exact Hb|].
  specialize (Hh e c' Hb). destruct (handler e c') as [[a|e'] c'']; [exact Hh|].
  destruct Hh.
Qed.
End Keeps.

Lemma recovers_rollback {A} (a : A) : recovers (rollback ;; ret a).
Proof. intros c H. split; exact H. Qed.

Lemma books_weak c : books_balance c -> books_committed c.
Proof. now intros [H _]. Qed.

(** The posting helper keeps the books whatever the batch: it returns
    only when the batch balances, and a raise leaves the committed ledger
    as it was. *)
Lemma keeps_generate_gl_entries entries created_by entry_type reference :
  keeps books_committed
    (_generate_gl_entries entries created_by entry_type reference).
Proof.
  intros c [Hc Hv]. destruct entries as [|e rest].
  - cbn. now split.
  - rewrite generate_gl_entries_run.
    destruct (dec_eqb _ _) eqn:Eb; [|exact Hc].
    split; [exact Hc|]. intros rd.
    change (ledger_sum (sel_date rd) net
              (stamp_entries (GeneralLedger (visible c)) (today c) (e :: rest)
                 created_by entry_type reference) == 0)%Q.
    rewrite stamp_entries_sum, (Hv rd).
    apply dec_eqb_iff in Eb. rewrite (balanced_batch_net rd _ _ Eb). ring.
Qed.

Ltac keeps_weak := first [assumption | exact books_weak | exact (fun _ H => H)].

(** Take one step through a computation built from the primitives. *)
Ltac keeps_step :=
  match goal with
  | |- keeps _ (bind _ _) => apply keeps_bind; [|intros ?]
  | |- keeps _ (ret _) => apply keeps_ret
  | |- keeps _ (raise _) => apply keeps_raise; keeps_weak
  | |- keeps _ (select _) => apply keeps_select
  | |- keeps _ date_now => apply keeps_date_now
  | |- keeps _ BEGIN => apply keeps_BEGIN; keeps_weak
  | |- keeps _ commit => apply keeps_commit
  | |- keeps _ rollback => apply keeps_rollback
  | |- keeps _ (execute _) => apply keeps_execute; intros ?; reflexivity
  | |- keeps _ (_generate_gl_entries _ _ _ _) => apply keeps_generate_gl_entries
  | |- keeps _ (try_except _ _) =>
      apply keeps_try; [|intros ?; apply recovers_rollback]
  | |- keeps _ (match ?x with _ => _ end) => destruct x
  end.

Ltac keeps_auto := repeat keeps_step.

Section KeepsOps.
Context (E : Connection -> Prop).
Hypothesis E_weak : forall c, books_balance c -> E c.

Lemma keeps_insert_cash_transaction d bank ty amt desc ref rel emp :
  keeps E (insert_cash_transaction d bank ty amt desc ref rel emp).
Proof. unfold insert_cash_transaction. keeps_auto. Qed.

Lemma keeps_insert_payment customer party d amt meth ref bank emp :
  keeps E (insert_payment customer party d amt meth ref bank emp).
Proof.
  unfold insert_payment. keeps_auto.
  apply keeps_execute. intros db. destruct customer; reflexivity.
Qed.

Lemma keeps_insert_invoice num cust d due total bal emp :
  keeps E (insert_invoice num cust d due total bal emp).
Proof. unfold insert_invoice. keeps_auto. Qed.

Lemma keeps_insert_bill num vend d due total emp :
  keeps E (insert_bill num vend d due total emp).
Proof. unfold insert_bill. keeps_auto. Qed.
End KeepsOps.

Ltac keeps_op :=
  repeat first
    [ keeps_step
    | apply keeps_insert_cash_transaction; keeps_weak
    | apply keeps_insert_payment; keeps_weak
    | apply keeps_insert_invoice; keeps_weak
    | apply keeps_insert_bill; keeps_weak ].

(** X1.  Every mutating operation keeps the books balanced: started on a
    connection whose committed and visible ledgers net to zero up to any
    cutoff date, it ends on such a connection, whatever its arguments,
    whether it returns a result, returns a failure or raises, and whether
    or not a transaction was open. *)
Theorem every_operation_keeps_books :
  forall op c, books_balance c -> books_balance (run_ledger_op op c).
Proof.
  intros op c H.
  assert (K : forall A (m : M A), keeps books_balance m -> books_balance (snd (m c))).
  { intros A m Hm. specialize (Hm c H). destruct (m c) as [[a|e] c']; exact Hm. }
  destruct op as [o| | | | | | | | ]; cbn [run_ledger_op].
  - destruct o; cbn [run_cash_op]; apply K.
    + unfold record_simple_cash_receipt. keeps_op.
    + unfold record_simple_cash_disbursement. keeps_op.
    + unfold record_bank_transfer. keeps_op.
    + unfold record_simple_customer_payment. keeps_op.
    + unfold record_simple_vendor_payment. keeps_op.
  - apply K. unfold post_simple_manual_journal_entry. keeps_op.
  - apply K. unfold create_simple_sales_invoice. keeps_op.
  - apply K. unfold enter_simple_vendor_bill. keeps_op.
  - apply K. unfold apply_full_payment_to_invoice. keeps_op.
  - apply K. unfold apply_full_payment_to_bill. keeps_op.
  - apply K. unfold void_invoice. keeps_op.
  - apply K. unfold void_bill. keeps_op.
  - apply K. unfold record_fixed_asset_purchase. keeps_op.
Qed.

Lemma every_operation_keeps_books_witness :
  books_balance Sample.conn /\
  books_balance (run_ledger_op (OpVoidInvoice 2 7 41 9) Sample.conn) /\
  books_balance
    (run_ledger_op
       (OpCash (CashReceipt "2025-01-15" 150.75%Q "Received Bank Interest" 1 4 43 9 None))
       Sample.conn).
Proof.
  assert (H : books_balance Sample.conn).
  { split; intros rd; reflexivity. }
  split; [exact H|]. split.
  - apply (every_operation_keeps_books (OpVoidInvoice 2 7 41 9) Sample.conn H).
  - apply (every_operation_keeps_books
             (OpCash (CashReceipt "2025-01-15" 150.75%Q "Received Bank Interest"
                        1 4 43 9 None)) Sample.conn H).
Defined.

(** ** What a posting does to the net debit of an account *)

Lemma netDebit_after_post a db db' day entries created_by entry_type reference :
  GeneralLedger db' =
    stamp_entries (GeneralLedger db) day entries created_by entry_type reference ->
  (netDebit a (mkConn db' None day)
   == netDebit a (mkConn db None day)
      + batch_sum (sel_account a None) net day entries)%Q.
Proof.
  intros Hgl. unfold netDebit. cbn [visible pending committed].
  rewrite Hgl. apply stamp_entries_sum.
Qed.

(** ** Cash receipts, disbursements and transfers *)



Ltac post_effect :=
  etransitivity; [eapply netDebit_after_post; reflexivity|].

Ltac post_arith :=
  unfold batch_sum, sel_account, qsum, net;
  cbn [filter entry_account entry_debit entry_credit];
  split_keys;
  try congruence;
  cbn [andb filter map fold_right entry_account entry_debit entry_credit];
  ring.









(** ** Manual journal entries and asset purchases *)

Lemma post_simple_manual_journal_entry_run db day d desc da ca amount emp ref :
  (0 < amount)%Q -> da <> ca ->
  post_simple_manual_journal_entry d desc da ca amount emp ref (mkConn db None day)
  = (Ok true,
     mkConn
       (with_GeneralLedger
          (stamp_entries (GeneralLedger db) day
             [ (da, amount, 0%Q, desc); (ca, 0%Q, amount, desc) ]
             emp (Some "ManualJournal")
             (Some (str_or ref ("Manual Journal Entry " ++ d))))
          db)
       None day).
Proof.
  intros Hpos Hne. unfold post_simple_manual_journal_entry.
  apply dec_leb_false_iff in Hpos. rewrite Hpos.
  destruct (Z.eqb_spec da ca) as [|_]; [contradiction|].
  unfold try_except, bind at 1, BEGIN. cbn [pending committed today].
  unfold bind at 1. rewrite generate_gl_entries_run.
  rewrite two_sided_batch_balanced. reflexivity.
Qed.

(** The net debit of an account the batch does not name stays as it is. *)
Lemma netDebit_untouched a db db' day entries created_by entry_type reference :
  GeneralLedger db' =
    stamp_entries (GeneralLedger db) day entries created_by entry_type reference ->
  (forall e, In e entries -> entry_account e <> a) ->
  (netDebit a (mkConn db' None day) == netDebit a (mkConn db None day))%Q.
Proof.
  intros Hgl Hout.
  rewrite (netDebit_after_post a db db' day _ _ _ _ Hgl).
  assert (H0 : (batch_sum (sel_account a None) net day entries == 0)%Q).
  { unfold batch_sum. clear Hgl. induction entries as [|e rest IH]; [reflexivity|].
    cbn [filter]. unfold sel_account at 1.
    destruct (Z.eqb_spec (entry_account e) a) as [E|_].
    - exfalso. exact (Hout e (or_introl eq_refl) E).
    - cbn [andb]. apply IH. intros x Hx. apply Hout. now right. }
  rewrite H0. ring.
Qed.

(** X5.  A manual journal entry of a positive amount between two
    different accounts of the chart on an idle connection succeeds; the
    net debit of the debited account rises by the amount, that of the
    credited account falls by it, every other account keeps its net debit
    and no cached bank balance moves. *)
Theorem manual_journal_updates_balances :
  forall c d desc da ca amount emp ref ad ac,
    idle c ->
    (0 < amount)%Q -> da <> ca ->
    fetchone (fun x => Account.AccountID x =? da) (ChartOfAccounts (visible c))
    = Some ad ->
    fetchone (fun x => Account.AccountID x =? ca) (ChartOfAccounts (visible c))
    = Some ac ->
    exists c',
      post_simple_manual_journal_entry d desc da ca amount emp ref c = (Ok true, c') /\
      idle c' /\
      (netDebit da c' == netDebit da c + amount)%Q /\
      (netDebit ca c' == netDebit ca c - amount)%Q /\
      (forall x, x <> da -> x <> ca -> (netDebit x c' == netDebit x c)%Q) /\
      (forall b, bankBalance b c' = bankBalance b c).
Proof.
  intros c d desc da ca amount emp ref ad ac Hidle.
  idle_start c Hidle. intros Hpos Hne Hd Hc.
  eexists. split; [apply post_simple_manual_journal_entry_run; assumption|].
  split; [reflexivity|]. split; [|split; [|split]].
  - post_effect. post_arith.
  - post_effect. post_arith.
  - intros x Hx1 Hx2.
    eapply netDebit_untouched; [reflexivity|].
    intros e [<-|[<-|[]]]; cbn; congruence.
  - intros b. rewrite !bankBalance_visible. reflexivity.
Qed.

Lemma manual_journal_updates_balances_witness :
  exists c',
    post_simple_manual_journal_entry "2025-01-15" "Accrue interest" 7 43 100%Q 9 None
      Sample.conn0 = (Ok true, c') /\
    (netDebit 7 c' == 100)%Q /\
    (netDebit 43 c' == -100)%Q /\
    (netDebit 4 c' == 0)%Q.
Proof.
  destruct (manual_journal_updates_balances Sample.conn0 "2025-01-15" "Accrue interest"
              7 43 100%Q 9 None
              (Account.mk 7 "1200" "Accounts Receivable" "Asset" "Debit" true)
              (Account.mk 43 "4030" "Interest Revenue" "Revenue" "Credit" true))
    as (c' & Hrun & _ & Hd & Hc & Ho & _).
  - reflexivity.
  - reflexivity.
  - discriminate.
  - reflexivity.
  - reflexivity.
  - exists c'. split; [exact Hrun|].
    split; [rewrite Hd; vm_compute; reflexivity|].
    split; [rewrite Hc; vm_compute; reflexivity|].
    rewrite (Ho 4); [vm_compute; reflexivity|discriminate|discriminate].
Defined.

Lemma record_fixed_asset_purchase_run db day name d cost life meth asset cash emp :
  (0 < cost)%Q ->
  record_fixed_asset_purchase name d cost life meth asset cash emp (mkConn db None day)
  = (Ok true,
     mkConn
       (with_GeneralLedger
          (stamp_entries (GeneralLedger db) day
             [ (asset, cost, 0%Q, "Purchase Asset: " ++ name);
               (cash, 0%Q, cost, "Purchase Asset: " ++ name) ]
             emp (Some "AssetPurchase") (Some ("Asset:" ++ name)))
          db)
       None day).
Proof.
  intros Hpos. unfold record_fixed_asset_purchase.
  apply dec_leb_false_iff in Hpos. rewrite Hpos.
  unfold try_except, bind at 1, BEGIN. cbn [pending committed today].
  unfold bind at 1. rewrite generate_gl_entries_run.
  rewrite two_sided_batch_balanced. reflexivity.
Qed.

(** X6.  An asset purchase credits the account it is paid from and never
    touches a cached bank balance.  On an idle connection, a purchase of
    a positive cost paid from a cash account of the chart (another
    account than the asset account) succeeds, lowers the net debit of the
    cash account by the cost and leaves every bank balance as it was; a
    bank balance that equalled the net debit of the cash account before
    differs from it afterwards. *)
Theorem asset_purchase_skips_bank_balance :
  forall c name d cost life meth asset cash emp b aasset acash,
    idle c ->
    (0 < cost)%Q ->
    asset <> cash ->
    fetchone (fun x => Account.AccountID x =? asset) (ChartOfAccounts (visible c))
    = Some aasset ->
    fetchone (fun x => Account.AccountID x =? cash) (ChartOfAccounts (visible c))
    = Some acash ->
    (bankBalance b c == netDebit cash c)%Q ->
    exists c',
      record_fixed_asset_purchase name d cost life meth asset cash emp c = (Ok true, c') /\
      (netDebit cash c' == netDebit cash c - cost)%Q /\
      (forall b', bankBalance b' c' = bankBalance b' c) /\
      ~ (bankBalance b c' == netDebit cash c')%Q.
Proof.
  intros c name d cost life meth asset cash emp b aasset acash Hidle.
  idle_start c Hidle. intros Hpos Hne Ha Hc Hrec.
  eexists. split; [apply record_fixed_asset_purchase_run; exact Hpos|].
  assert (Hbal :
    (netDebit cash
       (mkConn
          (with_GeneralLedger
             (stamp_entries (GeneralLedger db) day
                [ (asset, cost, 0%Q, "Purchase Asset: " ++ name);
                  (cash, 0%Q, cost, "Purchase Asset: " ++ name) ]
                emp (Some "AssetPurchase") (Some ("Asset:" ++ name)))
             db) None day)
     == netDebit cash (mkConn db None day) - cost)%Q).
  { post_effect. post_arith. }
  split; [exact Hbal|].
  split; [intros b'; rewrite !bankBalance_visible; reflexivity|].
  rewrite Hbal.
  rewrite bankBalance_visible in *. cbn [visible pending committed] in *.
  change (bank_balance_of b
            (with_GeneralLedger
               (stamp_entries (GeneralLedger db) day
                  [ (asset, cost, 0%Q, "Purchase Asset: " ++ name);
                    (cash, 0%Q, cost, "Purchase Asset: " ++ name) ]
                  emp (Some "AssetPurchase") (Some ("Asset:" ++ name)))
               db))
    with (bank_balance_of b db).
  rewrite Hrec. intros Heq. lra.
Qed.

Lemma asset_purchase_skips_bank_balance_witness :
  exists c',
    record_fixed_asset_purchase "Laptop" "2025-01-15" 1200%Q 3 "Straight-line" 5 4 9
      Sample.conn0 = (Ok true, c') /\
    (netDebit 4 c' == -1200)%Q /\
    bankBalance 1 c' = 0%Q /\
    ~ (bankBalance 1 c' == netDebit 4 c')%Q.
Proof.
  destruct (asset_purchase_skips_bank_balance Sample.conn0 "Laptop" "2025-01-15"
              1200%Q 3 "Straight-line" 5 4 9 1
              (Account.mk 5 "1020" "Cash on Hand" "Asset" "Debit" true)
              (Account.mk 4 "1010" "Cash in Bank" "Asset" "Debit" true))
    as (c' & Hrun & Hbal & Hbank & Hnot).
  - reflexivity.
  - reflexivity.
  - discriminate.
  - reflexivity.
  - reflexivity.
  - vm_compute. reflexivity.
  - exists c'. split; [exact Hrun|].
    split; [rewrite Hbal; vm_compute; reflexivity|].
    split; [rewrite Hbank; reflexivity|exact Hnot].
Defined.

(** ** Outcomes on invalid arguments and inside an open transaction *)

Ltac guard_cases :=
  repeat match goal with
         | |- context [dec_leb ?x ?y] => destruct (dec_leb x y)
         | |- context [dec_ltb ?x ?y] => destruct (dec_ltb x y)
         | |- context [Z.eqb ?x ?y] => destruct (Z.eqb x y)
         end.

(** X7.  An operation whose arguments fail its checks raises
    [ValueError] and leaves the connection untouched, open transaction
    included; no [None] or [False] is returned for it. *)
Theorem invalid_arguments_raise :
  forall op c,
    ledger_op_args_ok op = false ->
    (exists msg, ledger_op_outcome op c = Raise (ValueError msg)) /\
    run_ledger_op op c = c.
Proof.
  intros op c H.
  destruct op as [o| | | | | | | | ]; try destruct o;
    cbn [ledger_op_args_ok] in H; try discriminate;
    cbn [ledger_op_outcome run_ledger_op run_cash_op];
    unfold succeeded, record_simple_cash_receipt, record_simple_cash_disbursement,
      record_bank_transfer, record_simple_customer_payment,
      record_simple_vendor_payment, post_simple_manual_journal_entry,
      create_simple_sales_invoice, enter_simple_vendor_bill,
      record_fixed_asset_purchase;
    revert H; guard_cases; cbn [negb andb orb]; intros H; try discriminate;
    (split; [eexists; reflexivity|reflexivity]).
Qed.

Lemma invalid_arguments_raise_witness :
  (exists msg,
      ledger_op_outcome
        (OpCash (BankTransfer "2025-01-15" 500%Q 1 4 1 5 "Same bank" 9 None))
        Sample.conn = Raise (ValueError msg)) /\
  run_ledger_op
    (OpCash (BankTransfer "2025-01-15" 500%Q 1 4 1 5 "Same bank" 9 None)) Sample.conn
  = Sample.conn.
Proof.
  apply (invalid_arguments_raise
           (OpCash (BankTransfer "2025-01-15" 500%Q 1 4 1 5 "Same bank" 9 None))
           Sample.conn).
  reflexivity.
Defined.

(** X8.  Called while a transaction is open, an operation with valid
    arguments cannot begin its own: it returns its failure value and its
    handler rolls the open transaction back, so that every pending write
    is dropped and the connection shows the committed database again. *)
Theorem open_transaction_is_rolled_back :
  forall op c db,
    pending c = Some db ->
    ledger_op_args_ok op = true ->
    ledger_op_outcome op c = Ok false /\
    run_ledger_op op c = mkConn (committed c) None (today c).
Proof.
  intros op [cm p day] db Hp H. cbn in Hp. subst p.
  destruct op as [o| | | | | | | | ]; try destruct o;
    cbn [ledger_op_args_ok] in H;
    cbn [ledger_op_outcome run_ledger_op run_cash_op];
    unfold succeeded, record_simple_cash_receipt, record_simple_cash_disbursement,
      record_bank_transfer, record_simple_customer_payment,
      record_simple_vendor_payment, post_simple_manual_journal_entry,
      create_simple_sales_invoice, enter_simple_vendor_bill,
      record_fixed_asset_purchase, apply_full_payment_to_invoice,
      apply_full_payment_to_bill, void_invoice, void_bill;
    revert H; guard_cases; cbn [negb andb orb]; intros H; try discriminate;
    try (split; reflexivity).
  destruct invoice_number; split; reflexivity.
Qed.

Lemma open_transaction_is_rolled_back_witness :
  ledger_op_outcome (OpVoidInvoice 2 7 41 9)
    (mkConn Sample.empty_db (Some Sample.db) "2025-01-22") = Ok false /\
  run_ledger_op (OpVoidInvoice 2 7 41 9)
    (mkConn Sample.empty_db (Some Sample.db) "2025-01-22")
  = mkConn Sample.empty_db None "2025-01-22".
Proof.
  apply (open_transaction_is_rolled_back (OpVoidInvoice 2 7 41 9)
           (mkConn Sample.empty_db (Some Sample.db) "2025-01-22") Sample.db);
    reflexivity.
Defined.

(** ** Documents that are missing or already settled *)

(** X10.  On an idle connection, applying a payment that is not stored,
    or to a document that is not stored, and voiding a document that is
    not stored, return [False] and leave the connection untouched. *)
Theorem missing_rows_are_rejected :
  forall c payment_id doc_id a1 a2 emp,
    idle c ->
    (fetchone (fun p => Payment.PaymentID p =? payment_id)
       (CustomerPayments (visible c)) = None \/
     fetchone (fun i => Invoice.InvoiceID i =? doc_id) (Invoices (visible c)) = None ->
     apply_full_payment_to_invoice payment_id doc_id c = (Ok false, c)) /\
    (fetchone (fun p => Payment.PaymentID p =? payment_id)
       (VendorPayments (visible c)) = None \/
     fetchone (fun b => Bill.BillID b =? doc_id) (Bills (visible c)) = None ->
     apply_full_payment_to_bill payment_id doc_id c = (Ok false, c)) /\
    (fetchone (fun i => Invoice.InvoiceID i =? doc_id) (Invoices (visible c)) = None ->
     void_invoice doc_id a1 a2 emp c = (Ok false, c)) /\
    (fetchone (fun b => Bill.BillID b =? doc_id) (Bills (visible c)) = None ->
     void_bill doc_id a1 a2 emp c = (Ok false, c)).
Proof.
  intros c payment_id doc_id a1 a2 emp Hidle. idle_start c Hidle.
  split; [|split; [|split]].
  - intros H. unfold apply_full_payment_to_invoice, try_except, bind, BEGIN, select.
    cbn [pending committed today visible].
    destruct (fetchone _ (CustomerPayments db)) as [p|]; [|reflexivity].
    destruct H as [H|H]; [discriminate|]. cbn. rewrite H. reflexivity.
  - intros H. unfold apply_full_payment_to_bill, try_except, bind, BEGIN, select.
    cbn [pending committed today visible].
    destruct (fetchone _ (VendorPayments db)) as [p|]; [|reflexivity].
    destruct H as [H|H]; [discriminate|]. cbn. rewrite H. reflexivity.
  - intros H. unfold void_invoice, try_except, bind, BEGIN, select.
    cbn [pending committed today visible]. rewrite H. reflexivity.
  - intros H. unfold void_bill, try_except, bind, BEGIN, select.
    cbn [pending committed today visible]. rewrite H. reflexivity.
Qed.

Lemma missing_rows_are_rejected_witness :
  apply_full_payment_to_invoice 99 1 Sample.conn = (Ok false, Sample.conn) /\
  apply_full_payment_to_bill 1 99 Sample.conn = (Ok false, Sample.conn) /\
  void_invoice 99 7 41 9 Sample.conn = (Ok false, Sample.conn) /\
  void_bill 99 7 41 9 Sample.conn = (Ok false, Sample.conn).
Proof.
  destruct (missing_rows_are_rejected Sample.conn 99 1 7 41 9 eq_refl) as (H1 & _).
  destruct (missing_rows_are_rejected Sample.conn 1 99 7 41 9 eq_refl) as (_ & H2 & _).
  destruct (missing_rows_are_rejected Sample.conn 1 99 7 41 9 eq_refl)
    as (_ & _ & H3 & H4).
  split; [apply H1; left; reflexivity|].
  split; [apply H2; right; reflexivity|].
  split; [apply H3; reflexivity|apply H4; reflexivity].
Defined.

Lemma apply_invoice_settled c payment_id invoice_id i :
  idle c ->
  fetchone (fun i => Invoice.InvoiceID i =? invoice_id) (Invoices (visible c)) = Some i ->
  Invoice.Status i = "Paid" \/ (Invoice.Balance i <= 0)%Q ->
  apply_full_payment_to_invoice payment_id invoice_id c = (Ok false, c).
Proof.
  intros Hidle. idle_start c Hidle. intros Hi Hs.
  unfold apply_full_payment_to_invoice, try_except, bind, BEGIN, select.
  cbn [pending committed today visible].
  destruct (fetchone _ (CustomerPayments db)) as [p|]; [|reflexivity].
  cbn. rewrite Hi. cbn.
  destruct Hs as [Hs|Hs].
  - rewrite Hs. reflexivity.
  - apply dec_leb_iff in Hs. rewrite Hs. now rewrite orb_true_r.
Qed.

Lemma apply_bill_settled c payment_id bill_id b :
  idle c ->
  fetchone (fun b => Bill.BillID b =? bill_id) (Bills (visible c)) = Some b ->
  Bill.Status b = "Paid" \/ (Bill.Balance b <= 0)%Q ->
  apply_full_payment_to_bill payment_id bill_id c = (Ok false, c).
Proof.
  intros Hidle. idle_start c Hidle. intros Hi Hs.
  unfold apply_full_payment_to_bill, try_except, bind, BEGIN, select.
  cbn [pending committed today visible].
  destruct (fetchone _ (VendorPayments db)) as [p|]; [|reflexivity].
  cbn. rewrite Hi. cbn.
  destruct Hs as [Hs|Hs].
  - rewrite Hs. reflexivity.
  - apply dec_leb_iff in Hs. rewrite Hs. now rewrite orb_true_r.
Qed.

(** X11.  On an idle connection, applying any payment, stored or not, to
    a document whose status is Paid or whose balance is zero or negative
    returns [False] and leaves the connection untouched. *)
Theorem settled_document_takes_no_payment :
  forall c payment_id doc_id,
    idle c ->
    (forall i,
        fetchone (fun i => Invoice.InvoiceID i =? doc_id) (Invoices (visible c))
        = Some i ->
        Invoice.Status i = "Paid" \/ (Invoice.Balance i <= 0)%Q ->
        apply_full_payment_to_invoice payment_id doc_id c = (Ok false, c)) /\
    (forall b,
        fetchone (fun b => Bill.BillID b =? doc_id) (Bills (visible c)) = Some b ->
        Bill.Status b = "Paid" \/ (Bill.Balance b <= 0)%Q ->
        apply_full_payment_to_bill payment_id doc_id c = (Ok false, c)).
Proof.
  intros c payment_id doc_id Hidle. split.
  - intros i. now apply apply_invoice_settled.
  - intros b. now apply apply_bill_settled.
Qed.

Lemma settled_document_takes_no_payment_witness :
  apply_full_payment_to_invoice 1 3 Sample.conn = (Ok false, Sample.conn) /\
  apply_full_payment_to_bill 1 3 Sample.conn = (Ok false, Sample.conn).
Proof.
  destruct (settled_document_takes_no_payment Sample.conn 1 3 eq_refl) as [Hi Hb].
  split.
  - apply (Hi (Invoice.mk 3 "INV-0003" 10 "2025-01-05" "2025-01-20"
                 50%Q 50%Q 0%Q "Paid" 9)); [reflexivity|left; reflexivity].
  - apply (Hb (Bill.mk 3 "B-102" 10 "2025-01-05" "2025-01-20" 50%Q 50%Q "Paid" 9));
      [reflexivity|left; reflexivity].
Defined.

(** X12.  Paid is terminal.  Once a payment has been applied to a
    document, a further application of any payment and a void of the
    document both return [False] and leave the connection as the first
    application left it. *)
Theorem paid_is_terminal :
  forall c payment_id doc_id,
    idle c ->
    (forall p i,
        fetchone (fun p => Payment.PaymentID p =? payment_id)
          (CustomerPayments (visible c)) = Some p ->
        fetchone (fun i => Invoice.InvoiceID i =? doc_id) (Invoices (visible c))
        = Some i ->
        Invoice.Status i <> "Paid" ->
        (0 < Invoice.Balance i)%Q ->
        (Invoice.Balance i <= Payment.Amount p)%Q ->
        exists c1,
          apply_full_payment_to_invoice payment_id doc_id c = (Ok true, c1) /\
          (forall payment_id',
              apply_full_payment_to_invoice payment_id' doc_id c1 = (Ok false, c1)) /\
          (forall a1 a2 emp, void_invoice doc_id a1 a2 emp c1 = (Ok false, c1))) /\
    (forall p b,
        fetchone (fun p => Payment.PaymentID p =? payment_id)
          (VendorPayments (visible c)) = Some p ->
        fetchone (fun b => Bill.BillID b =? doc_id) (Bills (visible c)) = Some b ->
        Bill.Status b <> "Paid" ->
        (0 < Bill.Balance b)%Q ->
        (Bill.Balance b <= Payment.Amount p)%Q ->
        exists c1,
          apply_full_payment_to_bill payment_id doc_id c = (Ok true, c1) /\
          (forall payment_id',
              apply_full_payment_to_bill payment_id' doc_id c1 = (Ok false, c1)) /\
          (forall a1 a2 emp, void_bill doc_id a1 a2 emp c1 = (Ok false, c1))).
Proof.
  intros c payment_id doc_id Hidle. split.
  - intros p i Hp Hi Hs Hb Hle.
    exists (invoice_paid_conn doc_id c).
    split; [now apply (apply_invoice_run c payment_id doc_id p i)|].
    pose proof (invoice_paid_conn_fetch c doc_id i Hi) as Hf.
    split.
    + intros payment_id'.
      apply (apply_invoice_settled _ payment_id' doc_id (Invoice.mark_paid i));
        [reflexivity|exact Hf|left; reflexivity].
    + intros a1 a2 emp.
      apply (void_invoice_rejected _ doc_id a1 a2 emp (Invoice.mark_paid i));
        [reflexivity|exact Hf|right; left; reflexivity].
  - intros p b Hp Hi Hs Hb Hle.
    exists (bill_paid_conn doc_id c).
    split; [now apply (apply_bill_run c payment_id doc_id p b)|].
    pose proof (bill_paid_conn_fetch c doc_id b Hi) as Hf.
    split.
    + intros payment_id'.
      apply (apply_bill_settled _ payment_id' doc_id (Bill.mark_paid b));
        [reflexivity|exact Hf|left; reflexivity].
    + intros a1 a2 emp.
      apply (void_bill_rejected _ doc_id a1 a2 emp (Bill.mark_paid b));
        [reflexivity|exact Hf|right; left; reflexivity].
Qed.

Lemma paid_is_terminal_witness :
  (exists c1,
      apply_full_payment_to_invoice 1 1 Sample.conn = (Ok true, c1) /\
      apply_full_payment_to_invoice 2 1 c1 = (Ok false, c1) /\
      void_invoice 1 7 41 9 c1 = (Ok false, c1)) /\
  (exists c1,
      apply_full_payment_to_bill 1 1 Sample.conn = (Ok true, c1) /\
      apply_full_payment_to_bill 2 1 c1 = (Ok false, c1) /\
      void_bill 1 23 53 9 c1 = (Ok false, c1)).
Proof.
  destruct (paid_is_terminal Sample.conn 1 1 eq_refl) as [Hi Hb].
  split.
  - destruct (Hi (Payment.mk 1 10 "2025-01-20" 127.50%Q "Check" (Some "CHK-1") 1 9)
                 (Invoice.mk 1 "INV-0001" 10 "2025-01-10" "2025-02-09"
                    127.50%Q 0%Q 127.50%Q "Issued" 9))
      as (c1 & R & A & V).
    + reflexivity.
    + reflexivity.
    + cbn. discriminate.
    + reflexivity.
    + cbn. discriminate.
    + exists c1. split; [exact R|]. split; [apply A|apply V].
  - destruct (Hb (Payment.mk 1 10 "2025-01-20" 127.50%Q "Check" (Some "CHK-7") 1 9)
                 (Bill.mk 1 "B-100" 10 "2025-01-10" "2025-02-09"
                    127.50%Q 0%Q "Received" 9))
      as (c1 & R & A & V).
    + reflexivity.
    + reflexivity.
    + cbn. discriminate.
    + reflexivity.
    + cbn. discriminate.
    + exists c1. split; [exact R|]. split; [apply A|apply V].
Defined.

(** ** Void, then payment *)

(** X13.  After a successful void an invoice takes no payment and cannot
    be voided again, since its balance is 0 and its status Cancelled.  A
    voided bill keeps its derived balance, and the application looks at
    the status Paid only: a stored payment that covers the balance is
    applied to the cancelled bill, which ends up Paid with paid = total. *)
Theorem void_then_apply :
  forall c payment_id doc_id a1 a2 emp,
    idle c ->
    (forall i,
        fetchone (fun i => Invoice.InvoiceID i =? doc_id) (Invoices (visible c))
        = Some i ->
        (Invoice.PaidAmount i <= 0)%Q ->
        Invoice.Status i <> "Paid" -> Invoice.Status i <> "Cancelled" ->
        exists c1,
          void_invoice doc_id a1 a2 emp c = (Ok true, c1) /\
          apply_full_payment_to_invoice payment_id doc_id c1 = (Ok false, c1) /\
          void_invoice doc_id a1 a2 emp c1 = (Ok false, c1)) /\
    (forall p b,
        fetchone (fun p => Payment.PaymentID p =? payment_id)
          (VendorPayments (visible c)) = Some p ->
        fetchone (fun b => Bill.BillID b =? doc_id) (Bills (visible c)) = Some b ->
        (Bill.PaidAmount b <= 0)%Q ->
        Bill.Status b <> "Paid" -> Bill.Status b <> "Cancelled" ->
        (0 < Bill.Balance b)%Q ->
        (Bill.Balance b <= Payment.Amount p)%Q ->
        exists c1 c2 b2,
          void_bill doc_id a1 a2 emp c = (Ok true, c1) /\
          apply_full_payment_to_bill payment_id doc_id c1 = (Ok true, c2) /\
          fetchone (fun b => Bill.BillID b =? doc_id) (Bills (visible c2)) = Some b2 /\
          Bill.Status b2 = "Paid" /\
          Bill.PaidAmount b2 = Bill.TotalAmount b).
Proof.
  intros c payment_id doc_id a1 a2 emp Hidle. split.
  - intros i Hi Hp Hs1 Hs2. eexists.
    split; [apply (void_invoice_run c doc_id a1 a2 emp i); assumption|].
    assert (Hf : forall db',
      Invoices db' =
        update_where (fun i => Invoice.InvoiceID i =? doc_id) Invoice.mark_cancelled
          (Invoices (visible c)) ->
      fetchone (fun i => Invoice.InvoiceID i =? doc_id)
        (Invoices (visible (mkConn db' None (today c))))
      = Some (Invoice.mark_cancelled i)).
    { intros db' E. cbn [visible pending committed]. rewrite E.
      now apply fetchone_update_where. }
    split.
    + apply (apply_invoice_settled _ payment_id doc_id (Invoice.mark_cancelled i)).
      * reflexivity.
      * apply Hf. destruct (dec_ltb 0%Q (Invoice.TotalAmount i)); reflexivity.
      * right. cbn. apply Qle_refl.
    + apply (void_invoice_rejected _ doc_id a1 a2 emp (Invoice.mark_cancelled i)).
      * reflexivity.
      * apply Hf. destruct (dec_ltb 0%Q (Invoice.TotalAmount i)); reflexivity.
      * right. right. reflexivity.
  - intros p b Hp Hb Hpaid Hs1 Hs2 Hbal Hle.
    pose proof (void_bill_run c doc_id a1 a2 emp b Hidle Hb Hpaid Hs1 Hs2) as Hvoid.
    cbv zeta in Hvoid.
    match type of Hvoid with
    | _ = (_, mkConn ?d _ _) => set (db2 := d) in *
    end.
    assert (Eb : Bills db2 =
                 update_where (fun b => Bill.BillID b =? doc_id) Bill.mark_cancelled
                   (Bills (visible c))).
    { subst db2. destruct (dec_ltb 0%Q (Bill.TotalAmount b)); reflexivity. }
    assert (Ep : VendorPayments db2 = VendorPayments (visible c)).
    { subst db2. destruct (dec_ltb 0%Q (Bill.TotalAmount b)); reflexivity. }
    assert (Hb2 : fetchone (fun b => Bill.BillID b =? doc_id)
                    (Bills (visible (mkConn db2 None (today c))))
                  = Some (Bill.mark_cancelled b)).
    { cbn [visible pending committed]. rewrite Eb. now apply fetchone_update_where. }
    exists (mkConn db2 None (today c)),
      (bill_paid_conn doc_id (mkConn db2 None (today c))),
      (Bill.mark_paid (Bill.mark_cancelled b)).
    split; [exact Hvoid|]. split.
    { apply (apply_bill_run _ payment_id doc_id p (Bill.mark_cancelled b)).
      - reflexivity.
      - cbn [visible pending committed]. rewrite Ep. exact Hp.
      - exact Hb2.
      - cbn. discriminate.
      - exact Hbal.
      - exact Hle. }
    split; [now apply bill_paid_conn_fetch|]. split; reflexivity.
Qed.

Lemma void_then_apply_witness :
  (exists c1,
      void_invoice 2 7 41 9 Sample.conn = (Ok true, c1) /\
      apply_full_payment_to_invoice 1 2 c1 = (Ok false, c1)) /\
  (exists c1 c2 b2,
      void_bill 2 23 53 9 Sample.conn = (Ok true, c1) /\
      apply_full_payment_to_bill 1 2 c1 = (Ok true, c2) /\
      fetchone (fun b => Bill.BillID b =? 2) (Bills (visible c2)) = Some b2 /\
      Bill.Status b2 = "Paid" /\
      Bill.PaidAmount b2 = 78.90%Q).
Proof.
  destruct (void_then_apply Sample.conn 1 2 7 41 9 eq_refl) as [Hi _].
  destruct (void_then_apply Sample.conn 1 2 23 53 9 eq_refl) as [_ Hb].
  split.
  - destruct (Hi (Invoice.mk 2 "INV-0002" 10 "2025-01-12" "2025-01-31"
                    78.90%Q 0%Q 78.90%Q "Issued" 9)) as (c1 & V & A & _).
    + reflexivity.
    + cbn. discriminate.
    + cbn. discriminate.
    + cbn. discriminate.
    + exists c1. split; assumption.
  - destruct (Hb (Payment.mk 1 10 "2025-01-20" 127.50%Q "Check" (Some "CHK-7") 1 9)
                 (Bill.mk 2 "B-101" 10 "2025-01-12" "2025-01-31"
                    78.90%Q 0%Q "Received" 9))
      as (c1 & c2 & b2 & V & A & F & S & P).
    + reflexivity.
    + reflexivity.
    + cbn. discriminate.
    + cbn. discriminate.
    + cbn. discriminate.
    + reflexivity.
    + cbn. discriminate.
    + exists c1, c2, b2. repeat split; assumption.
Defined.

(** ** The open list after a settlement *)

Lemma Permutation_filter_compat {A} (f : A -> bool) l l' :
  Permutation l l' -> Permutation (filter f l) (filter f l').
Proof.
  induction 1 as [|x l l' _ IH|x y l|l l' l'' _ IH1 _ IH2]; cbn.
  - constructor.
  - destruct (f x); [now constructor|exact IH].
  - destruct (f x), (f y); try reflexivity. apply perm_swap.
  - now transitivity (filter f l').
Qed.

Lemma filter_update_where_closed {A} (opened idp : A -> bool) (f : A -> A) rows :
  (forall x, idp x = true -> opened (f x) = false) ->
  filter opened (update_where idp f rows)
  = filter (fun x => negb (idp x)) (filter opened rows).
Proof.
  intros Hclosed. unfold update_where.
  induction rows as [|x rows IH]; cbn [map filter]; [reflexivity|].
  destruct (idp x) eqn:E.
  - rewrite (Hclosed x E), IH. destruct (opened x); cbn [filter]; [|reflexivity].
    now rewrite E.
  - rewrite IH. destruct (opened x); cbn [filter]; [|reflexivity].
    now rewrite E.
Qed.

(** The open list of an updated table whose updated rows are all closed. *)
Lemma open_list_after_update {A} (key : A -> string) (opened idp : A -> bool)
    (f : A -> A) rows :
  (forall x, idp x = true -> opened (f x) = false) ->
  Permutation
    (order_by key (filter opened (update_where idp f rows)))
    (filter (fun x => negb (idp x)) (order_by key (filter opened rows))).
Proof.
  intros Hclosed. rewrite <- order_by_perm.
  rewrite (filter_update_where_closed opened idp f rows Hclosed).
  apply Permutation_filter_compat, order_by_perm.
Qed.

(** X14.  Once a payment has been applied to a document, the document is
    gone from the open list of every party and the other documents are
    listed as before: the new list holds the rows of the old one whose
    identifier is another, still in ascending order of due date. *)
Theorem paid_document_leaves_open_list :
  forall c payment_id doc_id party,
    idle c ->
    (forall p i before,
        fetchone (fun p => Payment.PaymentID p =? payment_id)
          (CustomerPayments (visible c)) = Some p ->
        fetchone (fun i => Invoice.InvoiceID i =? doc_id) (Invoices (visible c))
        = Some i ->
        Invoice.Status i <> "Paid" ->
        (0 < Invoice.Balance i)%Q ->
        (Invoice.Balance i <= Payment.Amount p)%Q ->
        list_open_customer_invoices party c = (Ok before, c) ->
        exists c1 after,
          apply_full_payment_to_invoice payment_id doc_id c = (Ok true, c1) /\
          list_open_customer_invoices party c1 = (Ok after, c1) /\
          Permutation after
            (filter (fun x => negb (Invoice.InvoiceID x =? doc_id)) before) /\
          ascending Invoice.DueDate after /\
          (forall x, In x after -> Invoice.InvoiceID x <> doc_id)) /\
    (forall p b before,
        fetchone (fun p => Payment.PaymentID p =? payment_id)
          (VendorPayments (visible c)) = Some p ->
        fetchone (fun b => Bill.BillID b =? doc_id) (Bills (visible c)) = Some b ->
        Bill.Status b <> "Paid" ->
        (0 < Bill.Balance b)%Q ->
        (Bill.Balance b <= Payment.Amount p)%Q ->
        list_open_vendor_bills party c = (Ok before, c) ->
        exists c1 after,
          apply_full_payment_to_bill payment_id doc_id c = (Ok true, c1) /\
          list_open_vendor_bills party c1 = (Ok after, c1) /\
          Permutation after
            (filter (fun x => negb (Bill.BillID x =? doc_id)) before) /\
          ascending Bill.DueDate after /\
          (forall x, In x after -> Bill.BillID x <> doc_id)).
Proof.
  intros c payment_id doc_id party Hidle. split.
  - intros p i before Hp Hi Hs Hb Hle Hlist.
    exists (invoice_paid_conn doc_id c). eexists.
    split; [now apply (apply_invoice_run c payment_id doc_id p i)|].
    split; [reflexivity|].
    injection Hlist as <-.
    assert (Hperm :
      Permutation
        (order_by Invoice.DueDate
           (filter (invoice_is_open party)
              (Invoices (visible (invoice_paid_conn doc_id c)))))
        (filter (fun x => negb (Invoice.InvoiceID x =? doc_id))
           (order_by Invoice.DueDate
              (filter (invoice_is_open party) (Invoices (visible c)))))).
    { cbn [invoice_paid_conn visible pending committed Invoices with_Invoices].
      apply open_list_after_update. intros x _.
      unfold invoice_is_open. cbn. now rewrite andb_false_r. }
    split; [exact Hperm|]. split; [apply order_by_sorted|].
    intros x Hx. apply (Permutation_in _ Hperm) in Hx.
    apply filter_In in Hx. destruct Hx as [_ Hx].
    apply negb_true_iff, Z.eqb_neq in Hx. exact Hx.
  - intros p b before Hp Hi Hs Hb Hle Hlist.
    exists (bill_paid_conn doc_id c). eexists.
    split; [now apply (apply_bill_run c payment_id doc_id p b)|].
    split; [reflexivity|].
    injection Hlist as <-.
    assert (Hperm :
      Permutation
        (order_by Bill.DueDate
           (filter (bill_is_open party) (Bills (visible (bill_paid_conn doc_id c)))))
        (filter (fun x => negb (Bill.BillID x =? doc_id))
           (order_by Bill.DueDate (filter (bill_is_open party) (Bills (visible c)))))).
    { cbn [bill_paid_conn visible pending committed Bills with_Bills].
      apply open_list_after_update. intros x _.
      unfold bill_is_open. cbn. now rewrite andb_false_r. }
    split; [exact Hperm|]. split; [apply order_by_sorted|].
    intros x Hx. apply (Permutation_in _ Hperm) in Hx.
    apply filter_In in Hx. destruct Hx as [_ Hx].
    apply negb_true_iff, Z.eqb_neq in Hx. exact Hx.
Qed.

Lemma paid_document_leaves_open_list_witness :
  (exists c1 after,
      apply_full_payment_to_invoice 1 1 Sample.conn = (Ok true, c1) /\
      list_open_customer_invoices 10 c1 = (Ok after, c1) /\
      (forall x, In x after -> Invoice.InvoiceID x <> 1)) /\
  (exists c1 after,
      apply_full_payment_to_bill 1 1 Sample.conn = (Ok true, c1) /\
      list_open_vendor_bills 10 c1 = (Ok after, c1) /\
      (forall x, In x after -> Bill.BillID x <> 1)).
Proof.
  destruct (paid_document_leaves_open_list Sample.conn 1 1 10 eq_refl) as [Hi Hb].
  split.
  - destruct (Hi (Payment.mk 1 10 "2025-01-20" 127.50%Q "Check" (Some "CHK-1") 1 9)
                 (Invoice.mk 1 "INV-0001" 10 "2025-01-10" "2025-02-09"
                    127.50%Q 0%Q 127.50%Q "Issued" 9)
                 (order_by Invoice.DueDate
                    (filter (invoice_is_open 10) Sample.invoices)))
      as (c1 & after & R & L & _ & _ & N).
    + reflexivity.
    + reflexivity.
    + cbn. discriminate.
    + reflexivity.
    + cbn. discriminate.
    + reflexivity.
    + exists c1, after. repeat split; assumption.
  - destruct (Hb (Payment.mk 1 10 "2025-01-20" 127.50%Q "Check" (Some "CHK-7") 1 9)
                 (Bill.mk 1 "B-100" 10 "2025-01-10" "2025-02-09"
                    127.50%Q 0%Q "Received" 9)
                 (order_by Bill.DueDate (filter (bill_is_open 10) Sample.bills)))
      as (c1 & after & R & L & _ & _ & N).
    + reflexivity.
    + reflexivity.
    + cbn. discriminate.
    + reflexivity.
    + cbn. discriminate.
    + reflexivity.
    + exists c1, after. repeat split; assumption.
Defined.

(** ** Creating documents *)

Lemma create_simple_sales_invoice_run db day cust d due item q p rev ar emp num rate :
  (0 < q)%Q -> (0 <= p)%Q -> (0 <= rate)%Q ->
  existsb (fun i => String.eqb (Invoice.InvoiceNumber i) (number_used num db))
    (Invoices db) = false ->
  let id := next_rowid (map Invoice.InvoiceID (Invoices db)) in
  let total := (q * p + q * p * (rate / 100))%Q in
  create_simple_sales_invoice cust d due item q p rev ar emp num rate (mkConn db None day)
  = (Ok (Some id),
     mkConn
       (with_GeneralLedger
          (stamp_entries (GeneralLedger db) day
             [ (ar, total, 0%Q, "Invoice " ++ number_used num db);
               (rev, 0%Q, total, "Invoice " ++ number_used num db ++ " - " ++ item) ]
             emp (Some "SalesInvoice") (Some ("InvoiceID:" ++ str_int id)))
          (with_InvoiceItems
             (InvoiceItems db ++
              [InvoiceItem.mk id item q p rate (q * p * (rate / 100))%Q total rev])
             (with_Invoices
                (Invoices db ++
                 [Invoice.mk id (number_used num db) cust d due total 0%Q total
                    "Issued" emp])
                db)))
       None day).
Proof.
  intros Hq Hp Ht Hfresh id total. unfold create_simple_sales_invoice.
  apply dec_leb_false_iff in Hq. rewrite Hq.
  apply dec_ltb_false_iff in Hp. rewrite Hp.
  apply dec_ltb_false_iff in Ht. rewrite Ht. cbn [orb].
  assert (Hnum :
    (match num with
     | Some n => ret n
     | None => select next_invoice_number
     end) (mkConn db None day)
    = (Ok (number_used num db), mkConn db None day)).
  { destruct num; reflexivity. }
  unfold bind at 1. rewrite Hnum.
  unfold try_except, bind at 1, BEGIN. cbn [pending committed today].
  unfold bind at 1, insert_invoice, bind at 1, select at 1.
  cbn [visible pending]. rewrite Hfresh.
  unfold bind at 1, select at 1. cbn [visible pending].
  unfold bind at 1, execute at 1. cbn [visible pending committed today].
  unfold ret at 1.
  unfold bind at 1, execute at 1. cbn [visible pending committed today].
  unfold bind at 1. rewrite generate_gl_entries_run.
  rewrite two_sided_batch_balanced. reflexivity.
Qed.

Lemma enter_simple_vendor_bill_run db day vend num d due item q p ex ap emp rate :
  (0 < q)%Q -> (0 <= p)%Q -> (0 <= rate)%Q ->
  existsb (fun b => String.eqb (Bill.BillNumber b) num) (Bills db) = false ->
  let id := next_rowid (map Bill.BillID (Bills db)) in
  let total := (q * p + q * p * (rate / 100))%Q in
  enter_simple_vendor_bill vend num d due item q p ex ap emp rate (mkConn db None day)
  = (Ok (Some id),
     mkConn
       (with_GeneralLedger
          (stamp_entries (GeneralLedger db) day
             [ (ex, total, 0%Q, "Vendor Bill " ++ num);
               (ap, 0%Q, total, "Vendor Bill " ++ num) ]
             emp (Some "VendorBill") (Some ("BillID:" ++ str_int id)))
          (with_BillItems
             (BillItems db ++ [BillItem.mk id item q p rate ex])
             (with_Bills
                (Bills db ++ [Bill.mk id num vend d due total 0%Q "Received" emp])
                db)))
       None day).
Proof.
  intros Hq Hp Ht Hfresh id total. unfold enter_simple_vendor_bill.
  apply dec_leb_false_iff in Hq. rewrite Hq.
  apply dec_ltb_false_iff in Hp. rewrite Hp.
  apply dec_ltb_false_iff in Ht. rewrite Ht. cbn [orb].
  unfold try_except, bind at 1, BEGIN. cbn [pending committed today].
  unfold bind at 1, insert_bill, bind at 1, select at 1.
  cbn [visible pending]. rewrite Hfresh.
  unfold bind at 1, select at 1. cbn [visible pending].
  unfold bind at 1, execute at 1. cbn [visible pending committed today].
  unfold ret at 1.
  unfold bind at 1, execute at 1. cbn [visible pending committed today].
  unfold bind at 1. rewrite generate_gl_entries_run.
  rewrite two_sided_batch_balanced. reflexivity.
Qed.

(** X15.  On an idle connection, entering a bill with quantity > 0, unit
    price >= 0, tax rate >= 0 and a bill number not in use succeeds and
    stores the header with total = quantity * unit price + tax, paid = 0
    and status Received, so that its derived balance is the total; it
    stores the line item and posts one batch, debit expense and credit
    payable, both for the total, under the reference "BillID:<id>". *)
Theorem enter_bill_totals :
  forall c vend num d due item q p ex ap emp rate,
    idle c ->
    (0 < q)%Q -> (0 <= p)%Q -> (0 <= rate)%Q ->
    existsb (fun b => String.eqb (Bill.BillNumber b) num) (Bills (visible c)) = false ->
    exists c' id header,
      enter_simple_vendor_bill vend num d due item q p ex ap emp rate c
      = (Ok (Some id), c') /\
      idle c' /\
      header = Bill.mk id num vend d due (q * p + q * p * (rate / 100))%Q 0%Q
                 "Received" emp /\
      Bills (visible c') = (Bills (visible c) ++ [header])%list /\
      (Bill.Balance header == q * p + q * p * (rate / 100))%Q /\
      BillItems (visible c') =
        (BillItems (visible c) ++ [BillItem.mk id item q p rate ex])%list /\
      GeneralLedger (visible c') =
        stamp_entries (GeneralLedger (visible c)) (today c)
          [ (ex, (q * p + q * p * (rate / 100))%Q, 0%Q, "Vendor Bill " ++ num);
            (ap, 0%Q, (q * p + q * p * (rate / 100))%Q, "Vendor Bill " ++ num) ]
          emp (Some "VendorBill") (Some ("BillID:" ++ str_int id)).
Proof.
  intros c vend num d due item q p ex ap emp rate Hidle.
  idle_start c Hidle. intros Hq Hp Ht Hfresh.
  eexists. eexists. eexists.
  split; [apply enter_simple_vendor_bill_run; assumption|].
  split; [reflexivity|]. split; [reflexivity|]. split; [reflexivity|].
  split; [unfold Bill.Balance; cbn [Bill.TotalAmount Bill.PaidAmount]; ring|].
  split; reflexivity.
Qed.

Lemma enter_bill_totals_witness :
  exists c' id header,
    enter_simple_vendor_bill 20 "B-200" "2025-01-15" "2025-02-14" "Paper"
      3%Q 26.30%Q 53 23 9 0%Q Sample.conn0 = (Ok (Some id), c') /\
    Bills (visible c') = [header] /\
    Bill.Status header = "Received" /\
    (Bill.TotalAmount header == 78.90)%Q /\
    (Bill.Balance header == 78.90)%Q.
Proof.
  destruct (enter_bill_totals Sample.conn0 20 "B-200" "2025-01-15" "2025-02-14" "Paper"
              3%Q 26.30%Q 53 23 9 0%Q)
    as (c' & id & header & Hrun & _ & Hh & Hb & Hbal & _).
  - reflexivity.
  - reflexivity.
  - cbn. discriminate.
  - cbn. discriminate.
  - reflexivity.
  - exists c', id, header. split; [exact Hrun|]. split; [exact Hb|].
    split; [rewrite Hh; reflexivity|].
    split; [rewrite Hh; reflexivity|].
    rewrite Hbal. reflexivity.
Defined.

(** X16.  A document number already in use is refused: on an idle
    connection, creating an invoice under a supplied number that an
    invoice carries, or entering a bill under a number that a bill
    carries, returns [None] and leaves the connection untouched, with no
    header, line item or ledger line. *)
Theorem duplicate_number_is_refused :
  forall c party num d due item q p a1 a2 emp rate,
    idle c ->
    (0 < q)%Q -> (0 <= p)%Q -> (0 <= rate)%Q ->
    (existsb (fun i => String.eqb (Invoice.InvoiceNumber i) num) (Invoices (visible c))
     = true ->
     create_simple_sales_invoice party d due item q p a1 a2 emp (Some num) rate c
     = (Ok None, c)) /\
    (existsb (fun b => String.eqb (Bill.BillNumber b) num) (Bills (visible c)) = true ->
     enter_simple_vendor_bill party num d due item q p a1 a2 emp rate c = (Ok None, c)).
Proof.
  intros c party num d due item q p a1 a2 emp rate Hidle.
  idle_start c Hidle. intros Hq Hp Ht.
  apply dec_leb_false_iff in Hq. apply dec_ltb_false_iff in Hp, Ht.
  split; intros Hdup.
  - unfold create_simple_sales_invoice. rewrite Hq, Hp, Ht. cbn [orb].
    unfold bind at 1, ret at 1.
    unfold try_except, bind at 1, BEGIN. cbn [pending committed today].
    unfold bind at 1, insert_invoice, bind at 1, select at 1.
    cbn [visible pending]. rewrite Hdup. reflexivity.
  - unfold enter_simple_vendor_bill. rewrite Hq, Hp, Ht. cbn [orb].
    unfold try_except, bind at 1, BEGIN. cbn [pending committed today].
    unfold bind at 1, insert_bill, bind at 1, select at 1.
    cbn [visible pending]. rewrite Hdup. reflexivity.
Qed.

Lemma duplicate_number_is_refused_witness :
  create_simple_sales_invoice 10 "2025-01-22" "2025-02-21" "Widgets" 5%Q 25.50%Q 41 7 9
    (Some "INV-0002") 0%Q Sample.conn = (Ok None, Sample.conn) /\
  enter_simple_vendor_bill 10 "B-101" "2025-01-22" "2025-02-21" "Paper" 3%Q 26.30%Q
    53 23 9 0%Q Sample.conn = (Ok None, Sample.conn).
Proof.
  destruct (duplicate_number_is_refused Sample.conn 10 "INV-0002" "2025-01-22"
              "2025-02-21" "Widgets" 5%Q 25.50%Q 41 7 9 0%Q) as [Hi _];
    [reflexivity|reflexivity|cbn; discriminate|cbn; discriminate|].
  destruct (duplicate_number_is_refused Sample.conn 10 "B-101" "2025-01-22"
              "2025-02-21" "Paper" 3%Q 26.30%Q 53 23 9 0%Q) as [_ Hb];
    [reflexivity|reflexivity|cbn; discriminate|cbn; discriminate|].
  split; [apply Hi; reflexivity|apply Hb; reflexivity].
Defined.

(** ** Generated invoice numbers *)

Lemma leading_digits_step a r acc :
  is_digit a = true ->
  leading_digits (String a r) acc
  = leading_digits r (10 * acc + Z.of_nat (nat_of_ascii a - 48)).
Proof. intros Hd. cbn [leading_digits]. now rewrite Hd. Qed.

Ltac digit_value :=
  match goal with
  | |- context [Z.of_nat ?t] =>
      let v := eval vm_compute in (Z.of_nat t) in change (Z.of_nat t) with v
  end.

Lemma leading_digits_of_uint_acc d acc :
  leading_digits (NilEmpty.string_of_uint d) (Z.pos acc)
  = Z.pos (Pos.of_uint_acc d acc).
Proof.
  revert acc. induction d; intros acc; cbn [NilEmpty.string_of_uint Pos.of_uint_acc];
    [reflexivity|..];
    rewrite leading_digits_step by reflexivity;
    rewrite <- IHd; f_equal; digit_value; lia.
Qed.

Lemma leading_digits_of_uint d :
  leading_digits (NilEmpty.string_of_uint d) 0 = Z.of_N (Pos.of_uint d).
Proof.
  induction d; cbn [NilEmpty.string_of_uint Pos.of_uint];
    [reflexivity|..];
    rewrite leading_digits_step by reflexivity; digit_value;
    [exact IHd|..]; apply leading_digits_of_uint_acc.
Qed.

Lemma leading_digits_str_int n :
  0 <= n -> leading_digits (str_int n) 0 = n.
Proof.
  intros Hn. destruct n as [|p|p]; [reflexivity| |lia].
  unfold str_int. cbn [Z.to_int NilZero.string_of_int].
  transitivity (leading_digits (NilEmpty.string_of_uint (Pos.to_uint p)) 0).
  - unfold NilZero.string_of_uint. now destruct (Pos.to_uint p).
  - rewrite leading_digits_of_uint, DecimalPos.Unsigned.of_to. reflexivity.
Qed.

Lemma leading_digits_zeros k s :
  leading_digits (zeros k ++ s) 0 = leading_digits s 0.
Proof.
  induction k as [|k IH]; [reflexivity|]. exact IH.
Qed.

Lemma str_int_starts_with_digit n :
  0 <= n -> exists a r, str_int n = String a r /\ is_digit a = true.
Proof.
  intros Hn. destruct n as [|p|p]; [now exists "0"%char, ""| |lia].
  unfold str_int. cbn [Z.to_int NilZero.string_of_int].
  destruct (Pos.to_uint p); cbn; eexists; eexists; split; reflexivity.
Qed.

Lemma cast_integer_digits a r :
  is_digit a = true ->
  cast_integer (String a r)
  = Z.max (- 2 ^ 63) (Z.min (leading_digits (String a r) 0) (2 ^ 63 - 1)).
Proof.
  intros Hd.
  destruct a as [[] [] [] [] [] [] [] []]; vm_compute in Hd; try discriminate Hd;
    reflexivity.
Qed.

Lemma cast_integer_format_04d n :
  - 2 ^ 63 <= n <= 2 ^ 63 - 1 -> cast_integer (format_04d n) = n.
Proof.
  intros Hn. unfold format_04d. destruct (Z.ltb_spec n 0) as [Hneg|Hpos].
  - cbv zeta. unfold cast_integer. cbn [skip_spaces].
    change (is_space "-") with false. cbv iota.
    rewrite leading_digits_zeros, leading_digits_str_int by lia. lia.
  - cbv zeta.
    destruct (str_int_starts_with_digit n Hpos) as (a & r & Hs & Hd).
    assert (Hz : exists a' r',
               zeros (4 - String.length (str_int n)) ++ str_int n = String a' r'
               /\ is_digit a' = true).
    { destruct (4 - String.length (str_int n))%nat.
      - exists a, r. now split.
      - eexists. eexists. split; reflexivity. }
    destruct Hz as (a' & r' & Hz & Hd').
    rewrite Hz, (cast_integer_digits _ _ Hd'), <- Hz.
    rewrite leading_digits_zeros, leading_digits_str_int by lia. lia.
Qed.

Lemma sql_max_upper x xs :
  In x xs -> exists m, sql_max xs = Some m /\ x <= m.
Proof.
  destruct xs as [|y r]; [intros []|]. intros Hin.
  exists (fold_right Z.max y r). split; [reflexivity|].
  destruct Hin as [->|Hin].
  - clear. induction r as [|z r IH]; cbn; lia.
  - induction r as [|z r IH]; [destruct Hin|].
    cbn. destruct Hin as [->|Hin]; [lia|]. specialize (IH Hin). lia.
Qed.

Lemma cast_integer_range s : - 2 ^ 63 <= cast_integer s <= 2 ^ 63 - 1.
Proof. unfold cast_integer. cbv zeta. lia. Qed.

Lemma sql_max_in xs m : sql_max xs = Some m -> In m xs.
Proof.
  destruct xs as [|y r]; [discriminate|]. intros [= <-].
  induction r as [|z r IH]; [now left|].
  cbn [fold_right]. destruct (Z.max_spec z (fold_right Z.max y r)) as [[_ ->]|[_ ->]].
  - destruct IH as [<-|IH]; [now left|right; now right].
  - right; now left.
Qed.

Lemma next_invoice_number_value db :
  forallb (fun i => cast_integer (substr5 (Invoice.InvoiceNumber i)) <? 2 ^ 63 - 1)
    (Invoices db) = true ->
  exists n,
    next_invoice_number db = "INV-" ++ format_04d n /\
    cast_integer (format_04d n) = n /\
    forall i, In i (Invoices db) ->
      like_INV (Invoice.InvoiceNumber i) = true ->
      cast_integer (substr5 (Invoice.InvoiceNumber i)) < n.
Proof.
  intros Hb. rewrite forallb_forall in Hb. unfold next_invoice_number. cbv zeta.
  set (xs := map (fun i => cast_integer (substr5 (Invoice.InvoiceNumber i)))
               (filter (fun i => like_INV (Invoice.InvoiceNumber i)) (Invoices db))).
  eexists. split; [reflexivity|].
  assert (Hrange : - 2 ^ 63 <= match sql_max xs with Some m => m | None => 0 end
                   < 2 ^ 63 - 1).
  { destruct (sql_max xs) as [m|] eqn:Hm; [|lia].
    apply sql_max_in in Hm. unfold xs in Hm. apply in_map_iff in Hm.
    destruct Hm as (i & <- & Hi). apply filter_In in Hi. destruct Hi as [Hi _].
    specialize (Hb i Hi). apply Z.ltb_lt in Hb.
    pose proof (cast_integer_range (substr5 (Invoice.InvoiceNumber i))). lia. }
  split; [apply cast_integer_format_04d; lia|].
  intros i Hi Hlike.
  destruct (sql_max_upper (cast_integer (substr5 (Invoice.InvoiceNumber i))) xs)
    as (m & Hm & Hle).
  { unfold xs. apply in_map_iff. exists i. split; [reflexivity|].
    apply filter_In. now split. }
  rewrite Hm. lia.
Qed.

Lemma next_invoice_number_fresh db :
  forallb (fun i => cast_integer (substr5 (Invoice.InvoiceNumber i)) <? 2 ^ 63 - 1)
    (Invoices db) = true ->
  existsb (fun i => String.eqb (Invoice.InvoiceNumber i) (next_invoice_number db))
    (Invoices db) = false.
Proof.
  intros Hb. destruct (next_invoice_number_value db Hb) as (n & Hnum & Hcast & Hlt).
  destruct (existsb _ _) eqn:He; [|reflexivity].
  apply existsb_exists in He. destruct He as (i & Hi & Heq).
  apply String.eqb_eq in Heq. specialize (Hlt i Hi).
  rewrite Heq, Hnum in Hlt. specialize (Hlt eq_refl).
  change (substr5 ("INV-" ++ format_04d n)) with (format_04d n) in Hlt. lia.
Qed.

(** X17.  An invoice created without a number always gets a new one.  On
    an idle connection, with quantity > 0, unit price >= 0 and tax rate
    >= 0, and no stored invoice number whose numeric part is the largest
    64-bit integer, the call succeeds; the number it stores is
    "INV-" followed by an integer that reads back as itself and is
    greater than the numeric part of every stored "INV-" number, and no
    stored invoice carries it. *)
Theorem generated_invoice_number_is_new :
  forall c cust d due item q p rev ar emp rate,
    idle c ->
    (0 < q)%Q -> (0 <= p)%Q -> (0 <= rate)%Q ->
    forallb (fun i => cast_integer (substr5 (Invoice.InvoiceNumber i)) <? 2 ^ 63 - 1)
      (Invoices (visible c)) = true ->
    exists c' id header n,
      create_simple_sales_invoice cust d due item q p rev ar emp None rate c
      = (Ok (Some id), c') /\
      Invoices (visible c') = (Invoices (visible c) ++ [header])%list /\
      Invoice.InvoiceNumber header = "INV-" ++ format_04d n /\
      cast_integer (substr5 (Invoice.InvoiceNumber header)) = n /\
      forall i, In i (Invoices (visible c)) ->
        Invoice.InvoiceNumber i <> Invoice.InvoiceNumber header /\
        (like_INV (Invoice.InvoiceNumber i) = true ->
         cast_integer (substr5 (Invoice.InvoiceNumber i)) < n).
Proof.
  intros c cust d due item q p rev ar emp rate Hidle.
  idle_start c Hidle. intros Hq Hp Ht Hb.
  pose proof (next_invoice_number_fresh _ Hb) as Hfresh.
  destruct (next_invoice_number_value _ Hb) as (n & Hnum & Hcast & Hlt).
  eexists. eexists. eexists. exists n.
  split; [apply create_simple_sales_invoice_run; assumption|].
  split; [reflexivity|].
  cbn [Invoice.InvoiceNumber number_used].
  split; [exact Hnum|].
  split; [rewrite Hnum; exact Hcast|].
  intros i Hi. split; [|now apply Hlt].
  intros Heq.
  assert (He : existsb
                 (fun i => String.eqb (Invoice.InvoiceNumber i) (next_invoice_number db))
                 (Invoices db) = true).
  { apply existsb_exists. exists i. split; [exact Hi|]. now apply String.eqb_eq. }
  rewrite Hfresh in He. discriminate.
Qed.

Lemma generated_invoice_number_is_new_witness :
  exists c' id header,
    create_simple_sales_invoice 10 "2025-01-22" "2025-02-21" "Widgets" 5%Q 25.50%Q 41 7 9
      None 0%Q Sample.conn = (Ok (Some id), c') /\
    Invoices (visible c') = (Invoices (visible Sample.conn) ++ [header])%list /\
    existsb (fun i => String.eqb (Invoice.InvoiceNumber i) (Invoice.InvoiceNumber header))
      (Invoices (visible Sample.conn)) = false.
Proof.
  destruct (generated_invoice_number_is_new Sample.conn 10 "2025-01-22" "2025-02-21"
              "Widgets" 5%Q 25.50%Q 41 7 9 0%Q)
    as (c' & id & header & n & Hrun & Hinv & _ & _ & Hnew).
  - reflexivity.
  - reflexivity.
  - cbn. discriminate.
  - cbn. discriminate.
  - reflexivity.
  - exists c', id, header. split; [exact Hrun|]. split; [exact Hinv|].
    destruct (existsb _ _) eqn:He; [|reflexivity].
    apply existsb_exists in He. destruct He as (i & Hi & Heq).
    apply String.eqb_eq in Heq. destruct (Hnew i Hi) as [Hne _]. contradiction.
Defined.

(** ** From the document to the cash *)











